(** * wavelight: world-record / vendor table pipeline of [common_code.py]

    A shallow embedding of the data-wrangling functions of
    [src/common_code.py] and the properties the specification states
    about them.

    The script is written against pandas.  The part of pandas it relies
    on is embedded here as a small table library: a [DataFrame] has
    ordered column labels, and ordered rows that carry an index label and
    one cell per column.  Python exceptions are the [Raise] results of an
    error monad, and objects the code updates in place are threaded
    through the functions as explicit state, so that the caller's tables
    after a call can be compared with the tables before it.

    Scope of the table library.  Text is ASCII ([string] is a byte
    string, and [str.capitalize] follows the ASCII case rules); numeric
    cells are integers.  A table does not record the dtypes of its
    columns.  Where the script depends on them, the model says so: a
    column of time stamps is taken to be a datetime64 column when it is
    cast to integers, and the check [merge] makes on the dtypes of its
    key columns is a parameter of the join.  HTTP and HTML parsing happen
    before the functions embedded here: they start from the tables
    [pd.read_html] returns. *)

From Stdlib Require Import ZArith Ascii String List Lia Bool.
From stdpp Require Import base option list strings pretty gmap.

Local Open Scope Z_scope.
Local Open Scope string_scope.
Local Open Scope list_scope.

(** ** Python exceptions as an error monad *)

Inductive exn : Type :=
| IndexError
| KeyError
| AttributeError
| ValueError
| TypeError
| OverflowError
| InvalidIndexError.

Inductive result (A : Type) : Type :=
| Ok (a : A)
| Raise (e : exn).

Arguments Ok {A} a.
Arguments Raise {A} e.

#[global] Instance result_ret : MRet result := fun A a => Ok a.
#[global] Instance result_bind : MBind result := fun A B k m =>
  match m with
  | Ok a => k a
  | Raise e => Raise e
  end.

(** The value of [o], or exception [e] when there is none. *)
Definition or_raise {A} (o : option A) (e : exn) : result A :=
  match o with
  | Some a => Ok a
  | None => Raise e
  end.

(** [[f x for x in xs]], stopping at the first exception. *)
Fixpoint mapR {A B} (f : A -> result B) (xs : list A) : result (list B) :=
  match xs with
  | [] => Ok []
  | x :: xs' => y ← f x; ys ← mapR f xs'; Ok (y :: ys)
  end.

(** ** Python [str] methods used by the script *)

Module PyStr.

(** [cons_head c pieces] puts [c] in front of the first piece. *)
Definition cons_head (c : ascii) (pieces : list string) : list string :=
  match pieces with
  | [] => [String c EmptyString]
  | p :: ps => String c p :: ps
  end.

(** [split_go sep skip s]: the pieces of [s] between the occurrences of
    [sep], scanning from the left; [skip] counts the characters of an
    occurrence just found that are still to be passed over. *)
Fixpoint split_go (sep : string) (skip : nat) (s : string) : list string :=
  match s with
  | EmptyString => [EmptyString]
  | String c s' =>
      match skip with
      | S k => split_go sep k s'
      | O =>
          if String.prefix sep s
          then EmptyString :: split_go sep (String.length sep - 1) s'
          else cons_head c (split_go sep 0 s')
      end
  end.

(** [s.split(sep)] for a non-empty separator. *)
Definition split (sep s : string) : list string := split_go sep 0 s.

(** [sep.join(pieces)] *)
Fixpoint join (sep : string) (pieces : list string) : string :=
  match pieces with
  | [] => EmptyString
  | [p] => p
  | p :: ps => p +:+ sep +:+ join sep ps
  end.

(** [s.replace(old, new)] for a non-empty [old]. *)
Definition replace (old new s : string) : string := join new (split old s).

(** [remove c s]: [s] without its characters [c]. *)
Fixpoint remove (c : ascii) (s : string) : string :=
  match s with
  | EmptyString => EmptyString
  | String c' s' => if Ascii.eqb c c' then remove c s' else String c' (remove c s')
  end.

(** [occurs sep s]: [sep in s]. *)
Fixpoint occurs (sep s : string) : bool :=
  match s with
  | EmptyString => String.prefix sep EmptyString
  | String _ s' => String.prefix sep s || occurs sep s'
  end.

Definition is_lower (c : ascii) : bool :=
  (97 <=? nat_of_ascii c)%nat && (nat_of_ascii c <=? 122)%nat.
Definition is_upper (c : ascii) : bool :=
  (65 <=? nat_of_ascii c)%nat && (nat_of_ascii c <=? 90)%nat.

Definition upper_char (c : ascii) : ascii :=
  if is_lower c then ascii_of_nat (nat_of_ascii c - 32) else c.
Definition lower_char (c : ascii) : ascii :=
  if is_upper c then ascii_of_nat (nat_of_ascii c + 32) else c.

Fixpoint lower (s : string) : string :=
  match s with
  | EmptyString => EmptyString
  | String c s' => String (lower_char c) (lower s')
  end.

(** [str.capitalize(s)]: first character upper-cased, the rest
    lower-cased. *)
Definition capitalize (s : string) : string :=
  match s with
  | EmptyString => EmptyString
  | String c s' => String (upper_char c) (lower s')
  end.

(** Characters [int()] strips around a literal: the space and the
    control characters tab to carriage return. *)
Definition is_space (c : ascii) : bool :=
  let n := nat_of_ascii c in
  (n =? 32)%nat || ((9 <=? n)%nat && (n <=? 13)%nat).

Definition digit_of (c : ascii) : option Z :=
  let n := nat_of_ascii c in
  if (48 <=? n)%nat && (n <=? 57)%nat then Some (Z.of_nat n - 48) else None.

Fixpoint lstrip (s : string) : string :=
  match s with
  | String c s' => if is_space c then lstrip s' else s
  | EmptyString => EmptyString
  end.

Fixpoint all_space (s : string) : bool :=
  match s with
  | EmptyString => true
  | String c s' => is_space c && all_space s'
  end.

(** [digits acc after_digit s]: the decimal digits of [s], single
    underscores allowed between two digits, trailing white space
    allowed; [after_digit] tells that the previous character was a
    digit. *)
Fixpoint digits (acc : Z) (after_digit : bool) (s : string) : option Z :=
  match s with
  | EmptyString => if after_digit then Some acc else None
  | String c s' =>
      match digit_of c with
      | Some d => digits (10 * acc + d) true s'
      | None =>
          if after_digit then
            if Ascii.eqb c "_" then
              match s' with
              | String c' _ =>
                  if is_Some_dec (digit_of c') then digits acc false s' else None
              | EmptyString => None
              end
            else if all_space s then Some acc else None
          else None
      end
  end.

(** [int(s)] in base 10; [None] is [ValueError]. *)
Definition int (s : string) : option Z :=
  match lstrip s with
  | String "-" s' => Z.opp <$> digits 0 false s'
  | String "+" s' => digits 0 false s'
  | s' => digits 0 false s'
  end.

End PyStr.

(** ** The part of pandas the script uses *)

Module Pd.

Record date : Type := mkDate { d_year : Z; d_month : Z; d_day : Z }.

(** A cell: missing (NaN, NaT, None), text, an integer, a pandas
    Timestamp, or a [datetime.date] object. *)
Inductive cell : Type :=
| NA
| Str (s : string)
| Int (z : Z)
| Timestamp (d : date)
| DateObj (d : date).

(** Column labels: a flat [Index], or the two-level [MultiIndex] that
    [read_html] builds from a two-row table header. *)
Inductive Columns : Type :=
| Index (names : list string)
| MultiIndex (tuples : list (string * string)).

(** A row: its index label and its cells by column position.  A cell
    position a row does not have reads as [NA]. *)
Record Row : Type := mkRow { label : Z; cells : list cell }.

Record DataFrame : Type := mkDF { columns : Columns; rows : list Row }.

#[global] Instance date_eq_dec : EqDecision date.
Proof. solve_decision. Defined.
#[global] Instance cell_eq_dec : EqDecision cell.
Proof. solve_decision. Defined.

Definition cell_at (j : nat) (r : Row) : cell := default NA (cells r !! j).

(** [put j v r]: row [r] with [v] at column position [j]. *)
Definition put (j : nat) (v : cell) (r : Row) : Row :=
  mkRow (label r) (<[j:=v]> (resize (S j `max` length (cells r)) NA (cells r))).

(** Position of the first label equal to [x]. *)
Fixpoint index_of (x : string) (l : list string) : option nat :=
  match l with
  | [] => None
  | y :: l' => if decide (x = y) then Some O else S <$> index_of x l'
  end.

(** Labels of a frame with a flat header.  Label access on a two-level
    header is not part of this model: every such access is reported as
    the exception [e] of the access (the script collapses the one
    two-level header it expects before it reads any column). *)
Definition flat (e : exn) (df : DataFrame) : result (list string) :=
  match columns df with
  | Index ns => Ok ns
  | MultiIndex _ => Raise e
  end.

(** [df.columns.get_loc(name)] *)
Definition get_loc (e : exn) (name : string) (df : DataFrame) : result nat :=
  ns ← flat e df; or_raise (index_of name ns) e.

(** [df[name]] with [e := KeyError], [df.name] with
    [e := AttributeError]: the values of the column. *)
Definition get (e : exn) (name : string) (df : DataFrame) : result (list cell) :=
  j ← get_loc e name df; Ok (map (cell_at j) (rows df)).

(** [put_col j vs rs]: the [i]-th row gets [vs[i]] at position [j]. *)
Fixpoint put_col (j : nat) (vs : list cell) (rs : list Row) : list Row :=
  match rs with
  | [] => []
  | r :: rs' => put j (hd NA vs) r :: put_col j (tl vs) rs'
  end.

(** [df[name] = vs] (also [df.name = vs] for an existing column):
    overwrites the column, or appends it as the last one. *)
Definition set (e : exn) (name : string) (vs : list cell) (df : DataFrame)
  : result DataFrame :=
  ns ← flat e df;
  match index_of name ns with
  | Some j => Ok (mkDF (Index ns) (put_col j vs (rows df)))
  | None => Ok (mkDF (Index (ns ++ [name])) (put_col (length ns) vs (rows df)))
  end.

(** [df[name] = v] for a scalar [v]. *)
Definition set_scalar (e : exn) (name : string) (v : cell) (df : DataFrame)
  : result DataFrame :=
  set e name (replicate (length (rows df)) v) df.

(** [df.columns = df.columns.droplevel(0)] *)
Definition droplevel0 (df : DataFrame) : result DataFrame :=
  match columns df with
  | Index _ => Raise ValueError
  | MultiIndex ts => Ok (mkDF (Index (map snd ts)) (rows df))
  end.

(** [label in range(lo, hi)] *)
Definition in_range (lo hi : Z) (r : Row) : bool :=
  ((lo <=? label r) && (label r <? hi))%Z.

(** [df.iloc[mask, :]] for a boolean mask computed from the index. *)
Definition iloc_mask (keep : Row -> bool) (df : DataFrame) : DataFrame :=
  mkDF (columns df) (List.filter keep (rows df)).

(** Rows numbered from [start] on. *)
Fixpoint renumber (start : Z) (rs : list Row) : list Row :=
  match rs with
  | [] => []
  | r :: rs' => mkRow start (cells r) :: renumber (start + 1) rs'
  end.

(** [df.reset_index(drop=True)] *)
Definition reset_index (df : DataFrame) : DataFrame :=
  mkDF (columns df) (renumber 0 (rows df)).

(** Labels of [new] that [seen] lacks, each once, in order. *)
Fixpoint fresh (seen new : list string) : list string :=
  match new with
  | [] => []
  | x :: new' =>
      if decide (x ∈ seen) then fresh seen new'
      else x :: fresh (seen ++ [x]) new'
  end.

(** Union of the headers, in order of first appearance. *)
Fixpoint union_cols (seen : list string) (headers : list (list string))
  : list string :=
  match headers with
  | [] => seen
  | ns :: headers' => union_cols (seen ++ fresh seen ns) headers'
  end.

(** The header of a concatenation: the common header when all frames
    have the same one, else the union of their labels. *)
Definition union_headers (headers : list (list string)) : list string :=
  match headers with
  | [] => []
  | h :: hs => if decide (Forall (eq h) hs) then h else union_cols [] headers
  end.

(** [r], read by label under header [old], laid out under header [new]. *)
Definition reindex (old new : list string) (r : Row) : Row :=
  mkRow (label r)
        (map (fun name => match index_of name old with
                          | Some j => cell_at j r
                          | None => NA
                          end) new).

(** The rows of one frame under the header of the concatenation.  A
    frame with another header is re-indexed by label, which pandas
    refuses when its labels are not unique. *)
Definition align (new : list string) (df : list string * list Row)
  : result (list Row) :=
  if decide (df.1 = new) then Ok df.2
  else if decide (NoDup df.1) then Ok (map (reindex df.1 new) df.2)
  else Raise InvalidIndexError.

(** [pd.concat(dfs)]: the rows of the frames one after the other, under
    the union of their headers; index labels are kept. *)
Definition concat (dfs : list DataFrame) : result DataFrame :=
  headers ← mapR (flat TypeError) dfs;
  if decide (headers = []) then Raise ValueError
  else
    let new := union_headers headers in
    rss ← mapR (align new) (zip headers (map rows dfs));
    Ok (mkDF (Index new) (List.concat rss)).

(** Number of columns. *)
Definition width (df : DataFrame) : nat :=
  match columns df with
  | Index ns => length ns
  | MultiIndex ts => length ts
  end.

(** [df.iloc[i, j] = v]; out of bounds is an [IndexError]. *)
Definition iloc_set (i j : nat) (v : cell) (df : DataFrame) : result DataFrame :=
  if decide (i < length (rows df) ∧ j < width df)%nat
  then Ok (mkDF (columns df) (alter (put j v) i (rows df)))
  else Raise IndexError.

(** [series.dt.year]: needs date-time values. *)
Definition dt_year (c : cell) : result cell :=
  match c with
  | Timestamp d => Ok (Int (d_year d))
  | NA => Ok NA
  | _ => Raise AttributeError
  end.

(** Days from 1970-01-01 to the date [d] of the Gregorian calendar. *)
Definition epoch_days (d : date) : Z :=
  let y := if (d_month d <=? 2)%Z then d_year d - 1 else d_year d in
  let era := y / 400 in
  let yoe := y - era * 400 in
  let mp := (d_month d + 9) mod 12 in
  let doy := (153 * mp + 2) / 5 + d_day d - 1 in
  let doe := yoe * 365 + yoe / 4 - yoe / 100 + doy in
  era * 146097 + doe - 719468.

(** The integer a datetime64 column holds for a time stamp: nanoseconds
    since the epoch (the time stamps of this model are dates, at
    midnight). *)
Definition epoch_ns (d : date) : Z := epoch_days d * 86400000000000.

(** An integer stored as int64. *)
Definition int64 (z : Z) : result cell :=
  if decide (- 2 ^ 63 <= z < 2 ^ 63) then Ok (Int z) else Raise OverflowError.

(** A datetime64 column: time stamps and missing values (NaT), one time
    stamp at least -- the dtype pandas gives a column of such values. *)
Definition is_datetime64 (cs : list cell) : bool :=
  forallb (fun c => match c with Timestamp _ | NA => true | _ => false end) cs
  && existsb (fun c => match c with Timestamp _ => true | _ => false end) cs.

(** One value of a column cast to int64.  In a datetime64 column
    ([datetime]) the cast yields the integer that represents the value:
    the nanoseconds of a time stamp, the smallest integer for NaT.  In
    any other column the value goes through [int()]: an integer must fit
    64 bits, text must be an integer literal, a missing value (NaN) has
    no integer, and a date object is refused. *)
Definition int64_of (datetime : bool) (c : cell) : result cell :=
  if datetime then
    match c with
    | Timestamp d => int64 (epoch_ns d)
    | _ => Ok (Int (- 2 ^ 63))
    end
  else
    match c with
    | Int z => int64 z
    | Str s => z ← or_raise (PyStr.int s) ValueError; int64 z
    | NA => Raise ValueError
    | Timestamp _ | DateObj _ => Raise TypeError
    end.

(** [series.astype('int64')] on the values of a column, in order: the
    first value that cannot be cast raises. *)
Definition astype_int64 (cs : list cell) : result (list cell) :=
  mapR (int64_of (is_datetime64 cs)) cs.

(** [series.fillna(v)] on one value. *)
Definition fillna (v : cell) (c : cell) : cell :=
  match c with
  | NA => v
  | _ => c
  end.

(** Key of a row: its cells at the key positions. *)
Definition key_of (ks : list nat) (r : Row) : list cell :=
  map (fun j => cell_at j r) ks.

(** Rows of the right table whose key equals the key of [l], in the
    order of the right table.  Missing values compare equal, as in
    pandas. *)
Definition matches (lks rks : list nat) (rs : list Row) (l : Row) : list Row :=
  List.filter (fun r => bool_decide (key_of rks r = key_of lks l)) rs.

(** Right key labels the result does not repeat: those equal to the
    left key label they are paired with. *)
Definition right_drop (left_on right_on : list string) : list string :=
  omap (fun '(lk, rk) => if decide (lk = rk) then Some rk else None)
       (zip left_on right_on).

(** The columns of the right table that go into the result, each with
    its position in the right table. *)
Definition right_kept (dropped rns : list string) : list (nat * string) :=
  List.filter (fun p => bool_decide (p.2 ∉ dropped)) (imap pair rns).

Definition add_suffix (overlap : list string) (suffix name : string) : string :=
  if decide (name ∈ overlap) then name +:+ suffix else name.

(** The header of the result: the left labels, then the kept right
    labels; a label the two sides share gets the suffix [_x] on the left
    and [_y] on the right. *)
Definition merged_header (lns rns left_on right_on : list string) : list string :=
  let rns' := (right_kept (right_drop left_on right_on) rns).*2 in
  let overlap := List.filter (fun n => bool_decide (n ∈ rns')) lns in
  map (add_suffix overlap "_x") lns ++ map (add_suffix overlap "_y") rns'.

(** The rows a left row contributes to a left join: one per matching
    right row, or a single row without right-hand values. *)
Definition join_row (lks rks keep : list nat) (width : nat) (rs : list Row)
    (l : Row) : list Row :=
  let lcells := resize width NA (cells l) in
  match matches lks rks rs l with
  | [] => [mkRow 0 (lcells ++ replicate (length keep) NA)]
  | ms => map (fun r => mkRow 0 (lcells ++ key_of keep r)) ms
  end.

(** [ldf.merge(rdf, how='left', left_on=left_on, right_on=right_on)]:
    every left row in order, once per right row with the same key (in
    the order of the right table), or once with missing right-hand
    values.

    Once the key columns are found, pandas compares the dtypes of each
    pair of them and raises [ValueError] for a pair it will not join (a
    column of text against an int64 column, say).  Tables do not record
    dtypes here, so that check is the parameter [can_merge]: it is given
    the values of a left and of a right key column and tells whether
    pandas joins them.  (The order of the labels pandas gives the result
    of a left table without rows is not modelled either.) *)
Definition merge_left (can_merge : list cell -> list cell -> bool)
    (ldf rdf : DataFrame) (left_on right_on : list string)
  : result DataFrame :=
  lns ← flat KeyError ldf;
  rns ← flat KeyError rdf;
  rks ← mapR (fun k => or_raise (index_of k rns) KeyError) right_on;
  lks ← mapR (fun k => or_raise (index_of k lns) KeyError) left_on;
  if forallb (fun p => can_merge (map (cell_at p.1) (rows ldf))
                                 (map (cell_at p.2) (rows rdf)))
             (zip lks rks)
  then
    let keep := (right_kept (right_drop left_on right_on) rns).*1 in
    Ok (mkDF (Index (merged_header lns rns left_on right_on))
             (renumber 0 (flat_map (join_row lks rks keep (length lns) (rows rdf))
                                   (rows ldf))))
  else Raise ValueError.

End Pd.

Import Pd.

(** ** The functions of [common_code.py] *)

(** *** [create_world_records_df] *)

Section WorldRecords.

(** [pd.to_datetime] on the values of a column: the converted values
    (Timestamps, [NA] for NaT), or the exception it raises.  The date
    formats it accepts are pandas' business. *)
Variable to_datetime : list cell -> result (list cell).

(** [df.Date = pd.to_datetime(df.Date)] *)
Definition format_date (df : DataFrame) : result DataFrame :=
  d ← get AttributeError "Date" df;
  d' ← to_datetime d;
  set AttributeError "Date" d' df.

(** [df.iloc[~df.index.isin(range(lo, hi)), :]] *)
Definition drop_range (lo hi : Z) (df : DataFrame) : DataFrame :=
  iloc_mask (fun r => negb (in_range lo hi r)) df.

(** [df.iloc[df.index.isin(range(lo, hi)), :]] *)
Definition keep_range (lo hi : Z) (df : DataFrame) : DataFrame :=
  iloc_mask (in_range lo hi) df.

(** Lines 33-50: the four tables the function selects, after the
    updates it makes to them in place (header collapsed, dates parsed,
    gender added). *)
Definition format_tables (df_list : list DataFrame)
  : result (DataFrame * DataFrame * DataFrame * DataFrame) :=
  (* select desired tables *)
  df_men ← or_raise (df_list !! 0%nat) IndexError;
  df_women ← or_raise (df_list !! 1%nat) IndexError;
  df_men_indoor ← or_raise (df_list !! 3%nat) IndexError;
  df_women_indoor ← or_raise (df_list !! 4%nat) IndexError;
  (* remove multiindex *)
  df_men ← droplevel0 df_men;
  (* format dates *)
  df_men ← format_date df_men;
  df_men_indoor ← format_date df_men_indoor;
  df_women ← format_date df_women;
  df_women_indoor ← format_date df_women_indoor;
  (* add gender category *)
  df_women ← set_scalar KeyError "gender" (Str "W") df_women;
  df_men ← set_scalar KeyError "gender" (Str "M") df_men;
  Ok (df_men, df_women, df_men_indoor, df_women_indoor).

(** Lines 52-61: row selection, concatenation, renumbering, year. *)
Definition combine_records (df_men df_women df_men_indoor df_women_indoor : DataFrame)
  : result DataFrame :=
  (* select running events we want to keep *)
  let df_men := drop_range 20 42 df_men in
  let df_men_indoor := keep_range 0 12 df_men_indoor in
  let df_women := drop_range 27 50 df_women in
  let df_women_indoor := keep_range 0 10 df_women_indoor in
  (* combine wikipedia records *)
  df ← concat [df_men; df_women; df_men_indoor; df_women_indoor];
  let df := reset_index df in
  d ← get AttributeError "Date" df;
  y ← mapR dt_year d;
  set KeyError "year" y df.

(** Lines 63-66: correct meeting names in line with wavelight
    nomenclature. *)
Definition correct_meetings (df : DataFrame) : result DataFrame :=
  df ← iloc_set 9 9 (Str "Diamond League") df;
  df ← iloc_set 11 9 (Str "NN World Record Day") df;
  iloc_set 34 9 (Str "NN World Record Day") df.

(** The function returns the new table together with [df_list] as the
    caller finds it afterwards: the four selected tables were updated in
    place, and the row selection works on copies. *)
Definition create_world_records_df (df_list : list DataFrame)
  : result (DataFrame * list DataFrame) :=
  '(df_men, df_women, df_men_indoor, df_women_indoor) ← format_tables df_list;
  df ← combine_records df_men df_women df_men_indoor df_women_indoor;
  df ← correct_meetings df;
  Ok (df, <[0%nat:=df_men]> (<[1%nat:=df_women]>
            (<[3%nat:=df_men_indoor]> (<[4%nat:=df_women_indoor]> df_list)))).

End WorldRecords.

(** *** [create_wavelight_records_df] *)

(** [lambda x: x.split(' (')[1].replace(')','')] *)
Definition year_text (x : cell) : result cell :=
  match x with
  | Str s =>
      y ← or_raise (PyStr.split " (" s !! 1%nat) IndexError;
      Ok (Str (PyStr.replace ")" "" y))
  | _ => Raise AttributeError
  end.

(** [lambda x: x.split(' (')[0]] *)
Definition meeting_name (x : cell) : result cell :=
  match x with
  | Str s =>
      n ← or_raise (PyStr.split " (" s !! 0%nat) IndexError;
      Ok (Str n)
  | _ => Raise AttributeError
  end.

Definition mapper_items : list (string * string) :=
  [ ("The Track at Boston", "The Track at Boston");
    ("International Meeting de Lievin", "Meeting Hauts-de-France Pas-de-Calais");
    ("Ethiopian Trials", "Ethiopian Olympic Trials");
    ("FBK Games", "FBK Games");
    ("NN World Record Day", "NN World Record Day");
    ("Memorial van Damme", "Diamond League");
    ("Herculis Monaco", "Herculis");
    ("Monaco Diamond League", "Diamond League");
    ("Impossible Games", "Impossible Games") ].

Definition mapper : gmap string string := list_to_map mapper_items.

(** [series.map(mapper)] on one value: a value that is no key of the
    dict becomes missing. *)
Definition map_dict (m : gmap string string) (c : cell) : cell :=
  match c with
  | Str s => match m !! s with
             | Some v => Str v
             | None => NA
             end
  | _ => NA
  end.

(** The function starts here from the table [pd.read_html] returned for
    the first [<table>] of the page. *)
Definition create_wavelight_records_df (df_wave : DataFrame) : result DataFrame :=
  m ← get KeyError "Meeting" df_wave;
  y ← mapR year_text m;
  df_wave ← set KeyError "year" y df_wave;
  m ← get KeyError "Meeting" df_wave;
  n ← mapR meeting_name m;
  df_wave ← set KeyError "Meeting" n df_wave;
  (* column name changes *)
  m ← get AttributeError "Meeting" df_wave;
  df_wave ← set AttributeError "Meeting" (map (map_dict mapper) m) df_wave;
  df_wave ← set_scalar KeyError "wavelight" (Str "y") df_wave;
  (* individual adjustments *)
  df_wave ← iloc_set 1 0 (Str "Jakob Ingebrigtsen") df_wave;
  Ok df_wave.

(** *** [combine_dfs] *)

(** The one-row frame of the Sifan Hassan record. *)
Definition hassan_header : list string :=
  ["Event"; "Athlete(s)"; "Meeting"; "year"; "Date"; "wavelight"; "gender"; "Perf."].

Definition hassan_row : Row :=
  mkRow 0 [Str "10,000 m"; Str "Sifan Hassan"; Str "FBK Games"; Int 2021;
           DateObj (mkDate 2021 6 6); Str "y"; Str "W"; Str "29:06.82"].

Definition hassan : DataFrame := mkDF (Index hassan_header) [hassan_row].

(** The function returns the combined table together with its two
    arguments as the caller finds them afterwards.  [can_merge] is the
    dtype check of the join (see [merge_left]). *)
Definition combine_dfs (can_merge : list cell -> list cell -> bool)
    (df_wave df_records : DataFrame)
  : result (DataFrame * (DataFrame * DataFrame)) :=
  y ← get AttributeError "year" df_wave;
  y ← astype_int64 y;
  df_wave ← set AttributeError "year" y df_wave;
  df_comb ← merge_left can_merge df_records df_wave
              ["Athlete(s)"; "Meeting"; "year"] ["Athlete"; "Meeting"; "year"];
  w ← get AttributeError "wavelight" df_comb;
  df_comb ← set AttributeError "wavelight" (map (fillna (Str "n")) w) df_comb;
  (* add Sifan Hassan record from 2021 that is missing from wikipedia *)
  df_comb ← concat [df_comb; hassan];
  Ok (reset_index df_comb, (df_wave, df_records)).

(** *** [check_status] *)

(** Standard output, one entry per printed line. *)
Definition stdout : Type := list string.

Definition check_status (status : Z) (location : string) (out : stdout)
  : result stdout :=
  if decide (status = 200)
  then Ok (out ++ [PyStr.capitalize location +:+ " sucessfully opened and read."])
  else Ok (out ++ ["Unable to open or read " +:+ location +:+ ".  Error code: "
                   +:+ pretty status]).

(** The two lines [check_status] can print. *)
Definition success_line (location : string) : string :=
  PyStr.capitalize location +:+ " sucessfully opened and read.".

Definition error_line (status : Z) (location : string) : string :=
  "Unable to open or read " +:+ location +:+ ".  Error code: " +:+ pretty status.

(** ** Reading a table by label *)

(** The cell of row [r] under label [n], for a row laid out under the
    header [h]; [None] when the header has no such label. *)
Definition read_row (h : list string) (r : Row) (n : string) : option cell :=
  (fun j => cell_at j r) <$> index_of n h.

(** The cell of row [r] of frame [df] under label [n]. *)
Definition read (df : DataFrame) (r : Row) (n : string) : option cell :=
  match columns df with
  | Index h => read_row h r n
  | MultiIndex _ => None
  end.

(** [carries h r new o]: row [o], laid out under [new], has the index
    label of [r] and, under every label of [h], the cell [r] has there. *)
Definition carries (h : list string) (r : Row) (new : list string) (o : Row) : Prop :=
  label o = label r
  /\ forall n c, read_row h r n = Some c -> read_row new o n = Some c.

(** [changed_only_in names df df']: [df'] has the rows of [df], with
    the same index labels, and differs from it at most in its header
    and in the cells under the labels [names]. *)
Definition changed_only_in (names : list string) (df df' : DataFrame) : Prop :=
  map label (rows df') = map label (rows df)
  /\ exists h', columns df' = Index h'
      /\ Forall2 (fun r r' => forall n j, index_of n h' = Some j -> n ∉ names ->
                                        cell_at j r' = cell_at j r)
                 (rows df) (rows df').

(** The rows the specification keeps, each with the header of its table,
    in the order of the concatenation. *)
Definition kept_rows (hm hw hmi hwi : list string)
    (men women men_indoor women_indoor : DataFrame) : list (list string * Row) :=
  map (pair hm) (List.filter (fun r => bool_decide (~ 20 <= label r <= 41)) (rows men))
  ++ map (pair hw) (List.filter (fun r => bool_decide (~ 27 <= label r <= 49)) (rows women))
  ++ map (pair hmi) (List.filter (fun r => bool_decide (0 <= label r <= 11)) (rows men_indoor))
  ++ map (pair hwi) (List.filter (fun r => bool_decide (0 <= label r <= 9)) (rows women_indoor)).

(** The cells [correct_meetings] writes: row and column position. *)
Definition patched (i j : nat) : Prop := j = 9%nat /\ i ∈ [9; 11; 34]%nat.

(** The text [correct_meetings] writes in row [i]. *)
Definition patch_value (i : nat) : cell :=
  if decide (i = 9%nat) then Str "Diamond League" else Str "NN World Record Day".

(** [selects_running_events df_list st df]: [df] is made of the kept
    rows of the tables 0, 1, 3 and 4 of [df_list].  The tables are taken
    as the call leaves them in [st] (same index labels as in
    [df_list]); the rows come in the order of [kept_rows], numbered from
    zero, and each holds, under every label of its table other than the
    derived [year], the cell of its source row -- the three patched
    cells of column 9 apart. *)
Definition selects_running_events (df_list st : list DataFrame) (df : DataFrame)
  : Prop :=
  exists m0 w0 mi0 wi0 m w mi wi hm hw hmi hwi hdr,
    (df_list !! 0%nat = Some m0 /\ df_list !! 1%nat = Some w0
     /\ df_list !! 3%nat = Some mi0 /\ df_list !! 4%nat = Some wi0)
    /\ (st !! 0%nat = Some m /\ st !! 1%nat = Some w
        /\ st !! 3%nat = Some mi /\ st !! 4%nat = Some wi)
    /\ (map label (rows m) = map label (rows m0)
        /\ map label (rows w) = map label (rows w0)
        /\ map label (rows mi) = map label (rows mi0)
        /\ map label (rows wi) = map label (rows wi0))
    /\ (columns m = Index hm /\ columns w = Index hw
        /\ columns mi = Index hmi /\ columns wi = Index hwi
        /\ columns df = Index hdr)
    /\ length (rows df) = length (kept_rows hm hw hmi hwi m w mi wi)
    /\ forall i h r,
         kept_rows hm hw hmi hwi m w mi wi !! i = Some (h, r) ->
         exists o, rows df !! i = Some o /\ label o = Z.of_nat i
           /\ forall n c, n <> "year" -> read_row h r n = Some c ->
                (i ∈ [9; 11; 34]%nat -> index_of n hdr <> Some 9%nat) ->
                read_row hdr o n = Some c.

(** [patches_meetings df0 df]: [df] is [df0] with the three patched
    cells rewritten and nothing else changed; when column 9 is
    [Meeting], the patched cells are the meetings of rows 9, 11, 34. *)
Definition patches_meetings (df0 df : DataFrame) : Prop :=
  columns df = columns df0
  /\ length (rows df) = length (rows df0)
  /\ (forall i r0, rows df0 !! i = Some r0 ->
        exists r, rows df !! i = Some r /\ label r = label r0
          /\ forall j, cell_at j r
                       = if decide (patched i j) then patch_value i
                         else cell_at j r0)
  /\ exists r9 r11 r34,
       rows df !! 9%nat = Some r9 /\ rows df !! 11%nat = Some r11
       /\ rows df !! 34%nat = Some r34
       /\ cell_at 9 r9 = Str "Diamond League"
       /\ cell_at 9 r11 = Str "NN World Record Day"
       /\ cell_at 9 r34 = Str "NN World Record Day"
       /\ (get_loc KeyError "Meeting" df = Ok 9%nat ->
           read df r9 "Meeting" = Some (Str "Diamond League")
           /\ read df r11 "Meeting" = Some (Str "NN World Record Day")
           /\ read df r34 "Meeting" = Some (Str "NN World Record Day")).

(** ** The merger's tables *)

(** The join keys of [combine_dfs]. *)
Definition records_key : list string := ["Athlete(s)"; "Meeting"; "year"].
Definition vendor_key : list string := ["Athlete"; "Meeting"; "year"].

(** The vendor rows that match record row [l] on the triple (athlete,
    meeting, year), in the order of the vendor table. *)
Definition vendor_matches (df_wave df_records : DataFrame) (l : Row) : list Row :=
  List.filter
    (fun w => bool_decide (read df_wave w "Athlete" = read df_records l "Athlete(s)"
                           /\ read df_wave w "Meeting" = read df_records l "Meeting"
                           /\ read df_wave w "year" = read df_records l "year"))
    (rows df_wave).


(** The fields of the Sifan Hassan record, read by label. *)
Definition is_hassan (hdr : list string) (o : Row) : Prop :=
  read_row hdr o "Event" = Some (Str "10,000 m")
  /\ read_row hdr o "Athlete(s)" = Some (Str "Sifan Hassan")
  /\ read_row hdr o "Meeting" = Some (Str "FBK Games")
  /\ read_row hdr o "year" = Some (Int 2021)
  /\ read_row hdr o "wavelight" = Some (Str "y")
  /\ read_row hdr o "Date" = Some (DateObj (mkDate 2021 6 6))
  /\ read_row hdr o "gender" = Some (Str "W")
  /\ read_row hdr o "Perf." = Some (Str "29:06.82").

(** Number of rows a left join emits for a left row with [k] matches. *)
Definition emitted (k : nat) : nat := Nat.max 1 k.


(** Every vendor row carries the marker [y], as the Wavelight
    Normalizer leaves it. *)
Definition vendor_marked (df_wave : DataFrame) : Prop :=
  Forall (fun w => read df_wave w "wavelight" = Some (Str "y")) (rows df_wave).

(** The coercion of the vendor years to integers succeeds. *)
Definition years_convert (df_wave : DataFrame) : Prop :=
  exists ys, (get AttributeError "year" df_wave ≫= astype_int64) = Ok ys.




(** The five fields the specification names for the Sifan Hassan
    record, read by label. *)
Definition hassan_record (hdr : list string) (o : Row) : bool :=
  bool_decide (read_row hdr o "Event" = Some (Str "10,000 m")
               /\ read_row hdr o "Athlete(s)" = Some (Str "Sifan Hassan")
               /\ read_row hdr o "Meeting" = Some (Str "FBK Games")
               /\ read_row hdr o "year" = Some (Int 2021)
               /\ read_row hdr o "wavelight" = Some (Str "y")).

(** [ends_with_hassan df_wave df_records out]: [out] is the joined rows
    -- as many as the left join emits -- followed by exactly one more
    row, which carries the last row number and the Hassan record.  The
    joined rows are not searched for the record: [out] holds it once
    more than they do, hence exactly once when no joined row holds
    it. *)
Definition ends_with_hassan (df_wave df_records out : DataFrame) : Prop :=
  exists hdr joined last,
    columns out = Index hdr
    /\ rows out = joined ++ [last]
    /\ length joined
       = sum_list (map (fun l => emitted (length (vendor_matches df_wave df_records l)))
                       (rows df_records))
    /\ label last = Z.of_nat (length joined)
    /\ is_hassan hdr last
    /\ read out last "Event" = Some (Str "10,000 m")
    /\ read out last "Athlete(s)" = Some (Str "Sifan Hassan")
    /\ read out last "Meeting" = Some (Str "FBK Games")
    /\ read out last "year" = Some (Int 2021)
    /\ read out last "wavelight" = Some (Str "y")
    /\ length (List.filter (hassan_record hdr) (rows out))
       = S (length (List.filter (hassan_record hdr) joined))
    /\ (length (List.filter (hassan_record hdr) (rows out)) = 1%nat
        <-> Forall (fun o => hassan_record hdr o = false) joined).

(** The header an outdoor table has once its gender is set: [gender] is
    a new last column unless the table came with one. *)
Definition with_gender (h : list string) : list string :=
  if decide ("gender" ∈ h) then h else h ++ ["gender"].

(** The cell at column [j] of an updated row: [g] in the gender column
    (when the table is given one, at [jg]), the parsed date [d] in the
    [Date] column [jd], and the former cell [c] anywhere else. *)
Definition updated_cell (jg : option nat) (g : cell) (jd : nat) (d c : cell)
    (j : nat) : cell :=
  if decide (jg = Some j) then g
  else if decide (j = jd) then d
  else c.

(** [table_update to_datetime gender h t0 t]: [t] is the table [t0],
    whose labels are [h], after the updates [create_world_records_df]
    makes to it in place.  It has the rows and index labels of [t0] and
    the header [h], with [gender] appended when the table is given a
    gender and has no such column; its [Date] cells are the values
    [to_datetime] returns for those of [t0], its [gender] cells (if any
    are written) hold [gender], and every other cell is the cell of
    [t0]. *)
Definition table_update (to_datetime : list cell -> result (list cell))
    (gender : option string) (h : list string) (t0 t : DataFrame) : Prop :=
  let h' := match gender with Some _ => with_gender h | None => h end in
  let jg := match gender with Some _ => index_of "gender" h' | None => None end in
  columns t = Index h'
  /\ map label (rows t) = map label (rows t0)
  /\ exists jd ds,
      index_of "Date" h = Some jd
      /\ to_datetime (map (cell_at jd) (rows t0)) = Ok ds
      /\ forall i r0, rows t0 !! i = Some r0 ->
           exists r, rows t !! i = Some r
             /\ forall j, cell_at j r
                          = updated_cell jg (Str (default "" gender)) jd
                              (default NA (ds !! i)) (cell_at j r0) j.

(** [updates_in_place to_datetime df_list st]: the list [st] the caller
    holds after [create_world_records_df] has the entries of [df_list],
    except that the tables at 0, 1, 3 and 4 were updated as
    [table_update] says: the men's outdoor table had a two-level header,
    of which the second level is left, and is given the gender [M]; the
    women's outdoor table is given the gender [W]; the two indoor tables
    are given none. *)
Definition updates_in_place (to_datetime : list cell -> result (list cell))
    (df_list st : list DataFrame) : Prop :=
  length st = length df_list
  /\ (forall i, i ∉ [0; 1; 3; 4]%nat -> st !! i = df_list !! i)
  /\ exists m0 w0 mi0 wi0 m w mi wi ts hw hmi hwi,
      (df_list !! 0%nat = Some m0 /\ df_list !! 1%nat = Some w0
       /\ df_list !! 3%nat = Some mi0 /\ df_list !! 4%nat = Some wi0)
      /\ (st !! 0%nat = Some m /\ st !! 1%nat = Some w
          /\ st !! 3%nat = Some mi /\ st !! 4%nat = Some wi)
      /\ (columns m0 = MultiIndex ts /\ columns w0 = Index hw
          /\ columns mi0 = Index hmi /\ columns wi0 = Index hwi)
      /\ table_update to_datetime (Some "M") (map snd ts) m0 m
      /\ table_update to_datetime (Some "W") hw w0 w
      /\ table_update to_datetime None hmi mi0 mi
      /\ table_update to_datetime None hwi wi0 wi.

(** [coerces_years_only wave wave']: the vendor table after
    [combine_dfs] has its header, rows and index labels; each of its
    [year] cells holds the integer the cast to int64 gives for the
    column, and every other cell is as it was. *)
Definition coerces_years_only (wave wave' : DataFrame) : Prop :=
  columns wave' = columns wave
  /\ map label (rows wave') = map label (rows wave)
  /\ exists h jy ys,
      columns wave = Index h /\ index_of "year" h = Some jy
      /\ astype_int64 (map (cell_at jy) (rows wave)) = Ok ys
      /\ forall i r0, rows wave !! i = Some r0 ->
           exists r z, rows wave' !! i = Some r /\ ys !! i = Some (Int z)
             /\ forall j, cell_at j r = if decide (j = jy) then Int z
                                       else cell_at j r0.

(** [gender_by_table st df]: the men's and women's outdoor tables, as the
    call leaves them in [st], read [M] and [W] in every row, and every
    row of [df] has the gender its own table has for it -- a missing
    gender when that table has no such column -- the three patched
    cells apart, should [gender] sit at column 9. *)
Definition gender_by_table (st : list DataFrame) (df : DataFrame) : Prop :=
  exists m w mi wi hm hw hmi hwi hdr,
    (st !! 0%nat = Some m /\ st !! 1%nat = Some w
     /\ st !! 3%nat = Some mi /\ st !! 4%nat = Some wi)
    /\ (columns m = Index hm /\ columns w = Index hw
        /\ columns mi = Index hmi /\ columns wi = Index hwi
        /\ columns df = Index hdr)
    /\ Forall (fun r => read_row hm r "gender" = Some (Str "M")) (rows m)
    /\ Forall (fun r => read_row hw r "gender" = Some (Str "W")) (rows w)
    /\ forall i h r,
         kept_rows hm hw hmi hwi m w mi wi !! i = Some (h, r) ->
         (i ∈ [9; 11; 34]%nat -> index_of "gender" hdr <> Some 9%nat) ->
         exists o, rows df !! i = Some o
                   /\ read_row hdr o "gender"
                      = Some (default NA (read_row h r "gender")).

(** The cell the Wavelight Normalizer leaves at row [i], column [j]:
    [jm], [jy] and [jw] are the positions of [Meeting], [year] and
    [wavelight]; [name] and [yt] are the two parts of the raw meeting
    cell, and [c] is the raw cell. *)
Definition wavelight_cell (jm jy jw : nat) (name yt : string) (c : cell)
    (i j : nat) : cell :=
  if decide (i = 1%nat /\ j = 0%nat) then Str "Jakob Ingebrigtsen"
  else if decide (j = jw) then Str "y"
  else if decide (j = jm) then map_dict mapper (Str name)
  else if decide (j = jy) then Str yt
  else c.

(** ** Sample tables *)

(** A stand-in for [pd.to_datetime] in the examples: it reads the one
    format [YYYY-MM-DD]. *)
Definition iso_date (s : string) : option date :=
  match PyStr.split "-" s with
  | [y; m; d] =>
      y ← PyStr.int y; m ← PyStr.int m; d ← PyStr.int d; Some (mkDate y m d)
  | _ => None
  end.

Definition iso_to_datetime (vs : list cell) : result (list cell) :=
  mapR (fun c => match c with
                 | NA => Ok NA
                 | Timestamp d => Ok (Timestamp d)
                 | Str s => or_raise (Timestamp <$> iso_date s) ValueError
                 | _ => Raise TypeError
                 end) vs.

Definition sample_header : list string :=
  ["Event"; "Perf."; "Wind"; "Athlete(s)"; "Nat."; "Date"; "Place"; "Country";
   "Ref"; "Meeting"].

Definition sample_row (tag : string) (i : nat) : Row :=
  mkRow (Z.of_nat i)
        [Str (tag +:+ " event " +:+ pretty i); Str "9.58"; NA;
         Str (tag +:+ " athlete " +:+ pretty i); Str "JAM"; Str "2009-08-16";
         Str "Berlin"; Str "Germany"; NA; Str (tag +:+ " meeting " +:+ pretty i)].

Definition sample_table (cols : Columns) (tag : string) (n : nat) : DataFrame :=
  mkDF cols (map (sample_row tag) (seq 0 n)).

(** Five tables in the order the function expects: men (two-row
    header), women, an unrelated table, men indoor, women indoor. *)
Definition sample_df_list : list DataFrame :=
  [ sample_table (MultiIndex (map (pair "Men") sample_header)) "men" 43;
    sample_table (Index sample_header) "women" 51;
    mkDF (Index ["Area"; "Records"]) [mkRow 0 [Str "Africa"; Str "12"]];
    sample_table (Index sample_header) "men indoor" 13;
    sample_table (Index sample_header) "women indoor" 11 ].

(** A vendor page table; two of its meetings are the same canonical
    meeting, and the athlete of its second row is misspelt. *)
Definition sample_vendor_page : DataFrame :=
  mkDF (Index ["Athlete"; "Event"; "Meeting"])
       [ mkRow 0 [Str "Joshua Cheptegei"; Str "5000 m";
                  Str "Monaco Diamond League (2020)"];
         mkRow 1 [Str "Jakob Ingebrigsten"; Str "2000 m";
                  Str "Impossible Games (2020)"];
         mkRow 2 [Str "Joshua Cheptegei"; Str "5000 m";
                  Str "Memorial van Damme (2020)"];
         mkRow 3 [Str "Letesenbet Gidey"; Str "5000 m";
                  Str "NN World Record Day (2020)"] ].

(** A world-record table with the columns the normalizer produces. *)
Definition sample_records : DataFrame :=
  mkDF (Index ["Event"; "Perf."; "Athlete(s)"; "Date"; "Meeting"; "gender"; "year"])
       [ mkRow 0 [Str "5000 m"; Str "12:35.36"; Str "Joshua Cheptegei";
                  Timestamp (mkDate 2020 8 14); Str "Diamond League"; Str "M";
                  Int 2020];
         mkRow 1 [Str "100 m"; Str "9.58"; Str "Usain Bolt";
                  Timestamp (mkDate 2009 8 16); Str "World Championships";
                  Str "M"; Int 2009];
         mkRow 2 [Str "5000 m"; Str "14:06.62"; Str "Letesenbet Gidey";
                  Timestamp (mkDate 2020 10 7); Str "NN World Record Day";
                  Str "W"; Int 2020] ].

(** The normalized vendor table of [sample_vendor_page]. *)
Definition sample_wave : DataFrame :=
  mkDF (Index ["Athlete"; "Event"; "Meeting"; "year"; "wavelight"])
       [ mkRow 0 [Str "Joshua Cheptegei"; Str "5000 m"; Str "Diamond League";
                  Str "2020"; Str "y"];
         mkRow 1 [Str "Jakob Ingebrigtsen"; Str "2000 m"; Str "Impossible Games";
                  Str "2020"; Str "y"];
         mkRow 2 [Str "Joshua Cheptegei"; Str "5000 m"; Str "Diamond League";
                  Str "2020"; Str "y"];
         mkRow 3 [Str "Letesenbet Gidey"; Str "5000 m"; Str "NN World Record Day";
                  Str "2020"; Str "y"] ].

(** A stand-in for the dtype check of [merge] in the examples: it
    refuses a column of text against a column of integers, as pandas
    refuses an object column of strings against an int64 column. *)
Definition all_text (cs : list cell) : bool :=
  bool_decide (cs <> [])
  && forallb (fun c => match c with Str _ => true | _ => false end) cs.

Definition all_integers (cs : list cell) : bool :=
  bool_decide (cs <> [])
  && forallb (fun c => match c with Int _ => true | _ => false end) cs.

Definition text_or_numbers (l r : list cell) : bool :=
  negb ((all_text l && all_integers r) || (all_integers l && all_text r)).

(** A world-record table that already holds the Sifan Hassan record, and
    a vendor table that confirms it. *)
Definition hassan_records : DataFrame :=
  mkDF (Index ["Event"; "Perf."; "Athlete(s)"; "Date"; "Meeting"; "gender"; "year"])
       [ mkRow 0 [Str "10,000 m"; Str "29:06.82"; Str "Sifan Hassan";
                  Timestamp (mkDate 2021 6 6); Str "FBK Games"; Str "W";
                  Int 2021] ].

Definition hassan_wave : DataFrame :=
  mkDF (Index ["Athlete"; "Meeting"; "year"; "wavelight"])
       [ mkRow 0 [Str "Sifan Hassan"; Str "FBK Games"; Str "2021"; Str "y"] ].

(** Five tables laid out with the meeting in the seventh column and the
    place in the tenth. *)
Definition moved_header : list string :=
  ["Event"; "Perf."; "Wind"; "Athlete(s)"; "Nat."; "Date"; "Meeting"; "Country";
   "Ref"; "Place"].

Definition moved_row (tag : string) (i : nat) : Row :=
  mkRow (Z.of_nat i)
        [Str (tag +:+ " event " +:+ pretty i); Str "9.58"; NA;
         Str (tag +:+ " athlete " +:+ pretty i); Str "JAM"; Str "2009-08-16";
         Str (tag +:+ " meeting " +:+ pretty i); Str "Germany"; NA; Str "Berlin"].

Definition moved_table (cols : Columns) (tag : string) (n : nat) : DataFrame :=
  mkDF cols (map (moved_row tag) (seq 0 n)).

Definition moved_df_list : list DataFrame :=
  [ moved_table (MultiIndex (map (pair "Men") moved_header)) "men" 43;
    moved_table (Index moved_header) "women" 51;
    mkDF (Index ["Area"; "Records"]) [mkRow 0 [Str "Africa"; Str "12"]];
    moved_table (Index moved_header) "men indoor" 13;
    moved_table (Index moved_header) "women indoor" 11 ].



(** ** The specification's wording, for comparison with the code *)

Module Spec.

(** Cut [s] at its first occurrence of [" ("]: the text before it and
    the text after it. *)
Fixpoint partition_first (s : string) : option (string * string) :=
  match s with
  | EmptyString => None
  | String c s' =>
      if String.prefix " (" s
      then Some (EmptyString, match s' with
                              | String _ rest => rest
                              | EmptyString => EmptyString
                              end)
      else match partition_first s' with
           | Some (name, suffix) => Some (String c name, suffix)
           | None => None
           end
  end.

(** [s] without a closing parenthesis at its end. *)
Fixpoint strip_trailing_paren (s : string) : string :=
  match s with
  | EmptyString => EmptyString
  | String c EmptyString => if Ascii.eqb c ")" then EmptyString else s
  | String c s' => String c (strip_trailing_paren s')
  end.

(** "Split on the first occurrence of [" ("], taking the prefix as
    meeting name and the suffix (trailing [)] stripped) as year text." *)
Definition split_meeting (x : string) : option (string * string) :=
  match partition_first x with
  | Some (name, suffix) => Some (name, strip_trailing_paren suffix)
  | None => None
  end.

End Spec.

(** * Properties *)

(** ** Generic facts about the error monad *)

Lemma bind_Ok {A B} (m : result A) (k : A -> result B) (b : B) :
  (m ≫= k) = Ok b -> exists a, m = Ok a /\ k a = Ok b.
Proof. destruct m as [a|e]; simpl; [eauto | discriminate]. Qed.

Lemma or_raise_Ok {A} (o : option A) (e : exn) (a : A) :
  or_raise o e = Ok a <-> o = Some a.
Proof. destruct o; simpl; split; congruence. Qed.

Lemma mapR_length {A B} (f : A -> result B) xs ys :
  mapR f xs = Ok ys -> length ys = length xs.
Proof.
  revert ys; induction xs as [|x xs IH]; simpl; intros ys H.
  - by inversion H.
  - apply bind_Ok in H as (y & _ & H). apply bind_Ok in H as (ys' & H' & H).
    inversion H; subst. simpl. f_equal. by apply IH.
Qed.

Lemma mapR_lookup {A B} (f : A -> result B) xs ys i x :
  mapR f xs = Ok ys -> xs !! i = Some x ->
  exists y, ys !! i = Some y /\ f x = Ok y.
Proof.
  revert ys i; induction xs as [|x0 xs IH]; simpl; intros ys i H Hx; [done|].
  apply bind_Ok in H as (y & Hy & H). apply bind_Ok in H as (ys' & H' & H).
  inversion H; subst. destruct i as [|i]; simpl in *.
  - inversion Hx; subst. eauto.
  - eauto.
Qed.

Lemma mapR_Ok_intro {A B} (f : A -> result B) xs :
  Forall (fun x => exists y, f x = Ok y) xs -> exists ys, mapR f xs = Ok ys.
Proof.
  induction 1 as [|x xs [y Hy] _ [ys IH]]; simpl; [eauto|].
  rewrite Hy. simpl. rewrite IH. simpl. eauto.
Qed.

(** ** Facts about the string functions *)

Module PyStrFacts.
Import PyStr.

Lemma split_go_nonempty sep skip s : split_go sep skip s <> [].
Proof.
  revert skip; induction s as [|c s IH]; intros skip; cbn [split_go]; [done|].
  destruct skip; [|apply IH].
  destruct (String.prefix sep (String c s)); [done|].
  specialize (IH 0%nat). by destruct (split_go sep 0 s).
Qed.

(** A piece that holds no [" ("] is returned whole. *)
Lemma split_no_sep (s : string) :
  occurs " (" s = false -> split " (" s = [s].
Proof.
  unfold split. induction s as [|c s IH]; [done|].
  intros H. cbn [occurs] in H. apply orb_false_iff in H as [Hp Ho].
  cbn [split_go]. rewrite Hp, (IH Ho). done.
Qed.

Lemma prefix_empty (s : string) : String.prefix "" s = true.
Proof. by destruct s. Qed.

Lemma prefix_sep (c c' : ascii) (r : string) :
  String.prefix " (" (String c (String c' r))
  = Ascii.eqb " " c && Ascii.eqb "(" c'.
Proof.
  cbn [String.prefix]. rewrite prefix_empty.
  destruct (ascii_dec " " c) as [<-|Hc].
  - destruct (ascii_dec "(" c') as [<-|Hc']; [done|].
    by apply Ascii.eqb_neq in Hc' as ->.
  - by apply Ascii.eqb_neq in Hc as ->.
Qed.

Lemma split_go_at_sep (rest : string) :
  split_go " (" 0 (String " " (String "(" rest)) = "" :: split_go " (" 0 rest.
Proof. cbn [split_go]. by rewrite prefix_sep. Qed.

(** The first piece ends at the first [" ("]. *)
Lemma split_first_sep (name rest : string) :
  occurs " (" name = false ->
  split " (" (name +:+ " (" +:+ rest) = name :: split " (" rest.
Proof.
  unfold split. induction name as [|c name IH]; intros H.
  { apply split_go_at_sep. }
  cbn [occurs] in H. apply orb_false_iff in H as [Hp Ho].
  change (String c name +:+ " (" +:+ rest)
    with (String c (name +:+ " (" +:+ rest)).
  cbn [split_go]. rewrite (IH Ho).
  assert (String.prefix " (" (String c (name +:+ " (" +:+ rest)) = false) as ->.
  { destruct name as [|c' name].
    - change ("" +:+ " (" +:+ rest) with (String " " (String "(" rest)).
      rewrite prefix_sep. apply andb_false_r.
    - change (String c' name +:+ " (" +:+ rest)
        with (String c' (name +:+ " (" +:+ rest)).
      rewrite prefix_sep. by rewrite prefix_sep in Hp. }
  done.
Qed.

(** Without [" ("] there is no second piece. *)
Lemma split_second_none (s : string) :
  occurs " (" s = false -> split " (" s !! 1%nat = None.
Proof. intros H. by rewrite split_no_sep. Qed.

Lemma join_empty_cons_head c ps :
  ps <> [] -> join "" (cons_head c ps) = String c (join "" ps).
Proof. destruct ps as [|p [|q ps]]; [done| |]; intros _; reflexivity. Qed.

(** [s.replace(c, '')] deletes every [c]. *)
Lemma replace_char_empty (c : ascii) (s : string) :
  replace (String c "") "" s = remove c s.
Proof.
  unfold replace, split. induction s as [|c' s IH]; [done|].
  cbn [split_go remove String.prefix].
  destruct (ascii_dec c c') as [->|Hne].
  - rewrite Ascii.eqb_refl.
    rewrite prefix_empty.
    cbn [String.length Nat.sub]. rewrite <- IH.
    pose proof (split_go_nonempty (String c' "") 0 s).
    by destruct (split_go (String c' "") 0 s) as [|p [|q ps]].
  - assert (Ascii.eqb c c' = false) as -> by by apply Ascii.eqb_neq.
    rewrite join_empty_cons_head by apply split_go_nonempty.
    by rewrite IH.
Qed.

Lemma lower_char_upper_char c : lower_char (upper_char c) = lower_char c.
Proof. destruct c as [[] [] [] [] [] [] [] []]; reflexivity. Qed.

Lemma lower_char_idemp c : lower_char (lower_char c) = lower_char c.
Proof. destruct c as [[] [] [] [] [] [] [] []]; reflexivity. Qed.

Lemma lower_idemp s : lower (lower s) = lower s.
Proof. induction s as [|c s IH]; simpl; [done|]. by rewrite lower_char_idemp, IH. Qed.

Lemma lower_capitalize s : lower (capitalize s) = lower s.
Proof.
  destruct s as [|c s]; simpl; [done|].
  by rewrite lower_char_upper_char, lower_idemp.
Qed.

Lemma length_append (s1 s2 : string) :
  String.length (s1 +:+ s2) = (String.length s1 + String.length s2)%nat.
Proof. induction s1 as [|c s1 IH]; [done|]. simpl. by rewrite <- IH. Qed.

Lemma length_lower s : String.length (lower s) = String.length s.
Proof. induction s; simpl; congruence. Qed.

Lemma length_capitalize s : String.length (capitalize s) = String.length s.
Proof. destruct s; simpl; [done|]. by rewrite length_lower. Qed.

End PyStrFacts.

(** ** The Meeting cell of the vendor table *)

Section MeetingCell.
Import PyStr PyStrFacts.

(** C3 (as amended): the meeting name is the text before the first
    [" ("]; the year text is the text between the first and the second
    [" ("] (up to the end of the cell when there is no second one) with
    every [")"] removed; a cell without [" ("] has no year text
    ([IndexError]). *)
Theorem split_meeting_cell (name y rest : string) :
  occurs " (" name = false ->
  occurs " (" y = false ->
  (meeting_name (Str (name +:+ " (" +:+ y)) = Ok (Str name)
   /\ year_text (Str (name +:+ " (" +:+ y)) = Ok (Str (remove ")" y)))
  /\ (meeting_name (Str (name +:+ " (" +:+ y +:+ " (" +:+ rest)) = Ok (Str name)
      /\ year_text (Str (name +:+ " (" +:+ y +:+ " (" +:+ rest))
         = Ok (Str (remove ")" y)))
  /\ year_text (Str name) = Raise IndexError.
Proof.
  intros Hn Hy. unfold meeting_name, year_text.
  rewrite !split_first_sep by done. rewrite (split_no_sep y Hy).
  rewrite (split_no_sep name Hn). simpl.
  by rewrite replace_char_empty.
Qed.

(** The cell of the specification's example. *)
Lemma split_meeting_cell_witness :
  occurs " (" "Meeting X" = false
  /\ occurs " (" "1999)" = false
  /\ meeting_name (Str "Meeting X (1999)") = Ok (Str "Meeting X")
  /\ year_text (Str "Meeting X (1999)") = Ok (Str "1999").
Proof.
  split; [reflexivity|]. split; [reflexivity|].
  destruct (split_meeting_cell "Meeting X" "1999)" "" eq_refl eq_refl)
    as [[Hm Hy] _].
  split; [exact Hm | exact Hy].
Defined.

(** C3 (as stated) fails on a cell with a second [" ("]: the
    specification's split of ["A (B) (1999)"] has year text
    ["B) (1999"], the code's has ["B"]. *)
Lemma split_meeting_counterexample :
  Spec.split_meeting "A (B) (1999)" = Some ("A", "B) (1999")
  /\ meeting_name (Str "A (B) (1999)") = Ok (Str "A")
  /\ year_text (Str "A (B) (1999)") = Ok (Str "B")
  /\ ~ (forall x name year,
          Spec.split_meeting x = Some (name, year) ->
          meeting_name (Str x) = Ok (Str name)
          /\ year_text (Str x) = Ok (Str year)).
Proof.
  split; [reflexivity|]. split; [reflexivity|]. split; [reflexivity|].
  intros H. destruct (H "A (B) (1999)" "A" "B) (1999" eq_refl) as [_ Hy].
  discriminate Hy.
Qed.

End MeetingCell.

(** ** The meeting-name table *)

(** The remap table has nine entries; each vendor name maps to its
    canonical name, no entry maps to a missing value, and a name (or a
    missing value) that is no key of the table is remapped to [NA]. *)
Lemma mapper_remap :
  length mapper_items = 9%nat
  /\ NoDup mapper_items.*1
  /\ map (fun k => map_dict mapper (Str k)) mapper_items.*1
     = [ Str "The Track at Boston";
         Str "Meeting Hauts-de-France Pas-de-Calais";
         Str "Ethiopian Olympic Trials";
         Str "FBK Games";
         Str "NN World Record Day";
         Str "Diamond League";
         Str "Herculis";
         Str "Diamond League";
         Str "Impossible Games" ]
  /\ map_dict mapper (Str "Memorial van Damme") = Str "Diamond League"
  /\ map_dict mapper (Str "Monaco Diamond League") = Str "Diamond League"
  /\ map_dict mapper (Str "Herculis Monaco") = Str "Herculis"
  /\ (forall k v, (k, v) ∈ mapper_items <-> map_dict mapper (Str k) = Str v)
  /\ (forall k, k ∉ mapper_items.*1 <-> map_dict mapper (Str k) = NA)
  /\ map_dict mapper NA = NA.
Proof.
  assert (Hnd : NoDup mapper_items.*1) by compute_done.
  assert (Hin : forall k v, (k, v) ∈ mapper_items <-> mapper !! k = Some v).
  { intros k v. unfold mapper. by apply elem_of_list_to_map. }
  assert (Hout : forall k, k ∉ mapper_items.*1 <-> mapper !! k = None).
  { intros k. unfold mapper. apply not_elem_of_list_to_map. }
  split; [reflexivity|]. split; [exact Hnd|].
  split; [by vm_compute|]. split; [by vm_compute|].
  split; [by vm_compute|]. split; [by vm_compute|].
  split; [|split; [|reflexivity]].
  - intros k v. rewrite Hin. unfold map_dict.
    destruct (mapper !! k); split; congruence.
  - intros k. rewrite Hout. unfold map_dict.
    destruct (mapper !! k); split; congruence.
Qed.

(** ** The status report *)

Section CheckStatus.
Import PyStr PyStrFacts.

Lemma success_line_not_error_line status location location' :
  success_line location <> error_line status location'
  \/ String.length location <> String.length location'.
Proof.
  destruct (decide (String.length location = String.length location')) as [E|];
    [left|by right].
  intros H. apply (f_equal String.length) in H.
  unfold success_line, error_line in H.
  rewrite !length_append, length_capitalize in H.
  simpl in H. lia.
Qed.

(** C10: for every status code and location, [check_status] returns
    without raising and prints exactly one line: the success line, which
    names the location (capitalised), if and only if the status is 200,
    and otherwise the error line, which holds the location and the
    decimal status code. *)
Theorem check_status_reports (status : Z) (location : string) (out : stdout) :
  exists line,
    check_status status location out = Ok (out ++ [line])
    /\ (line = success_line location <-> status = 200)
    /\ (line = error_line status location <-> status <> 200)
    /\ lower (capitalize location) = lower location.
Proof.
  unfold check_status.
  destruct (success_line_not_error_line status location location) as [Hne|]; [|done].
  destruct (decide (status = 200)) as [E|E].
  - exists (success_line location). split; [done|].
    split; [done|]. split; [|apply lower_capitalize].
    split; [|done]. intros H. by destruct Hne.
  - exists (error_line status location). split; [done|].
    split; [|split; [done|apply lower_capitalize]].
    split; [|done]. intros H. by destruct Hne.
Qed.

End CheckStatus.

(** ** Facts about the table library *)

Module PdFacts.

Lemma label_put j v r : label (put j v r) = label r.
Proof. done. Qed.

Lemma cell_at_put_eq j v r : cell_at j (put j v r) = v.
Proof.
  unfold cell_at, put; simpl.
  rewrite list_lookup_insert_eq; [done|]. rewrite length_resize. lia.
Qed.

Lemma cell_at_put_ne j j' v r : j <> j' -> cell_at j' (put j v r) = cell_at j' r.
Proof.
  intros Hne. unfold cell_at, put; simpl.
  rewrite list_lookup_insert_ne by done.
  destruct (decide (j' < length (cells r))%nat) as [Hlt|Hge].
  - rewrite lookup_resize by lia. done.
  - rewrite (lookup_ge_None_2 (cells r)) by lia.
    destruct (decide (j' < S j `max` length (cells r))%nat).
    + rewrite lookup_resize_new by lia. done.
    + rewrite lookup_ge_None_2; [done|]. rewrite length_resize. lia.
Qed.

Lemma cell_at_put j j' v r :
  cell_at j' (put j v r) = if decide (j = j') then v else cell_at j' r.
Proof.
  case_decide; subst; [apply cell_at_put_eq | by apply cell_at_put_ne].
Qed.

Lemma length_put_col j vs rs : length (put_col j vs rs) = length rs.
Proof. revert vs; induction rs; intros vs; simpl; [done|]. by rewrite IHrs. Qed.

Lemma put_col_lookup j vs rs i :
  put_col j vs rs !! i = (fun r => put j (default NA (vs !! i)) r) <$> rs !! i.
Proof.
  revert vs i; induction rs as [|r rs IH]; intros vs i; [done|].
  destruct i as [|i]; simpl.
  - by destruct vs.
  - rewrite IH. by destruct vs.
Qed.

Lemma put_col_labels j vs rs : map label (put_col j vs rs) = map label rs.
Proof. revert vs; induction rs; intros vs; simpl; [done|]. by rewrite IHrs. Qed.

Lemma index_of_Some x l i :
  index_of x l = Some i -> l !! i = Some x.
Proof.
  revert i; induction l as [|y l IH]; intros i; simpl; [done|].
  case_decide; subst.
  - by intros [= <-].
  - destruct (index_of x l) eqn:E; simpl; [|done]. intros [= <-]. by apply IH.
Qed.

Lemma index_of_None x l : index_of x l = None <-> x ∉ l.
Proof.
  induction l as [|y l IH]; simpl.
  - split; [intros _; apply not_elem_of_nil | done].
  - rewrite not_elem_of_cons. case_decide; subst.
    + split; [done|]. by intros [? _].
    + destruct (index_of x l); simpl.
      * split; [done|]. intros [_ H']. by apply IH in H'.
      * split; [|done]. intros _. split; [done|]. by apply IH.
Qed.

Lemma index_of_is_Some x l : x ∈ l -> exists i, index_of x l = Some i.
Proof.
  intros H. destruct (index_of x l) eqn:E; [eauto|].
  by apply index_of_None in E.
Qed.

Lemma index_of_lt x l i : index_of x l = Some i -> (i < length l)%nat.
Proof. intros H. apply index_of_Some in H. by apply lookup_lt_Some in H. Qed.

(** Two different labels are found at different positions. *)
Lemma index_of_ne x y l i j :
  index_of x l = Some i -> index_of y l = Some j -> x <> y -> i <> j.
Proof.
  intros Hx Hy Hne ->. apply index_of_Some in Hx, Hy. congruence.
Qed.

Lemma index_of_app_l x l l' i :
  index_of x l = Some i -> index_of x (l ++ l') = Some i.
Proof.
  revert i; induction l as [|y l IH]; intros i; simpl; [done|].
  case_decide; [done|].
  destruct (index_of x l) eqn:E; simpl; [|done].
  intros [= <-]. by rewrite (IH _ eq_refl).
Qed.

Lemma index_of_app_r x l l' :
  x ∉ l -> index_of x (l ++ l') = (fun i => length l + i)%nat <$> index_of x l'.
Proof.
  induction l as [|y l IH]; simpl; intros H.
  - by destruct (index_of x l').
  - apply not_elem_of_cons in H as [Hne H]. case_decide; [done|].
    rewrite (IH H). by destruct (index_of x l').
Qed.

(** In a header without repeated labels a label sits where it is found. *)
Lemma index_of_NoDup x l i : NoDup l -> l !! i = Some x -> index_of x l = Some i.
Proof.
  intros Hnd Hi. destruct (index_of x l) as [j|] eqn:E.
  - f_equal. apply index_of_Some in E. by eapply NoDup_lookup.
  - apply index_of_None in E. destruct E. by eapply list_elem_of_lookup_2.
Qed.

Lemma renumber_length s rs : length (renumber s rs) = length rs.
Proof. revert s; induction rs; intros s; simpl; [done|]. by rewrite IHrs. Qed.

Lemma renumber_lookup s rs i :
  renumber s rs !! i = (fun r => mkRow (s + Z.of_nat i) (cells r)) <$> rs !! i.
Proof.
  revert s i; induction rs as [|r rs IH]; intros s i; [done|].
  destruct i as [|i]; simpl.
  - by rewrite Z.add_0_r.
  - rewrite IH. by replace (s + 1 + Z.of_nat i) with (s + Z.of_nat (S i)) by lia.
Qed.

Lemma renumber_cells s rs : map cells (renumber s rs) = map cells rs.
Proof. revert s; induction rs; intros s; simpl; [done|]. by rewrite IHrs. Qed.

Lemma renumber_app s rs rs' :
  renumber s (rs ++ rs') = renumber s rs ++ renumber (s + Z.of_nat (length rs)) rs'.
Proof.
  revert s; induction rs as [|r rs IH]; intros s; simpl.
  - by rewrite Z.add_0_r.
  - rewrite IH. do 3 f_equal. lia.
Qed.

Lemma fresh_elem x seen new : x ∈ new -> x ∈ seen ++ fresh seen new.
Proof.
  revert seen; induction new as [|y new IH]; intros seen H; simpl.
  - by apply elem_of_nil in H.
  - apply elem_of_cons in H as [->|H].
    + case_decide; [by apply elem_of_app; left|].
      apply elem_of_app; right. by left.
    + case_decide; [by apply IH|].
      specialize (IH (seen ++ [y]) H). rewrite <- (assoc_L (++)) in IH. done.
Qed.

Lemma union_cols_seen x seen hs : x ∈ seen -> x ∈ union_cols seen hs.
Proof.
  revert seen; induction hs as [|h hs IH]; intros seen H; simpl; [done|].
  apply IH. apply elem_of_app. by left.
Qed.

Lemma union_cols_elem x seen hs h : h ∈ hs -> x ∈ h -> x ∈ union_cols seen hs.
Proof.
  revert seen; induction hs as [|h' hs IH]; intros seen Hh Hx; simpl.
  - by apply elem_of_nil in Hh.
  - apply elem_of_cons in Hh as [->|Hh]; [|by apply IH].
    apply union_cols_seen. by apply fresh_elem.
Qed.

Lemma union_headers_elem x hs h : h ∈ hs -> x ∈ h -> x ∈ union_headers hs.
Proof.
  intros Hh Hx. destruct hs as [|h0 hs]; unfold union_headers.
  - by apply elem_of_nil in Hh.
  - case_decide as Hall; [|by eapply union_cols_elem].
    apply elem_of_cons in Hh as [->|Hh]; [done|].
    rewrite Forall_forall in Hall. by rewrite (Hall h Hh).
Qed.

Lemma read_row_reindex h new r n c :
  n ∈ new -> read_row h r n = Some c -> read_row new (reindex h new r) n = Some c.
Proof.
  intros Hn Hc. unfold read_row in *.
  destruct (index_of_is_Some _ _ Hn) as [j' Hj']. rewrite Hj'. simpl.
  destruct (index_of n h) as [j|] eqn:Hj; [|done]. simpl in Hc.
  unfold cell_at at 1, reindex; simpl. rewrite list_lookup_fmap.
  rewrite (index_of_Some _ _ _ Hj'). simpl. by rewrite Hj.
Qed.

Lemma read_row_elem h r n c : read_row h r n = Some c -> n ∈ h.
Proof.
  unfold read_row. destruct (index_of n h) eqn:E; [|done]. intros _.
  apply index_of_Some in E. by eapply list_elem_of_lookup_2.
Qed.

Lemma align_carries new h rs rs' :
  (forall n, n ∈ h -> n ∈ new) ->
  align new (h, rs) = Ok rs' ->
  Forall2 (fun r o => carries h r new o) rs rs'.
Proof.
  intros Hsub. unfold align; simpl. case_decide as E.
  - intros [= <-]. subst. apply Forall_Forall2_diag, Forall_forall.
    intros r _. by split.
  - case_decide; [|done]. intros [= <-].
    apply Forall2_fmap_r, Forall_Forall2_diag, Forall_forall.
    intros r _. split; [done|]. intros n c Hc.
    apply read_row_reindex; [|done]. apply Hsub. by eapply read_row_elem.
Qed.

Lemma mapR_Forall2 {A B} (f : A -> result B) xs ys :
  mapR f xs = Ok ys -> Forall2 (fun x y => f x = Ok y) xs ys.
Proof.
  revert ys; induction xs as [|x xs IH]; simpl; intros ys H.
  - inversion H. constructor.
  - apply bind_Ok in H as (y & Hy & H). apply bind_Ok in H as (ys' & H' & H).
    inversion H; subst. constructor; [done|]. by apply IH.
Qed.

(** The rows of a concatenation are the rows of the frames, in order,
    each carried over to the common header. *)
Lemma concat_inv dfs df :
  concat dfs = Ok df ->
  exists headers new,
    mapR (flat TypeError) dfs = Ok headers
    /\ columns df = Index new
    /\ Forall2 (fun '(h, r) o => carries h r new o)
               (List.concat (zip_with (fun h d => map (pair h) (rows d)) headers dfs))
               (rows df).
Proof.
  unfold concat. intros H. apply bind_Ok in H as (headers & Hh & H).
  case_decide as Hne; [done|].
  apply bind_Ok in H as (rss & Hrss & H). inversion H; subst; clear H.
  exists headers, (union_headers headers). split; [done|]. split; [done|].
  simpl. apply mapR_Forall2 in Hrss.
  assert (Hsub : forall h, h ∈ headers -> forall n, n ∈ h -> n ∈ union_headers headers).
  { intros h Hin n Hn. by eapply union_headers_elem. }
  apply mapR_length in Hh. clear Hne.
  revert Hsub Hrss. generalize (union_headers headers) as new.
  revert dfs rss Hh.
  induction headers as [|h headers IH]; intros [|d dfs] rss Hlen new Hsub Hrss;
    simpl in *; try done.
  - inversion Hrss. constructor.
  - inversion Hrss as [|? rs' ? rss' Ha Hrest]; subst. simpl.
    apply Forall2_app.
    + apply Forall2_fmap_l. eapply Forall2_impl.
      * eapply align_carries; [|exact Ha]. apply Hsub. by left.
      * done.
    + apply IH; [lia| |done]. intros h' Hin. apply Hsub. by right.
Qed.

Lemma flat_Ok e df ns : flat e df = Ok ns <-> columns df = Index ns.
Proof. unfold flat. destruct (columns df); split; congruence. Qed.

Lemma get_loc_Ok e name df j :
  get_loc e name df = Ok j <->
  exists ns, columns df = Index ns /\ index_of name ns = Some j.
Proof.
  unfold get_loc. split.
  - intros H. apply bind_Ok in H as (ns & Hns & H). apply flat_Ok in Hns.
    apply or_raise_Ok in H. eauto.
  - intros (ns & Hns & H). apply (flat_Ok e) in Hns. rewrite Hns. simpl.
    by rewrite H.
Qed.

Lemma get_Ok e name df vs :
  get e name df = Ok vs <->
  exists ns j, columns df = Index ns /\ index_of name ns = Some j
               /\ vs = map (cell_at j) (rows df).
Proof.
  unfold get. split.
  - intros H. apply bind_Ok in H as (j & Hj & H). apply get_loc_Ok in Hj.
    destruct Hj as (ns & ? & ?). inversion H. eauto.
  - intros (ns & j & Hns & Hj & ->).
    assert (get_loc e name df = Ok j) as -> by (apply get_loc_Ok; eauto). done.
Qed.

(** What [df[name] = vs] does: the column sits at position [j] of the
    new header, which is the old header or the old header with [name]
    appended, and row [i] gets [vs[i]] there. *)
Lemma set_Ok e name vs df df' :
  set e name vs df = Ok df' ->
  exists ns ns' j,
    columns df = Index ns /\ columns df' = Index ns'
    /\ index_of name ns' = Some j
    /\ (ns' = ns \/ ((name ∉ ns) /\ ns' = ns ++ [name] /\ j = length ns))
    /\ rows df' = put_col j vs (rows df).
Proof.
  unfold set. intros H. apply bind_Ok in H as (ns & Hns & H).
  apply flat_Ok in Hns. destruct (index_of name ns) as [j|] eqn:Hj.
  - inversion H; subst. exists ns, ns, j. eauto 10.
  - inversion H; subst. apply index_of_None in Hj.
    exists ns, (ns ++ [name]), (length ns). repeat split; try done.
    + rewrite index_of_app_r by done. simpl. rewrite decide_True by done.
      simpl. f_equal. lia.
    + right. done.
Qed.

Lemma set_is_Ok e name vs df ns :
  columns df = Index ns -> exists df', set e name vs df = Ok df'.
Proof.
  intros Hns. unfold set. apply (flat_Ok e) in Hns. rewrite Hns. simpl.
  destruct (index_of name ns); eauto.
Qed.

(** A column other than the one set reads as before. *)
Lemma read_row_set_ne name ns ns' j v r n :
  index_of name ns' = Some j ->
  (ns' = ns \/ ((name ∉ ns) /\ ns' = ns ++ [name] /\ j = length ns)) ->
  n <> name ->
  read_row ns' (put j v r) n = read_row ns r n.
Proof.
  intros Hj Hns Hne. unfold read_row.
  destruct Hns as [->|(Hnin & -> & ->)].
  - destruct (index_of n ns) as [j'|] eqn:Hj'; [|done]. simpl.
    rewrite cell_at_put_ne; [done|]. by eapply index_of_ne.
  - destruct (index_of n ns) as [j'|] eqn:Hj'.
    + rewrite (index_of_app_l _ _ _ _ Hj'). simpl.
      rewrite cell_at_put_ne; [done|]. apply index_of_lt in Hj'. lia.
    + apply index_of_None in Hj'. rewrite index_of_app_r by done. simpl.
      by rewrite decide_False.
Qed.

Lemma iloc_set_Ok i j v df df' :
  iloc_set i j v df = Ok df' ->
  (i < length (rows df))%nat
  /\ columns df' = columns df
  /\ rows df' = alter (put j v) i (rows df).
Proof.
  unfold iloc_set. case_decide as H; [|done]. intros [= <-]. simpl.
  split; [lia|done].
Qed.

Lemma filter_labels_ext (f g : Row -> bool) rs :
  (forall r, f r = g r) -> List.filter f rs = List.filter g rs.
Proof.
  intros E. induction rs as [|r rs IH]; simpl; [done|]. by rewrite E, IH.
Qed.

Lemma fresh_NoDup seen l : NoDup seen -> NoDup (seen ++ fresh seen l).
Proof.
  revert seen; induction l as [|x l IH]; intros seen Hnd; simpl.
  - by rewrite app_nil_r.
  - case_decide as Hin; [by apply IH|].
    rewrite cons_middle, (assoc_L (++) seen [x]). apply IH.
    apply NoDup_app. split; [done|]. split; [|apply NoDup_singleton].
    intros y Hy Hy'. apply list_elem_of_singleton in Hy'. by subst.
Qed.

Lemma fresh_id seen l :
  NoDup l -> (forall x, x ∈ l -> x ∉ seen) -> fresh seen l = l.
Proof.
  revert seen; induction l as [|x l IH]; intros seen Hnd Hdis; simpl; [done|].
  apply NoDup_cons in Hnd as [Hx Hnd].
  rewrite decide_False by (apply Hdis; by left). f_equal. apply IH; [done|].
  intros y Hy Hy'. apply elem_of_app in Hy' as [Hy'|Hy'].
  - by apply (Hdis y); [right|].
  - apply list_elem_of_singleton in Hy'. by subst.
Qed.

(** The header of a concatenation, and what it takes for the frames to
    be laid out under it. *)
Lemma concat_header dfs df :
  concat dfs = Ok df ->
  exists headers,
    mapR (flat TypeError) dfs = Ok headers
    /\ columns df = Index (union_headers headers)
    /\ Forall (fun h => h = union_headers headers \/ NoDup h) headers.
Proof.
  unfold concat. intros H. apply bind_Ok in H as (headers & Hh & H).
  case_decide as Hne; [done|].
  apply bind_Ok in H as (rss & Hrss & H). inversion H; subst; clear H.
  exists headers. split; [done|]. split; [done|].
  apply mapR_Forall2 in Hrss. apply mapR_length in Hh. clear Hne.
  revert Hrss. generalize (union_headers headers) as new.
  revert dfs rss Hh.
  induction headers as [|h headers IH]; intros [|d dfs] rss Hlen new Hrss;
    simpl in *; try done.
  inversion Hrss as [|? rs' ? rss' Ha Hrest]; subst.
  constructor; [|eapply IH; [|done]; lia].
  unfold align in Ha; simpl in Ha. case_decide; [by left|].
  case_decide; [by right|done].
Qed.

(** The concatenation of two frames with different headers, the first
    of which is the wider table: its labels keep their positions. *)
Lemma concat_two a b c ha hb :
  columns a = Index ha -> columns b = Index hb -> ha <> hb ->
  concat [a; b] = Ok c ->
  NoDup ha
  /\ columns c = Index (ha ++ fresh ha hb)
  /\ exists ra rb,
      rows c = ra ++ rb
      /\ Forall2 (fun r o => carries ha r (ha ++ fresh ha hb) o) (rows a) ra
      /\ Forall2 (fun r o => carries hb r (ha ++ fresh ha hb) o) (rows b) rb.
Proof.
  intros Ha Hb Hne Hc.
  destruct (concat_header _ _ Hc) as (headers & Hh & Hcols & Hall).
  destruct (concat_inv _ _ Hc) as (headers' & new & Hh' & Hnew & Hrows).
  rewrite Hh in Hh'. inversion Hh'; subst headers'; clear Hh'.
  simpl in Hh. apply (flat_Ok TypeError) in Ha, Hb. rewrite Ha, Hb in Hh.
  simpl in Hh. inversion Hh; subst headers; clear Hh.
  assert (Hu : union_headers [ha; hb] = fresh [] ha ++ fresh (fresh [] ha) hb).
  { unfold union_headers. rewrite decide_False; [done|].
    intros Hf. apply Forall_cons in Hf as [? _]. done. }
  assert (Hnd : NoDup ha).
  { apply Forall_cons in Hall as [[E|?] _]; [|done].
    rewrite E, Hu. apply (fresh_NoDup (fresh [] ha) hb).
    apply (fresh_NoDup [] ha). constructor. }
  assert (Hid : fresh [] ha = ha).
  { apply fresh_id; [done|]. intros x _. apply not_elem_of_nil. }
  rewrite Hid in Hu. rewrite Hu in Hcols.
  assert (new = ha ++ fresh ha hb) as -> by congruence.
  split; [done|]. split; [done|].
  cbn [zip_with List.concat] in Hrows. rewrite app_nil_r in Hrows.
  apply Forall2_app_inv_l in Hrows as (ra & rb & Hra & Hrb & ->).
  exists ra, rb. split; [done|].
  split; [by apply Forall2_fmap_l in Hra | by apply Forall2_fmap_l in Hrb].
Qed.

End PdFacts.

(** ** In-place updates of a table *)

Section InPlace.
Import PdFacts.

Lemma put_col_Forall2 j vs rs :
  Forall2 (fun r r' => forall j', j' <> j -> cell_at j' r' = cell_at j' r)
          rs (put_col j vs rs).
Proof.
  revert vs; induction rs as [|r rs IH]; intros vs; simpl; constructor.
  - intros j' Hne. by apply cell_at_put_ne.
  - apply IH.
Qed.

Lemma changed_only_in_refl names df h :
  columns df = Index h -> changed_only_in names df df.
Proof.
  intros Hh. split; [done|]. exists h. split; [done|].
  by apply Forall_Forall2_diag, Forall_forall.
Qed.

Lemma set_changed e name vs df df' :
  set e name vs df = Ok df' ->
  exists ns ns',
    columns df = Index ns /\ columns df' = Index ns'
    /\ (forall n j, index_of n ns' = Some j -> n <> name -> index_of n ns = Some j)
    /\ changed_only_in [name] df df'.
Proof.
  intros H. apply set_Ok in H as (ns & ns' & j & Hns & Hns' & Hj & Hcase & Hrows).
  exists ns, ns'. split; [done|]. split; [done|]. split.
  - intros n j' Hj' Hne. destruct Hcase as [->|(Hnin & -> & ->)]; [done|].
    destruct (index_of n ns) as [k|] eqn:Hk.
    + by rewrite (index_of_app_l _ _ _ _ Hk) in Hj'.
    + apply index_of_None in Hk. rewrite index_of_app_r in Hj' by done.
      simpl in Hj'. by rewrite decide_False in Hj'.
  - split; [by rewrite Hrows, put_col_labels|]. exists ns'. split; [done|].
    rewrite Hrows. eapply Forall2_impl; [apply put_col_Forall2|].
    intros r r' Hr n j' Hj' Hnin. apply Hr. intros ->.
    apply Hnin. apply index_of_Some in Hj, Hj'. rewrite Hj in Hj'.
    inversion Hj'. by left.
Qed.

Lemma changed_only_in_trans names1 names2 df df' df'' h' h'' :
  columns df' = Index h' -> columns df'' = Index h'' ->
  (forall n j, index_of n h'' = Some j -> n ∉ names2 -> index_of n h' = Some j) ->
  changed_only_in names1 df df' ->
  changed_only_in names2 df' df'' ->
  changed_only_in (names1 ++ names2) df df''.
Proof.
  intros Hh' Hh'' Hpos [Hl1 (h1 & Hh1 & H1)] [Hl2 (h2 & Hh2 & H2)].
  rewrite Hh' in Hh1. rewrite Hh'' in Hh2. inversion Hh1; inversion Hh2; subst.
  split; [congruence|]. exists h2. split; [done|].
  apply Forall2_same_length_lookup_2; [by etrans; eapply Forall2_length|].
  intros i r r'' Hr Hr''.
  destruct (Forall2_lookup_l _ _ _ _ _ H1 Hr) as (r' & Hr' & Hc1).
  destruct (Forall2_lookup_l _ _ _ _ _ H2 Hr') as (r2 & Hr2 & Hc2).
  rewrite Hr'' in Hr2. inversion Hr2; subst.
  intros n j Hj Hnin. apply not_elem_of_app in Hnin as [Hn1 Hn2].
  rewrite (Hc2 n j Hj Hn2). apply (Hc1 n); [|done]. by apply Hpos.
Qed.

Lemma changed_only_in_droplevel0 names df df' :
  droplevel0 df = Ok df' -> changed_only_in names df df'.
Proof.
  unfold droplevel0. destruct (columns df) as [|ts]; [done|].
  intros [= <-]. split; [done|]. exists (map snd ts). split; [done|].
  by apply Forall_Forall2_diag, Forall_forall.
Qed.

Lemma droplevel0_rows df df' : droplevel0 df = Ok df' -> rows df' = rows df.
Proof. unfold droplevel0. destruct (columns df); [done|]. by intros [= <-]. Qed.

End InPlace.

(** ** [create_world_records_df] *)

Section WorldRecordsFacts.
Import PdFacts.

Variable to_datetime : list cell -> result (list cell).

Lemma format_date_Ok df df' :
  format_date to_datetime df = Ok df' ->
  exists ns, columns df = Index ns /\ columns df' = Index ns
             /\ changed_only_in ["Date"] df df'.
Proof.
  unfold format_date. intros H. apply bind_Ok in H as (d & Hd & H).
  apply bind_Ok in H as (d' & _ & H).
  apply get_Ok in Hd as (ns & j & Hns & Hj & _).
  pose proof (set_changed _ _ _ _ _ H) as (ns0 & ns' & Hns0 & Hns' & _ & Hch).
  apply set_Ok in H as (ns1 & ns2 & j' & Hns1 & Hns2 & Hj' & Hcase & _).
  rewrite Hns in Hns1. inversion Hns1; subst ns1.
  destruct Hcase as [->|(Hnin & _)].
  - exists ns. done.
  - apply index_of_None in Hnin. congruence.
Qed.

Lemma set_scalar_changed e name v df df' :
  set_scalar e name v df = Ok df' ->
  exists ns ns',
    columns df = Index ns /\ columns df' = Index ns'
    /\ (forall n j, index_of n ns' = Some j -> n <> name -> index_of n ns = Some j)
    /\ changed_only_in [name] df df'.
Proof. apply set_changed. Qed.

(** The four tables [format_tables] returns are the tables at positions
    0, 1, 3 and 4 of the list, each with the same rows and index labels,
    changed at most in the header, the dates and the gender. *)
Lemma format_tables_Ok df_list m w mi wi :
  format_tables to_datetime df_list = Ok (m, w, mi, wi) ->
  exists m0 w0 mi0 wi0,
    df_list !! 0%nat = Some m0 /\ df_list !! 1%nat = Some w0
    /\ df_list !! 3%nat = Some mi0 /\ df_list !! 4%nat = Some wi0
    /\ changed_only_in ["Date"; "gender"] m0 m
    /\ changed_only_in ["Date"; "gender"] w0 w
    /\ changed_only_in ["Date"] mi0 mi
    /\ changed_only_in ["Date"] wi0 wi.
Proof.
  unfold format_tables. intros H.
  apply bind_Ok in H as (m0 & Hm0 & H). apply or_raise_Ok in Hm0.
  apply bind_Ok in H as (w0 & Hw0 & H). apply or_raise_Ok in Hw0.
  apply bind_Ok in H as (mi0 & Hmi0 & H). apply or_raise_Ok in Hmi0.
  apply bind_Ok in H as (wi0 & Hwi0 & H). apply or_raise_Ok in Hwi0.
  apply bind_Ok in H as (m1 & Hm1 & H).
  apply bind_Ok in H as (m2 & Hm2 & H).
  apply bind_Ok in H as (mi1 & Hmi1 & H).
  apply bind_Ok in H as (w1 & Hw1 & H).
  apply bind_Ok in H as (wi1 & Hwi1 & H).
  apply bind_Ok in H as (w2 & Hw2 & H).
  apply bind_Ok in H as (m3 & Hm3 & H).
  inversion H; subst; clear H.
  exists m0, w0, mi0, wi0. do 4 (split; [done|]).
  apply format_date_Ok in Hm2 as (hm & Hhm1 & Hhm2 & Hcm).
  apply format_date_Ok in Hmi1 as (hmi & _ & _ & Hcmi).
  apply format_date_Ok in Hw1 as (hw & Hhw0 & Hhw1 & Hcw).
  apply format_date_Ok in Hwi1 as (hwi & _ & _ & Hcwi).
  apply set_scalar_changed in Hw2 as (hw1 & hw' & Hx & Hhw' & Hposw & Hcw').
  apply set_scalar_changed in Hm3 as (hm1 & hm' & Hy & Hhm' & Hposm & Hcm').
  assert (hw1 = hw) as -> by congruence.
  assert (hm1 = hm) as -> by congruence.
  split; [|split; [|done]].
  - destruct Hcm as [Hl1 (h1 & Hh1 & H1)].
    assert (changed_only_in ["Date"] m0 m2) as Hc02.
    { split; [by rewrite Hl1, (droplevel0_rows _ _ Hm1)|]. exists h1.
      split; [done|]. by rewrite <- (droplevel0_rows _ _ Hm1). }
    apply (changed_only_in_trans ["Date"] ["gender"] m0 m2 m hm hm'); try done.
    intros n j Hj Hn. apply Hposm; [done|]. intros ->. apply Hn. by left.
  - apply (changed_only_in_trans ["Date"] ["gender"] w0 w1 w hw hw'); try done.
    intros n j Hj Hn. apply Hposw; [done|]. intros ->. apply Hn. by left.
Qed.

Lemma in_range_spec lo hi r :
  in_range lo hi r = bool_decide (lo <= label r <= hi - 1).
Proof.
  unfold in_range. destruct (bool_decide_reflect (lo <= label r <= hi - 1)).
  - apply andb_true_iff. split; [apply Z.leb_le | apply Z.ltb_lt]; lia.
  - apply andb_false_iff.
    destruct (decide (lo <= label r)); [right; apply Z.ltb_ge | left; apply Z.leb_gt]; lia.
Qed.

Lemma filter_keep lo hi hi' rs :
  hi' = hi - 1 ->
  List.filter (in_range lo hi) rs
  = List.filter (fun r => bool_decide (lo <= label r <= hi')) rs.
Proof. intros ->. apply filter_labels_ext. intros r. apply in_range_spec. Qed.

Lemma filter_drop lo hi hi' rs :
  hi' = hi - 1 ->
  List.filter (fun r => negb (in_range lo hi r)) rs
  = List.filter (fun r => bool_decide (~ lo <= label r <= hi')) rs.
Proof.
  intros ->. apply filter_labels_ext. intros r. rewrite in_range_spec.
  by rewrite bool_decide_not.
Qed.

Lemma read_row_cells h r r' n : cells r = cells r' -> read_row h r n = read_row h r' n.
Proof. intros E. unfold read_row, cell_at. by rewrite E. Qed.

(** The table [combine_records] builds: the kept rows of the four
    tables, in order, numbered from zero, each holding under every label
    of its table (other than [year], which is derived) the cell it had
    there. *)
Lemma combine_records_Ok m w mi wi df0 :
  combine_records m w mi wi = Ok df0 ->
  exists hm hw hmi hwi hdr,
    columns m = Index hm /\ columns w = Index hw
    /\ columns mi = Index hmi /\ columns wi = Index hwi
    /\ columns df0 = Index hdr
    /\ length (rows df0) = length (kept_rows hm hw hmi hwi m w mi wi)
    /\ forall i h r,
         kept_rows hm hw hmi hwi m w mi wi !! i = Some (h, r) ->
         exists o, rows df0 !! i = Some o /\ label o = Z.of_nat i
                   /\ forall n c, n <> "year" -> read_row h r n = Some c ->
                                   read_row hdr o n = Some c.
Proof.
  unfold combine_records. intros H. apply bind_Ok in H as (dfc & Hc & H).
  apply bind_Ok in H as (d & _ & H). apply bind_Ok in H as (y & _ & H).
  apply concat_inv in Hc as (headers & new & Hh & Hnew & Hrows).
  apply mapR_Forall2 in Hh.
  apply Forall2_cons_inv_l in Hh as (hm & hs1 & Hhm & Hh & ->).
  apply Forall2_cons_inv_l in Hh as (hw & hs2 & Hhw & Hh & ->).
  apply Forall2_cons_inv_l in Hh as (hmi & hs3 & Hhmi & Hh & ->).
  apply Forall2_cons_inv_l in Hh as (hwi & hs4 & Hhwi & Hh & ->).
  apply Forall2_nil_inv_l in Hh as ->.
  apply flat_Ok in Hhm, Hhw, Hhmi, Hhwi. simpl in Hhm, Hhw, Hhmi, Hhwi.
  apply set_Ok in H as (ns & hdr & jy & Hns & Hhdr & Hjy & Hcase & Hr0).
  simpl in Hns. rewrite Hnew in Hns. inversion Hns; subst ns; clear Hns.
  exists hm, hw, hmi, hwi, hdr. do 5 (split; [done|]).
  assert (Hkept :
    List.concat (zip_with (fun h d => map (pair h) (rows d)) [hm; hw; hmi; hwi]
      [drop_range 20 42 m; drop_range 27 50 w; keep_range 0 12 mi; keep_range 0 10 wi])
    = kept_rows hm hw hmi hwi m w mi wi).
  { unfold kept_rows, drop_range, keep_range, iloc_mask. simpl.
    rewrite app_nil_r.
    rewrite (filter_drop 20 42 41), (filter_drop 27 50 49) by done.
    by rewrite (filter_keep 0 12 11), (filter_keep 0 10 9) by done. }
  rewrite Hkept in Hrows. clear Hkept. split.
  - rewrite Hr0, length_put_col. simpl. rewrite renumber_length.
    symmetry. by eapply Forall2_length.
  - intros i h r Hi.
    destruct (Forall2_lookup_l _ _ _ _ _ Hrows Hi) as (o1 & Ho1 & _ & Hcar).
    exists (put jy (default NA (y !! i)) (mkRow (0 + Z.of_nat i) (cells o1))).
    split; [|split; [simpl; lia|]].
    + rewrite Hr0, put_col_lookup. simpl. by rewrite renumber_lookup, Ho1.
    + intros n c Hne Hc. rewrite (read_row_set_ne _ new) by done.
      rewrite (read_row_cells _ _ o1) by done. by apply Hcar.
Qed.

Ltac patch_cases :=
  unfold patched; repeat case_decide; try done;
  try (match goal with
       | H : ~ (_ /\ _) |- _ => destruct H; split; [done | set_solver]
       end);
  try (match goal with
       | H : _ /\ _ |- _ => by destruct H as [-> _]
       end).

(** [correct_meetings] keeps the header and the rows, and rewrites the
    three patched cells only. *)
Lemma correct_meetings_Ok df0 df :
  correct_meetings df0 = Ok df ->
  columns df = columns df0
  /\ length (rows df) = length (rows df0)
  /\ (34 < length (rows df0))%nat
  /\ forall i r0, rows df0 !! i = Some r0 ->
       exists r, rows df !! i = Some r /\ label r = label r0
                 /\ forall j, cell_at j r
                              = if decide (patched i j) then patch_value i
                                else cell_at j r0.
Proof.
  unfold correct_meetings. intros H.
  apply bind_Ok in H as (df1 & H1 & H). apply bind_Ok in H as (df2 & H2 & H3).
  apply iloc_set_Ok in H1 as (Hl1 & Hc1 & Hr1).
  apply iloc_set_Ok in H2 as (Hl2 & Hc2 & Hr2).
  apply iloc_set_Ok in H3 as (Hl3 & Hc3 & Hr3).
  assert (Hlen2 : length (rows df2) = length (rows df0)).
  { by rewrite Hr2, length_alter, Hr1, length_alter. }
  split; [congruence|]. split; [by rewrite Hr3, length_alter|].
  split; [lia|]. intros i r0 Hi. rewrite Hr3, Hr2, Hr1.
  destruct (decide (i = 34%nat)) as [->|N34];
    [|destruct (decide (i = 11%nat)) as [->|N11];
      [|destruct (decide (i = 9%nat)) as [->|N9]]].
  - rewrite list_lookup_alter, !list_lookup_alter_ne, Hi by done. simpl.
    eexists; split; [done|]. split; [done|]. intros j. rewrite cell_at_put.
    patch_cases.
  - rewrite list_lookup_alter_ne, list_lookup_alter, list_lookup_alter_ne, Hi by done.
    simpl. eexists; split; [done|]. split; [done|]. intros j. rewrite cell_at_put.
    patch_cases.
  - rewrite !list_lookup_alter_ne, list_lookup_alter, Hi by done.
    simpl. eexists; split; [done|]. split; [done|]. intros j. rewrite cell_at_put.
    patch_cases.
  - rewrite !list_lookup_alter_ne, Hi by done.
    eexists; split; [done|]. split; [done|]. intros j.
    rewrite decide_False; [done|]. intros [_ Hin].
    repeat (apply elem_of_cons in Hin as [?|Hin]; [done|]).
    by apply elem_of_nil in Hin.
Qed.

Lemma create_world_records_df_Ok df_list df st :
  create_world_records_df to_datetime df_list = Ok (df, st) ->
  exists m w mi wi df0,
    format_tables to_datetime df_list = Ok (m, w, mi, wi)
    /\ combine_records m w mi wi = Ok df0
    /\ correct_meetings df0 = Ok df
    /\ st = <[0%nat:=m]> (<[1%nat:=w]> (<[3%nat:=mi]> (<[4%nat:=wi]> df_list))).
Proof.
  unfold create_world_records_df. intros H.
  apply bind_Ok in H as ([[[m w] mi] wi] & Hf & H).
  apply bind_Ok in H as (df0 & Hc & H). apply bind_Ok in H as (df1 & Hp & H).
  inversion H; subst. by exists m, w, mi, wi, df0.
Qed.

(** The list the caller holds after the call: the four selected tables
    replaced by their updated versions, every other entry as it was. *)
Lemma updated_list_lookup (l : list DataFrame) m w mi wi :
  (4 < length l)%nat ->
  let st := <[0%nat:=m]> (<[1%nat:=w]> (<[3%nat:=mi]> (<[4%nat:=wi]> l))) in
  length st = length l
  /\ st !! 0%nat = Some m /\ st !! 1%nat = Some w
  /\ st !! 3%nat = Some mi /\ st !! 4%nat = Some wi
  /\ forall i, i ∉ [0; 1; 3; 4]%nat -> st !! i = l !! i.
Proof.
  intros Hlen st. unfold st. split; [by rewrite !length_insert|].
  split.
  { rewrite list_lookup_insert_eq by (rewrite !length_insert; lia). done. }
  split.
  { rewrite list_lookup_insert_ne by done.
    rewrite list_lookup_insert_eq by (rewrite !length_insert; lia). done. }
  split.
  { rewrite !list_lookup_insert_ne by done.
    rewrite list_lookup_insert_eq by (rewrite !length_insert; lia). done. }
  split.
  { rewrite !list_lookup_insert_ne by done.
    rewrite list_lookup_insert_eq by lia. done. }
  intros i Hi. rewrite !not_elem_of_cons in Hi. destruct Hi as (?&?&?&?&_).
  by rewrite !list_lookup_insert_ne.
Qed.

(** C6: the table the function returns has one row per kept row of the
    four tables -- men outdoor without the index labels 20..41, women
    outdoor without 27..49, men indoor with 0..11, women indoor with
    0..9 -- in that order, numbered from zero.  The four tables are the
    entries 0, 1, 3 and 4 of the list as the function leaves them (index
    labels as in the input); every output row holds, under each label of
    its table other than the derived [year], the cell of its source row,
    the three patched cells of column 9 apart. *)
Theorem world_record_rows df_list df st :
  create_world_records_df to_datetime df_list = Ok (df, st) ->
  selects_running_events df_list st df.
Proof.
  intros H. apply create_world_records_df_Ok in H as (m & w & mi & wi & df0 & Hf & Hc & Hp & ->).
  apply format_tables_Ok in Hf
    as (m0 & w0 & mi0 & wi0 & H0 & H1 & H3 & H4 & [Lm _] & [Lw _] & [Lmi _] & [Lwi _]).
  apply combine_records_Ok in Hc
    as (hm & hw & hmi & hwi & hdr & Hhm & Hhw & Hhmi & Hhwi & Hhdr & Hlen & Hrows).
  apply correct_meetings_Ok in Hp as (Hcols & Hlen' & _ & Hpatch).
  assert (4 < length df_list)%nat as Hl by (by eapply lookup_lt_Some).
  destruct (updated_list_lookup df_list m w mi wi Hl) as (_ & S0 & S1 & S3 & S4 & _).
  exists m0, w0, mi0, wi0, m, w, mi, wi, hm, hw, hmi, hwi, hdr.
  split; [done|]. split; [done|]. split; [done|].
  split; [by rewrite Hcols|]. split; [congruence|].
  intros i h r Hi. destruct (Hrows i h r Hi) as (o0 & Ho0 & Hlab & Hread).
  destruct (Hpatch i o0 Ho0) as (o & Ho & Hlab' & Hcells).
  exists o. split; [done|]. split; [congruence|].
  intros n c Hne Hc Hnp. specialize (Hread n c Hne Hc).
  unfold read_row in *. destruct (index_of n hdr) as [j|] eqn:Hj; [|done].
  simpl in *. rewrite Hcells. rewrite decide_False; [done|].
  intros [-> Hin]. by apply Hnp.
Qed.

(** C7 (as amended): the function ends with three writes by row and
    column position -- rows 9, 11 and 34, column 9 -- into the table
    built by the concatenation: [Diamond League] in row 9 and [NN World
    Record Day] in rows 11 and 34.  Every other cell, the header and the
    index are those of that table.  The three cells are the meetings of
    rows 9, 11 and 34 in a table whose column 9 is [Meeting]. *)
Theorem meeting_patches df_list df st :
  create_world_records_df to_datetime df_list = Ok (df, st) ->
  exists m w mi wi df0,
    format_tables to_datetime df_list = Ok (m, w, mi, wi)
    /\ combine_records m w mi wi = Ok df0
    /\ patches_meetings df0 df.
Proof.
  intros H. apply create_world_records_df_Ok in H as (m & w & mi & wi & df0 & Hf & Hc & Hp & ->).
  exists m, w, mi, wi, df0. split; [done|]. split; [done|].
  apply correct_meetings_Ok in Hp as (Hcols & Hlen & H34 & Hpatch).
  unfold patches_meetings. split; [done|]. split; [done|]. split; [done|].
  destruct (lookup_lt_is_Some_2 (rows df0) 9) as [a Ha]; [lia|].
  destruct (lookup_lt_is_Some_2 (rows df0) 11) as [b Hb]; [lia|].
  destruct (lookup_lt_is_Some_2 (rows df0) 34) as [c Hc']; [lia|].
  destruct (Hpatch _ _ Ha) as (r9 & Hr9 & _ & C9).
  destruct (Hpatch _ _ Hb) as (r11 & Hr11 & _ & C11).
  destruct (Hpatch _ _ Hc') as (r34 & Hr34 & _ & C34).
  exists r9, r11, r34. do 3 (split; [done|]).
  assert (P9 : patched 9 9) by (split; [done|set_solver]).
  assert (P11 : patched 11 9) by (split; [done|set_solver]).
  assert (P34 : patched 34 9) by (split; [done|set_solver]).
  specialize (C9 9%nat). specialize (C11 9%nat). specialize (C34 9%nat).
  rewrite decide_True in C9 by done. rewrite decide_True in C11 by done.
  rewrite decide_True in C34 by done.
  do 3 (split; [done|]).
  intros Hloc. apply get_loc_Ok in Hloc as (ns & Hns & Hj).
  unfold read, read_row. rewrite Hns, Hj. simpl. by rewrite C9, C11, C34.
Qed.

End WorldRecordsFacts.

(** On the sample tables the function returns, and the table it returns
    is made of the kept rows. *)
Lemma world_record_rows_witness :
  exists df st,
    create_world_records_df iso_to_datetime sample_df_list = Ok (df, st)
    /\ selects_running_events sample_df_list st df.
Proof.
  destruct (create_world_records_df iso_to_datetime sample_df_list)
    as [[df st]|e] eqn:E.
  - exists df, st. split; [reflexivity|].
    exact (world_record_rows iso_to_datetime sample_df_list df st E).
  - vm_compute in E. discriminate E.
Defined.

(** On the sample tables, whose column 9 is [Meeting], the function
    returns, and the three meetings are patched. *)
Lemma meeting_patches_witness :
  exists df st,
    create_world_records_df iso_to_datetime sample_df_list = Ok (df, st)
    /\ get_loc KeyError "Meeting" df = Ok 9%nat
    /\ exists m w mi wi df0,
        format_tables iso_to_datetime sample_df_list = Ok (m, w, mi, wi)
        /\ combine_records m w mi wi = Ok df0
        /\ patches_meetings df0 df.
Proof.
  destruct (create_world_records_df iso_to_datetime sample_df_list)
    as [[df st]|e] eqn:E.
  - exists df, st. split; [reflexivity|]. split.
    + vm_compute in E. injection E as <- _. reflexivity.
    + exact (meeting_patches iso_to_datetime sample_df_list df st E).
  - vm_compute in E. discriminate E.
Defined.

(** C7 (as stated) fails: the patches go to column position 9,
    whatever its label.  On tables laid out with the meeting in the
    seventh column and the place in the tenth, the function returns
    with the meetings of rows 9, 11 and 34 as they were, and with the
    places of these rows overwritten. *)
Lemma meeting_patches_counterexample :
  exists df st,
    create_world_records_df iso_to_datetime moved_df_list = Ok (df, st)
    /\ get_loc KeyError "Meeting" df = Ok 6%nat
    /\ map (fun i => r ← rows df !! i; read df r "Meeting") [9; 11; 34]%nat
       = [Some (Str "men meeting 9"); Some (Str "men meeting 11");
          Some (Str "women meeting 13")]
    /\ map (fun i => r ← rows df !! i; read df r "Place") [9; 11; 34]%nat
       = [Some (Str "Diamond League"); Some (Str "NN World Record Day");
          Some (Str "NN World Record Day")].
Proof.
  destruct (create_world_records_df iso_to_datetime moved_df_list)
    as [[df st]|e] eqn:E; [|vm_compute in E; discriminate E].
  vm_compute in E. injection E as <- <-.
  eexists _, _. split; [reflexivity|]. repeat split; vm_compute; reflexivity.
Qed.

(** C2 fails on the code: the gender is written into the two outdoor
    tables only.  On the sample tables the 21 kept men's outdoor rows
    are tagged [M], the 28 kept women's outdoor rows [W], and the 22
    rows from the two indoor tables have no gender. *)
Theorem indoor_rows_have_no_gender :
  exists df st,
    create_world_records_df iso_to_datetime sample_df_list = Ok (df, st)
    /\ get KeyError "gender" df
       = Ok (replicate 21 (Str "M") ++ replicate 28 (Str "W") ++ replicate 22 NA).
Proof.
  destruct (create_world_records_df iso_to_datetime sample_df_list)
    as [[df st]|e] eqn:E.
  - exists df, st. split; [reflexivity|].
    vm_compute in E. injection E as <- _. vm_compute. reflexivity.
  - vm_compute in E. discriminate E.
Qed.

(** ** [combine_dfs] *)

Section Merger.
Import PdFacts.

(** The dtype check of the join. *)
Variable can_merge : list cell -> list cell -> bool.

Lemma merge_left_Ok ldf rdf lo ro merged :
  merge_left can_merge ldf rdf lo ro = Ok merged ->
  exists lns rns lks rks,
    columns ldf = Index lns /\ columns rdf = Index rns
    /\ Forall2 (fun k j => index_of k rns = Some j) ro rks
    /\ Forall2 (fun k j => index_of k lns = Some j) lo lks
    /\ merged
       = mkDF (Index (merged_header lns rns lo ro))
              (renumber 0
                 (flat_map (join_row lks rks (right_kept (right_drop lo ro) rns).*1
                                     (length lns) (rows rdf))
                           (rows ldf))).
Proof.
  unfold merge_left. intros H.
  apply bind_Ok in H as (lns & Hl & H). apply bind_Ok in H as (rns & Hr & H).
  apply bind_Ok in H as (rks & Hrk & H). apply bind_Ok in H as (lks & Hlk & H).
  apply flat_Ok in Hl, Hr. apply mapR_Forall2 in Hrk, Hlk.
  exists lns, rns, lks, rks. split; [done|]. split; [done|].
  split; [|split].
  - eapply Forall2_impl; [exact Hrk|]. intros k j. apply or_raise_Ok.
  - eapply Forall2_impl; [exact Hlk|]. intros k j. apply or_raise_Ok.
  - destruct (forallb _ _); by inversion H.
Qed.

(** Under a header without repeated labels, a row carried over to an
    extension of the header keeps its cells in place. *)
Lemma carries_positional h extra r o j :
  NoDup h -> carries h r (h ++ extra) o -> (j < length h)%nat ->
  cell_at j o = cell_at j r.
Proof.
  intros Hnd [_ Hc] Hj. destruct (lookup_lt_is_Some_2 h j Hj) as [n Hn].
  pose proof (index_of_NoDup _ _ _ Hnd Hn) as Hi.
  specialize (Hc n (cell_at j r)). unfold read_row in Hc.
  rewrite Hi, (index_of_app_l _ _ extra _ Hi) in Hc. simpl in Hc.
  specialize (Hc eq_refl). by inversion Hc.
Qed.

Lemma right_kept_elem dropped rns j n :
  (j, n) ∈ right_kept dropped rns <-> rns !! j = Some n /\ n ∉ dropped.
Proof.
  unfold right_kept. rewrite list_elem_of_In, filter_In, <- list_elem_of_In.
  rewrite bool_decide_eq_true. simpl. rewrite elem_of_lookup_imap. split.
  - intros [(i & x & [= -> ->] & Hx) Hn]. done.
  - intros [Hn Hd]. split; [|done]. by exists j, n.
Qed.

Lemma right_drop_keys : right_drop records_key vendor_key = ["Meeting"; "year"].
Proof. reflexivity. Qed.

Ltac not_in_literal H :=
  repeat (apply elem_of_cons in H as [H|H]; [discriminate H|]);
  by apply elem_of_nil in H.

(** The joined header always differs from the header of the appended
    frame: it holds the vendor's athlete column. *)
Lemma merged_header_ne lns rns :
  "Athlete" ∈ rns -> merged_header lns rns records_key vendor_key <> hassan_header.
Proof.
  intros Hin Heq. apply list_elem_of_lookup in Hin as [j Hj].
  assert (Hk : (j, "Athlete") ∈ right_kept ["Meeting"; "year"] rns).
  { apply right_kept_elem. split; [done|]. intros H. not_in_literal H. }
  assert (Hh : add_suffix
                 (List.filter
                    (fun n => bool_decide (n ∈ (right_kept ["Meeting"; "year"] rns).*2))
                    lns) "_y" "Athlete" ∈ hassan_header).
  { rewrite <- Heq. unfold merged_header. rewrite right_drop_keys.
    apply elem_of_app. right. apply list_elem_of_fmap. eexists. split; [done|].
    apply list_elem_of_fmap. by exists (j, "Athlete"). }
  unfold add_suffix in Hh. case_decide; not_in_literal Hh.
Qed.

(** What a successful call of [combine_dfs] has done, step by step:
    the vendor years are coerced in place; the joined header [H] has no
    repeated label and holds [wavelight] at some position [jw]; the
    result has the header [H] extended with the labels of the appended
    frame, and its rows are the rows of the left join -- cell by cell,
    a missing value at [jw] filled with [n] -- followed by the Hassan
    row, all numbered from zero. *)
Lemma combine_dfs_Ok wave rec out wave' rec' :
  combine_dfs can_merge wave rec = Ok (out, (wave', rec')) ->
  rec' = rec
  /\ exists lns rns jy ys lks rks jw,
      columns rec = Index lns /\ columns wave = Index rns
      /\ columns wave' = Index rns
      /\ index_of "year" rns = Some jy
      /\ astype_int64 (map (cell_at jy) (rows wave)) = Ok ys
      /\ rows wave' = put_col jy ys (rows wave)
      /\ Forall2 (fun k j => index_of k rns = Some j) vendor_key rks
      /\ Forall2 (fun k j => index_of k lns = Some j) records_key lks
      /\ let H := merged_header lns rns records_key vendor_key in
         let hdr := H ++ fresh H hassan_header in
         NoDup H /\ index_of "wavelight" H = Some jw
         /\ columns out = Index hdr
         /\ exists joined last,
             rows out = joined ++ [last]
             /\ (forall i o, rows out !! i = Some o -> label o = Z.of_nat i)
             /\ Forall2
                  (fun jr o => forall j, (j < length H)%nat ->
                     cell_at j o = if decide (j = jw)
                                   then fillna (Str "n") (cell_at j jr)
                                   else cell_at j jr)
                  (flat_map (join_row lks rks
                               (right_kept (right_drop records_key vendor_key) rns).*1
                               (length lns) (rows wave'))
                            (rows rec))
                  joined
             /\ is_hassan hdr last.
Proof.
  unfold combine_dfs. intros H.
  apply bind_Ok in H as (y0 & Hy0 & H). apply bind_Ok in H as (ys & Hys & H).
  apply bind_Ok in H as (wave1 & Hset & H). apply bind_Ok in H as (merged & Hm & H).
  apply bind_Ok in H as (wv & Hwv & H). apply bind_Ok in H as (merged' & Hset2 & H).
  apply bind_Ok in H as (c & Hc & H). inversion H; subst; clear H.
  split; [done|].
  apply get_Ok in Hy0 as (rns & jy & Hrns & Hjy & ->).
  apply set_Ok in Hset as (ns & ns' & j & Hns & Hns' & Hj & Hcase & Hrows1).
  assert (ns = rns) as -> by congruence.
  destruct Hcase as [->|(Hnin & _)];
    [|by apply index_of_None in Hnin; congruence].
  assert (j = jy) as -> by congruence.
  apply merge_left_Ok in Hm as (lns & rns' & lks & rks & Hlns & Hrns' & Hrks & Hlks & ->).
  assert (rns' = rns) as -> by congruence.
  apply get_Ok in Hwv as (H & jw & HH & Hjw & ->). simpl in HH.
  inversion HH; subst H; clear HH.
  apply set_Ok in Hset2 as (ns & ns' & j & Hns3 & Hns2 & Hj2 & Hcase & Hrows2).
  simpl in Hns3. inversion Hns3; subst ns; clear Hns3.
  destruct Hcase as [->|(Hnin & _)];
    [|by apply index_of_None in Hnin; congruence].
  assert (j = jw) as -> by congruence.
  assert (Hath : "Athlete" ∈ rns).
  { apply Forall2_cons_inv_l in Hrks as (ra & ? & Hra & _ & _).
    apply index_of_Some in Hra. by eapply list_elem_of_lookup_2. }
  apply (concat_two merged' hassan c _ hassan_header Hns2 eq_refl
           (merged_header_ne lns rns Hath)) in Hc
    as (Hnd & Hcols & ra & rb & Hrc & Hra & Hrb).
  exists lns, rns, jy, ys, lks, rks, jw. do 8 (split; [done|]).
  cbv zeta. split; [done|]. split; [done|]. split; [done|].
  change (rows hassan) with [hassan_row] in Hrb.
  apply Forall2_cons_inv_l in Hrb as (last & rb' & Hlast & Hnil & ->).
  apply Forall2_nil_inv_l in Hnil as ->.
  exists (renumber 0 ra), (mkRow (0 + Z.of_nat (length ra)) (cells last)).
  split; [by cbn [rows reset_index]; rewrite Hrc, renumber_app|].
  split.
  { intros i o. cbn [rows reset_index]. rewrite renumber_lookup.
    destruct (c.(rows) !! i); [|done]. intros [= <-]. simpl. lia. }
  split.
  - rewrite Hrows2 in Hra. cbn [rows] in Hra.
    set (F := flat_map _ _) in *.
    apply Forall2_same_length_lookup_2.
    { apply Forall2_length in Hra.
      by rewrite length_put_col, !renumber_length in *. }
    intros i jr o0 Hjr Ho0 k Hk.
    rewrite renumber_lookup in Ho0.
    destruct (ra !! i) as [o|] eqn:Ho; [|done]. inversion Ho0; subst o0; clear Ho0.
    change (cell_at k (mkRow (0 + Z.of_nat i) (cells o))) with (cell_at k o).
    assert (Hm' : put_col jw
                    (map (fillna (Str "n")) (map (cell_at jw) (renumber 0 F)))
                    (renumber 0 F) !! i
                  = Some (put jw (fillna (Str "n") (cell_at jw jr))
                              (mkRow (0 + Z.of_nat i) (cells jr)))).
    { rewrite put_col_lookup, !list_lookup_fmap, renumber_lookup, Hjr. done. }
    destruct (Forall2_lookup_l _ _ _ _ _ Hra Hm') as (o' & Ho' & Hcar).
    assert (o' = o) as -> by congruence.
    rewrite (carries_positional _ _ _ _ k Hnd Hcar Hk), cell_at_put.
    destruct (decide (jw = k)) as [->|Hne].
    + by rewrite decide_True.
    + by rewrite decide_False.
  - destruct Hlast as [_ Hread]. unfold is_hassan.
    repeat split;
      rewrite (read_row_cells _ _ last) by done; apply Hread; reflexivity.
Qed.

(** Rows related to a [flat_map] split into one group per element. *)
Lemma Forall2_flat_map_inv {A B C} (R : B -> C -> Prop) (f : A -> list B) ls ys :
  Forall2 R (flat_map f ls) ys ->
  exists groups, ys = List.concat groups
                 /\ Forall2 (fun l g => Forall2 R (f l) g) ls groups.
Proof.
  revert ys; induction ls as [|l ls IH]; intros ys H; simpl in H.
  - apply Forall2_nil_inv_l in H as ->. by exists [].
  - apply Forall2_app_inv_l in H as (g & ys' & Hg & Hys & ->).
    destruct (IH _ Hys) as (groups & -> & Hgs).
    exists (g :: groups). split; [done|]. by constructor.
Qed.

Lemma length_join_row lks rks keep w rs l :
  length (join_row lks rks keep w rs l) = emitted (length (matches lks rks rs l)).
Proof.
  unfold join_row, emitted. destruct (matches lks rks rs l) as [|m ms]; [done|].
  rewrite length_map. simpl. lia.
Qed.

(** The join compares exactly the triple (athlete, meeting, year). *)
Lemma matches_vendor_matches wave rec lns rns lks rks l :
  columns rec = Index lns -> columns wave = Index rns ->
  Forall2 (fun k j => index_of k rns = Some j) vendor_key rks ->
  Forall2 (fun k j => index_of k lns = Some j) records_key lks ->
  matches lks rks (rows wave) l = vendor_matches wave rec l.
Proof.
  intros Hl Hr Hrks Hlks.
  apply Forall2_cons_inv_l in Hrks as (ra & ? & Hra & Hrks & ->).
  apply Forall2_cons_inv_l in Hrks as (rm & ? & Hrm & Hrks & ->).
  apply Forall2_cons_inv_l in Hrks as (ry & ? & Hry & Hrks & ->).
  apply Forall2_nil_inv_l in Hrks as ->.
  apply Forall2_cons_inv_l in Hlks as (la & ? & Hla & Hlks & ->).
  apply Forall2_cons_inv_l in Hlks as (lm & ? & Hlm & Hlks & ->).
  apply Forall2_cons_inv_l in Hlks as (ly & ? & Hly & Hlks & ->).
  apply Forall2_nil_inv_l in Hlks as ->.
  unfold matches, vendor_matches. apply filter_labels_ext. intros w.
  apply bool_decide_ext. unfold read, read_row, key_of. rewrite Hl, Hr.
  rewrite Hra, Hrm, Hry, Hla, Hlm, Hly. simpl. split.
  - intros [= -> -> ->]. done.
  - intros ([= ->] & [= ->] & [= ->]). done.
Qed.


Lemma length_concat_groups {A B} (f : A -> nat) (ls : list A) (groups : list (list B)) :
  Forall2 (fun l g => length g = f l) ls groups ->
  length (List.concat groups) = sum_list (map f ls).
Proof.
  induction 1 as [|l g ls groups Hg _ IH]; simpl; [done|].
  by rewrite length_app, Hg, IH.
Qed.

(** The rows of the output: one group per record row, of as many rows
    as the record row has matching vendor rows (one when it has none),
    then a last row. *)
Lemma combined_rows_shape wave rec out wave' rec' :
  combine_dfs can_merge wave rec = Ok (out, (wave', rec')) ->
  exists groups last,
    rows out = List.concat groups ++ [last]
    /\ Forall2 (fun l g => length g = emitted (length (vendor_matches wave' rec l)))
               (rows rec) groups.
Proof.
  intros H. apply combine_dfs_Ok in H
    as (-> & lns & rns & jy & ys & lks & rks & jw & Hl & Hr & Hr' & _ & _ & _
        & Hrks & Hlks & _ & _ & _ & joined & last & Hrows & _ & Hj & _).
  apply Forall2_flat_map_inv in Hj as (groups & -> & Hg).
  exists groups, last. split; [done|].
  eapply Forall2_impl; [exact Hg|]. intros l g Hlg. simpl in Hlg.
  apply Forall2_length in Hlg. rewrite <- Hlg, length_join_row.
  by rewrite (matches_vendor_matches wave' rec lns rns).
Qed.


Lemma filter_none {A} (f : A -> bool) (l : list A) :
  length (List.filter f l) = 0%nat <-> Forall (fun x => f x = false) l.
Proof.
  induction l as [|x l IH]; simpl; [by split|].
  rewrite Forall_cons. destruct (f x); simpl; [split; [done|by intros [? _]]|].
  rewrite IH. tauto.
Qed.

(** C5 (as amended): whenever the merger returns, its output is the
    joined rows followed by exactly one appended row, which reads event
    10,000 m, athlete Sifan Hassan, meeting FBK Games, year 2021 and flag
    y (and date, gender and mark as in the code).  The joined rows are
    one per row of the left join; the rows are numbered from zero, so
    the appended row carries the last number.  The joined rows are not
    searched for the record: the output holds a row with these five
    fields once more than the joined rows do, so exactly once if and
    only if no joined row has them. *)
Theorem hassan_appended wave rec out wave' rec' :
  combine_dfs can_merge wave rec = Ok (out, (wave', rec')) ->
  ends_with_hassan wave' rec out.
Proof.
  intros H. pose proof (combined_rows_shape _ _ _ _ _ H) as Hshape.
  apply combine_dfs_Ok in H
    as (-> & lns & rns & jy & ys & lks & rks & jw & Hl & Hr & Hr' & _ & _ & _
        & Hrks & Hlks & _ & _ & Hcols & joined & last & Hrows & Hlab & Hj & Hh).
  eexists _, joined, last. split; [exact Hcols|]. split; [done|].
  split.
  { destruct Hshape as (groups & last' & Hrows' & Hlen).
    rewrite Hrows in Hrows'. apply app_inj_tail in Hrows' as [-> _].
    by apply length_concat_groups. }
  split.
  { apply (Hlab (length joined)). rewrite Hrows.
    by rewrite lookup_app_r, Nat.sub_diag by lia. }
  split; [done|]. unfold read. rewrite Hcols.
  destruct Hh as (He & Ha & Hm & Hy & Hw & Hrest).
  do 5 (split; [done|]).
  assert (Hcount : length (List.filter (hassan_record
                      (merged_header lns rns records_key vendor_key
                       ++ fresh (merged_header lns rns records_key vendor_key)
                            hassan_header)) (rows out))
                   = S (length (List.filter (hassan_record
                      (merged_header lns rns records_key vendor_key
                       ++ fresh (merged_header lns rns records_key vendor_key)
                            hassan_header)) joined))).
  { rewrite Hrows, List.filter_app, length_app. cbn [List.filter].
    unfold hassan_record at 2. rewrite bool_decide_eq_true_2 by done.
    simpl. lia. }
  split; [exact Hcount|]. rewrite Hcount, <- filter_none. lia.
Qed.

(** *** The merger returns on well-formed tables *)



Lemma astype_int64_length cs ys : astype_int64 cs = Ok ys -> length ys = length cs.
Proof. apply mapR_length. Qed.


(** No suffixed label reads [wavelight]. *)
Lemma suffixed_ne_wavelight (n : string) :
  n +:+ "_x" <> "wavelight" /\ n +:+ "_y" <> "wavelight".
Proof.
  split; intros H;
    do 10 (destruct n as [|? n]; [by vm_compute in H|]); by vm_compute in H.
Qed.

Lemma add_suffix_wavelight ov sfx n :
  sfx = "_x" \/ sfx = "_y" ->
  add_suffix ov sfx n = "wavelight" -> n = "wavelight" /\ n ∉ ov.
Proof.
  intros Hs. unfold add_suffix. case_decide; [|done].
  intros H'. destruct (suffixed_ne_wavelight n) as [Hx Hy].
  by destruct Hs as [->| ->].
Qed.




(** *** Verification flags *)






(** *** What the stages do to their arguments *)

Lemma int64_Ok z c : int64 z = Ok c -> c = Int z /\ - 2 ^ 63 <= z < 2 ^ 63.
Proof. unfold int64. case_decide; [|done]. by intros [= <-]. Qed.

(** What the cast of one value gives when it succeeds: an integer of
    the 64-bit range, which is the value itself, the value of the text,
    or the integer that stands for the time stamp or for NaT. *)
Lemma int64_of_Ok dt c c' :
  int64_of dt c = Ok c' ->
  exists z, c' = Int z /\ - 2 ^ 63 <= z < 2 ^ 63
    /\ (c = Int z
        \/ (exists s, c = Str s /\ PyStr.int s = Some z)
        \/ (exists d, dt = true /\ c = Timestamp d /\ z = epoch_ns d)
        \/ (dt = true /\ z = - 2 ^ 63)).
Proof.
  destruct dt; simpl.
  - destruct c as [|s|z|d|d]; try (intros [= <-]; exists (- 2 ^ 63); split;
      [done|split; [lia|by do 3 right]]).
    intros H. apply int64_Ok in H as [-> ?]. exists (epoch_ns d).
    split; [done|]. split; [done|]. right; right; left. eauto.
  - destruct c as [|s|z|d|d]; try done.
    + intros H. apply bind_Ok in H as (z & Hz & H). apply or_raise_Ok in Hz.
      apply int64_Ok in H as [-> ?]. exists z. split; [done|]. split; [done|].
      right; left. eauto.
    + intros H. apply int64_Ok in H as [-> ?]. exists z. auto.
Qed.

Lemma combine_dfs_arguments wave rec out wave' rec' :
  combine_dfs can_merge wave rec = Ok (out, (wave', rec')) ->
  rec' = rec /\ coerces_years_only wave wave'.
Proof.
  intros H. apply combine_dfs_Ok in H
    as (-> & lns & rns & jy & ys & lks & rks & jw & Hl & Hr & Hr' & Hjy & Hys
        & Hrows' & _).
  split; [done|]. split; [congruence|].
  split; [by rewrite Hrows', put_col_labels|].
  exists rns, jy, ys. do 3 (split; [done|]). intros i r0 Hr0.
  destruct (mapR_lookup _ _ _ i (cell_at jy r0) Hys) as (y & Hy & Hconv).
  { by rewrite list_lookup_fmap, Hr0. }
  apply int64_of_Ok in Hconv as (z & -> & _).
  exists (put jy (Int z) r0), z.
  split; [by rewrite Hrows', put_col_lookup, Hr0, Hy|]. split; [done|].
  intros j. rewrite cell_at_put. by repeat case_decide; subst.
Qed.

End Merger.

(** ** The stages and their arguments *)

Section Ownership.
Import PdFacts.

Variable to_datetime : list cell -> result (list cell).

Lemma format_date_update df df' :
  format_date to_datetime df = Ok df' ->
  exists h jd ds,
    columns df = Index h /\ columns df' = Index h
    /\ index_of "Date" h = Some jd
    /\ to_datetime (map (cell_at jd) (rows df)) = Ok ds
    /\ rows df' = put_col jd ds (rows df).
Proof.
  unfold format_date. intros H. apply bind_Ok in H as (d & Hd & H).
  apply bind_Ok in H as (ds & Hds & H).
  apply get_Ok in Hd as (h & jd & Hh & Hjd & ->).
  apply set_Ok in H as (ns & ns' & j & Hns & Hns' & Hj & Hcase & Hrows).
  assert (ns = h) as -> by congruence.
  destruct Hcase as [->|(Hnin & _)];
    [|by apply index_of_None in Hnin; congruence].
  assert (j = jd) as -> by congruence.
  by exists h, jd, ds.
Qed.

Lemma set_gender_update g df df' h :
  columns df = Index h ->
  set_scalar KeyError "gender" (Str g) df = Ok df' ->
  exists jg,
    columns df' = Index (with_gender h)
    /\ index_of "gender" (with_gender h) = Some jg
    /\ rows df' = put_col jg (replicate (length (rows df)) (Str g)) (rows df).
Proof.
  intros Hh H. apply set_Ok in H as (ns & ns' & j & Hns & Hns' & Hj & Hcase & Hrows).
  assert (ns = h) as -> by congruence. exists j. unfold with_gender.
  destruct Hcase as [->|(Hnin & -> & ->)].
  - rewrite decide_True; [done|].
    apply index_of_Some in Hj. by eapply list_elem_of_lookup_2.
  - by rewrite decide_False.
Qed.

(** A table whose dates were parsed. *)
Lemma dated_table h t0 t :
  columns t0 = Index h -> format_date to_datetime t0 = Ok t ->
  table_update to_datetime None h t0 t.
Proof.
  intros Hh H. apply format_date_update in H
    as (h' & jd & ds & Hh' & Hc & Hjd & Hds & Hrows).
  assert (h' = h) as -> by congruence.
  split; [done|]. split; [by rewrite Hrows, put_col_labels|].
  exists jd, ds. do 2 (split; [done|]). intros i r0 Hr0.
  exists (put jd (default NA (ds !! i)) r0).
  split; [by rewrite Hrows, put_col_lookup, Hr0|].
  intros j. rewrite cell_at_put. unfold updated_cell.
  rewrite (decide_False (P := None = Some j)) by done.
  by repeat case_decide; subst.
Qed.

(** A table whose dates were parsed and whose gender was set; [t0'] is
    the table with its header collapsed, if it had to be. *)
Lemma gendered_table g h t0 t0' t1 t :
  columns t0' = Index h -> rows t0' = rows t0 ->
  format_date to_datetime t0' = Ok t1 ->
  set_scalar KeyError "gender" (Str g) t1 = Ok t ->
  table_update to_datetime (Some g) h t0 t.
Proof.
  intros Hh Hr H1 H2. apply format_date_update in H1
    as (h' & jd & ds & Hh' & Hc & Hjd & Hds & Hrows).
  assert (h' = h) as -> by congruence.
  apply (set_gender_update g t1 t h Hc) in H2 as (jg & Hc' & Hjg & Hrows').
  rewrite Hr in Hds, Hrows.
  split; [done|].
  split; [by rewrite Hrows', Hrows, !put_col_labels|].
  exists jd, ds. do 2 (split; [done|]). intros i r0 Hr0.
  exists (put jg (Str g) (put jd (default NA (ds !! i)) r0)).
  split.
  { rewrite Hrows', put_col_lookup, Hrows, put_col_lookup, Hr0. simpl.
    rewrite length_put_col, lookup_replicate_2; [done|].
    by eapply lookup_lt_Some. }
  intros j. rewrite !cell_at_put. unfold updated_cell. rewrite Hjg. simpl.
  repeat case_decide; subst; try done; congruence.
Qed.

Lemma format_tables_update df_list m w mi wi :
  format_tables to_datetime df_list = Ok (m, w, mi, wi) ->
  exists m0 w0 mi0 wi0 ts hw hmi hwi,
    (df_list !! 0%nat = Some m0 /\ df_list !! 1%nat = Some w0
     /\ df_list !! 3%nat = Some mi0 /\ df_list !! 4%nat = Some wi0)
    /\ (columns m0 = MultiIndex ts /\ columns w0 = Index hw
        /\ columns mi0 = Index hmi /\ columns wi0 = Index hwi)
    /\ table_update to_datetime (Some "M") (map snd ts) m0 m
    /\ table_update to_datetime (Some "W") hw w0 w
    /\ table_update to_datetime None hmi mi0 mi
    /\ table_update to_datetime None hwi wi0 wi.
Proof.
  unfold format_tables. intros H.
  apply bind_Ok in H as (m0 & Hm0 & H). apply or_raise_Ok in Hm0.
  apply bind_Ok in H as (w0 & Hw0 & H). apply or_raise_Ok in Hw0.
  apply bind_Ok in H as (mi0 & Hmi0 & H). apply or_raise_Ok in Hmi0.
  apply bind_Ok in H as (wi0 & Hwi0 & H). apply or_raise_Ok in Hwi0.
  apply bind_Ok in H as (m1 & Hm1 & H).
  apply bind_Ok in H as (m2 & Hm2 & H).
  apply bind_Ok in H as (mi1 & Hmi1 & H).
  apply bind_Ok in H as (w1 & Hw1 & H).
  apply bind_Ok in H as (wi1 & Hwi1 & H).
  apply bind_Ok in H as (w2 & Hw2 & H).
  apply bind_Ok in H as (m3 & Hm3 & H).
  inversion H; subst; clear H.
  unfold droplevel0 in Hm1. destruct (columns m0) as [|ts] eqn:Hts; [done|].
  inversion Hm1; subst m1; clear Hm1.
  pose proof (format_date_update _ _ Hw1) as (hw & _ & _ & Hhw & _).
  pose proof (format_date_update _ _ Hmi1) as (hmi & _ & _ & Hhmi & _).
  pose proof (format_date_update _ _ Hwi1) as (hwi & _ & _ & Hhwi & _).
  exists m0, w0, mi0, wi0, ts, hw, hmi, hwi.
  split; [done|]. split; [done|].
  split; [exact (gendered_table "M" (map snd ts) m0 (mkDF (Index (map snd ts)) (rows m0))
                  m2 m eq_refl eq_refl Hm2 Hm3)|].
  split; [exact (gendered_table "W" _ w0 w0 w1 w Hhw eq_refl Hw1 Hw2)|].
  split; by apply dated_table.
Qed.

(** The dtype check of the join. *)
Variable can_merge : list cell -> list cell -> bool.

(** C4 (as amended): [create_world_records_df] updates the four tables
    it selects in place.  The caller's list afterwards holds each of
    them with the same rows and index labels; the two-level header of
    the men's outdoor table is collapsed to its second level and the
    headers of the other three are as they were, save that [gender] is
    appended to an outdoor table that has no such column; the [Date]
    cells hold what [pd.to_datetime] returns for them, the [gender]
    cells of the men's and women's outdoor tables hold [M] and [W], and
    every other cell is as it was.  Every other entry of the list is
    left as it was.  [combine_dfs] leaves the world-record table as it
    was and changes the vendor table only in its [year] cells, each of
    which holds an integer afterwards: the result of the cast of the
    column to int64. *)
Theorem stages_update_in_place df_list df st wave rec out wave' rec' :
  create_world_records_df to_datetime df_list = Ok (df, st) ->
  combine_dfs can_merge wave rec = Ok (out, (wave', rec')) ->
  updates_in_place to_datetime df_list st
  /\ rec' = rec
  /\ coerces_years_only wave wave'.
Proof.
  intros H1 H2. split; [|by apply combine_dfs_arguments in H2].
  apply create_world_records_df_Ok in H1
    as (m & w & mi & wi & df0 & Hf & _ & _ & ->).
  apply format_tables_update in Hf
    as (m0 & w0 & mi0 & wi0 & ts & hw & hmi & hwi & (H0 & H1 & H3 & H4) & Hcols
        & Cm & Cw & Cmi & Cwi).
  assert (4 < length df_list)%nat as Hl by (by eapply lookup_lt_Some).
  destruct (updated_list_lookup df_list m w mi wi Hl) as (Hlen & S0 & S1 & S3 & S4 & Hrest).
  split; [done|]. split; [done|].
  exists m0, w0, mi0, wi0, m, w, mi, wi, ts, hw, hmi, hwi. done.
Qed.

End Ownership.

(** ** The merger on the sample tables *)

Lemma sample_wave_normalized :
  create_wavelight_records_df sample_vendor_page = Ok sample_wave.
Proof. vm_compute. reflexivity. Qed.




Lemma sample_years_convert : years_convert sample_wave.
Proof. eexists. vm_compute. reflexivity. Defined.





(** On the sample tables the merger returns and its output ends with
    the Hassan row. *)
Lemma hassan_appended_witness :
  exists out wave',
    combine_dfs text_or_numbers sample_wave sample_records = Ok (out, (wave', sample_records))
    /\ ends_with_hassan wave' sample_records out.
Proof.
  destruct (combine_dfs text_or_numbers sample_wave sample_records) as [[out [wave' rec']]|e] eqn:E.
  - assert (rec' = sample_records) as ->.
    { vm_compute in E. by injection E as _ _ <-. }
    exists out, wave'. split; [reflexivity|].
    exact (hassan_appended text_or_numbers sample_wave sample_records out wave'
             sample_records E).
  - vm_compute in E. discriminate E.
Defined.

(** C5 (as stated) fails: the merger does not look for the record in
    the joined rows.  A world-record table that already holds the
    Hassan record, confirmed by the vendor table, comes out with two
    rows that carry the five fields. *)
Lemma hassan_appended_counterexample :
  exists out wave' hdr,
    combine_dfs text_or_numbers hassan_wave hassan_records
    = Ok (out, (wave', hassan_records))
    /\ columns out = Index hdr
    /\ map (fun o => [read out o "Event"; read out o "Athlete(s)";
                      read out o "Meeting"; read out o "year";
                      read out o "wavelight"]) (rows out)
       = replicate 2 [Some (Str "10,000 m"); Some (Str "Sifan Hassan");
                      Some (Str "FBK Games"); Some (Int 2021); Some (Str "y")]
    /\ length (List.filter (hassan_record hdr) (rows out)) = 2%nat.
Proof.
  destruct (combine_dfs text_or_numbers hassan_wave hassan_records)
    as [[out [wave' rec']]|e] eqn:E; [|vm_compute in E; discriminate E].
  vm_compute in E. injection E as <- <- <-.
  eexists _, _, _. split; [reflexivity|]. split; [reflexivity|].
  split; vm_compute; reflexivity.
Qed.

(** Both stages run on the sample tables. *)
Lemma stages_update_in_place_witness :
  exists df st out wave',
    create_world_records_df iso_to_datetime sample_df_list = Ok (df, st)
    /\ combine_dfs text_or_numbers sample_wave sample_records
       = Ok (out, (wave', sample_records))
    /\ updates_in_place iso_to_datetime sample_df_list st
    /\ sample_records = sample_records
    /\ coerces_years_only sample_wave wave'.
Proof.
  destruct (create_world_records_df iso_to_datetime sample_df_list)
    as [[df st]|e] eqn:E1; [|vm_compute in E1; discriminate E1].
  destruct (combine_dfs text_or_numbers sample_wave sample_records)
    as [[out [wave' rec']]|e] eqn:E2; [|vm_compute in E2; discriminate E2].
  assert (rec' = sample_records) as ->.
  { vm_compute in E2. by injection E2 as _ _ <-. }
  exists df, st, out, wave'. split; [reflexivity|]. split; [reflexivity|].
  exact (stages_update_in_place iso_to_datetime text_or_numbers sample_df_list df st
           sample_wave sample_records out wave' sample_records E1 E2).
Defined.

(** C4 (as stated) fails: after [create_world_records_df] the caller's
    list of tables is not the list it passed (the women's table has
    gained a gender column), and after [combine_dfs] the vendor table is
    not the table it passed (its years are integers, no longer text). *)
Lemma stages_update_in_place_counterexample :
  (exists df st,
     create_world_records_df iso_to_datetime sample_df_list = Ok (df, st)
     /\ st <> sample_df_list
     /\ columns <$> st !! 1%nat
        = Some (Index (sample_header ++ ["gender"]))
     /\ columns <$> sample_df_list !! 1%nat = Some (Index sample_header))
  /\ (exists out wave',
        combine_dfs text_or_numbers sample_wave sample_records = Ok (out, (wave', sample_records))
        /\ wave' <> sample_wave
        /\ get KeyError "year" wave' = Ok (replicate 4 (Int 2020))
        /\ get KeyError "year" sample_wave = Ok (replicate 4 (Str "2020"))).
Proof.
  split.
  - destruct (create_world_records_df iso_to_datetime sample_df_list)
      as [[df st]|e] eqn:E; [|vm_compute in E; discriminate E].
    assert (Hc : columns <$> st !! 1%nat
                 = Some (Index (sample_header ++ ["gender"]))).
    { vm_compute in E. injection E as _ <-. reflexivity. }
    exists df, st. split; [reflexivity|]. split; [|split; [exact Hc|reflexivity]].
    intros ->. discriminate Hc.
  - destruct (combine_dfs text_or_numbers sample_wave sample_records)
      as [[out [wave' rec']]|e] eqn:E; [|vm_compute in E; discriminate E].
    assert (rec' = sample_records) as ->.
    { vm_compute in E. by injection E as _ _ <-. }
    assert (Hy : get KeyError "year" wave' = Ok (replicate 4 (Int 2020))).
    { vm_compute in E. injection E as _ <-. reflexivity. }
    exists out, wave'. split; [reflexivity|]. split; [|split; [exact Hy|reflexivity]].
    intros ->. discriminate Hy.
Qed.

(** * Further properties of the functions *)

(** ** [create_world_records_df]: what it needs and what it ignores *)

Section WorldRecordsEdges.
Import PdFacts.

Variable to_datetime : list cell -> result (list cell).

(** X1: with fewer than five tables the selection [df_list[4]] (or an
    earlier one) is out of range. *)
Theorem too_few_tables df_list :
  (length df_list < 5)%nat ->
  create_world_records_df to_datetime df_list = Raise IndexError.
Proof.
  intros Hlen. unfold create_world_records_df, format_tables.
  destruct df_list as [|a [|b [|c [|d [|e l]]]]]; try reflexivity.
  simpl in Hlen. lia.
Qed.

(** X2: A men's table whose header has a single level cannot have its
    first level dropped: [droplevel(0)] raises. *)
Theorem flat_men_header df_list men ns :
  (5 <= length df_list)%nat ->
  df_list !! 0%nat = Some men -> columns men = Index ns ->
  create_world_records_df to_datetime df_list = Raise ValueError.
Proof.
  intros Hlen H0 Hns. unfold create_world_records_df, format_tables.
  destruct (lookup_lt_is_Some_2 df_list 1) as [w H1]; [lia|].
  destruct (lookup_lt_is_Some_2 df_list 3) as [mi H3]; [lia|].
  destruct (lookup_lt_is_Some_2 df_list 4) as [wi H4]; [lia|].
  rewrite H0, H1, H3, H4. cbn [or_raise].
  change (Ok men ≫= ?k) with (k men). cbv beta.
  change (Ok w ≫= ?k) with (k w). cbv beta.
  change (Ok mi ≫= ?k) with (k mi). cbv beta.
  change (Ok wi ≫= ?k) with (k wi). cbv beta.
  unfold droplevel0. rewrite Hns. reflexivity.
Qed.

Lemma format_tables_insert df_list i x :
  i ∉ [0; 1; 3; 4]%nat ->
  format_tables to_datetime (<[i:=x]> df_list) = format_tables to_datetime df_list.
Proof.
  intros Hi. rewrite !not_elem_of_cons in Hi. destruct Hi as (?&?&?&?&_).
  unfold format_tables. by rewrite !list_lookup_insert_ne.
Qed.

(** X3: the table at position 2, and any table after position 4, has no
    part in the result: replacing it changes neither the table returned
    nor what happens to the four selected tables. *)
Theorem unselected_table_ignored df_list df st i x :
  i ∉ [0; 1; 3; 4]%nat ->
  create_world_records_df to_datetime df_list = Ok (df, st) ->
  create_world_records_df to_datetime (<[i:=x]> df_list) = Ok (df, <[i:=x]> st).
Proof.
  intros Hi H. pose proof Hi as Hi'.
  rewrite !not_elem_of_cons in Hi'. destruct Hi' as (?&?&?&?&_).
  unfold create_world_records_df in *. rewrite format_tables_insert by done.
  destruct (format_tables to_datetime df_list) as [[[[m w] mi] wi]|e]; [|done].
  change (Ok (m, w, mi, wi) ≫= ?k) with (k (m, w, mi, wi)) in *. cbv beta iota in *.
  destruct (combine_records m w mi wi) as [df0|e]; [|done].
  change (Ok df0 ≫= ?k) with (k df0) in *. cbv beta in *.
  destruct (correct_meetings df0) as [df1|e]; [|done].
  change (Ok df1 ≫= ?k) with (k df1) in *. cbv beta in *.
  inversion H; subst. do 2 f_equal.
  rewrite (list_insert_insert_ne _ 4 i), (list_insert_insert_ne _ 3 i),
    (list_insert_insert_ne _ 1 i), (list_insert_insert_ne _ 0 i) by done.
  done.
Qed.

Lemma correct_meetings_width df0 df :
  correct_meetings df0 = Ok df -> (9 < width df0)%nat /\ width df = width df0.
Proof.
  unfold correct_meetings. intros H.
  apply bind_Ok in H as (df1 & H1 & H). apply bind_Ok in H as (df2 & H2 & H3).
  assert (9 < width df0)%nat.
  { unfold iloc_set in H1. case_decide as Hb; [|done]. lia. }
  apply iloc_set_Ok in H1 as (_ & Hc1 & _).
  apply iloc_set_Ok in H2 as (_ & Hc2 & _).
  apply iloc_set_Ok in H3 as (_ & Hc3 & _).
  split; [done|]. unfold width. by rewrite Hc3, Hc2, Hc1.
Qed.

Lemma format_date_has_Date df df' :
  format_date to_datetime df = Ok df' ->
  exists h, columns df = Index h /\ "Date" ∈ h.
Proof.
  unfold format_date. intros H. apply bind_Ok in H as (d & Hd & _).
  apply get_Ok in Hd as (ns & j & Hns & Hj & _). exists ns. split; [done|].
  apply index_of_Some in Hj. by eapply list_elem_of_lookup_2.
Qed.

(** X4: what a successful call needs: at least five tables, a two-level
    header on the first with [Date] in its second level, [Date] among
    the labels of each of the three other selected tables when its
    header is flat, and enough kept rows and columns for the three
    positional patches -- so the table returned has at least 35 rows and
    10 columns. *)
Theorem world_records_requirements df_list df st :
  create_world_records_df to_datetime df_list = Ok (df, st) ->
  (5 <= length df_list)%nat
  /\ (exists men ts, df_list !! 0%nat = Some men /\ columns men = MultiIndex ts
                     /\ "Date" ∈ ts.*2)
  /\ (forall i, i ∈ [1; 3; 4]%nat ->
        exists t, df_list !! i = Some t
                  /\ forall h, columns t = Index h -> "Date" ∈ h)
  /\ (35 <= length (rows df))%nat
  /\ (10 <= width df)%nat.
Proof.
  intros H. apply create_world_records_df_Ok in H
    as (m & w & mi & wi & df0 & Hf & _ & Hp & _).
  pose proof (correct_meetings_width _ _ Hp) as [Hw Hw'].
  apply correct_meetings_Ok in Hp as (_ & Hlen & H34 & _).
  unfold format_tables in Hf.
  apply bind_Ok in Hf as (m0 & Hm0 & Hf). apply or_raise_Ok in Hm0.
  apply bind_Ok in Hf as (w0 & Hw0 & Hf). apply or_raise_Ok in Hw0.
  apply bind_Ok in Hf as (mi0 & Hmi0 & Hf). apply or_raise_Ok in Hmi0.
  apply bind_Ok in Hf as (wi0 & Hwi0 & Hf). apply or_raise_Ok in Hwi0.
  apply bind_Ok in Hf as (m1 & Hm1 & Hf).
  apply bind_Ok in Hf as (m2 & Hm2 & Hf).
  apply bind_Ok in Hf as (mi1 & Hmi1 & Hf).
  apply bind_Ok in Hf as (w1 & Hw1 & Hf).
  apply bind_Ok in Hf as (wi1 & Hwi1 & _).
  split; [by apply lookup_lt_Some in Hwi0|]. split.
  { apply format_date_has_Date in Hm2 as (h & Hh & HD).
    unfold droplevel0 in Hm1. destruct (columns m0) as [|ts] eqn:Hc; [done|].
    inversion Hm1; subst m1. simpl in Hh. inversion Hh; subst h.
    by exists m0, ts. }
  split; [|lia].
  intros i Hi.
  apply format_date_has_Date in Hmi1 as (hmi & ? & ?).
  apply format_date_has_Date in Hw1 as (hw & ? & ?).
  apply format_date_has_Date in Hwi1 as (hwi & ? & ?).
  apply elem_of_cons in Hi as [->|Hi];
    [exists w0; split; [done|]; intros h Hh; congruence|].
  apply elem_of_cons in Hi as [->|Hi];
    [exists mi0; split; [done|]; intros h Hh; congruence|].
  apply elem_of_cons in Hi as [->|Hi];
    [exists wi0; split; [done|]; intros h Hh; congruence|].
  by apply elem_of_nil in Hi.
Qed.

(** X5: the derived [year] of every row is [dt.year] of its [Date]: the
    calendar year of the time stamp, or missing when the date is
    missing.  The three positional patches are the one exception, should
    [Date] or [year] sit at column 9. *)
Theorem year_of_date df_list df st :
  create_world_records_df to_datetime df_list = Ok (df, st) ->
  exists hdr jd jy,
    columns df = Index hdr
    /\ index_of "Date" hdr = Some jd /\ index_of "year" hdr = Some jy
    /\ forall i r, rows df !! i = Some r ->
         (i ∈ [9; 11; 34]%nat -> jd <> 9%nat /\ jy <> 9%nat) ->
         dt_year (cell_at jd r) = Ok (cell_at jy r).
Proof.
  intros H. apply create_world_records_df_Ok in H
    as (m & w & mi & wi & df0 & _ & Hc & Hp & _).
  apply correct_meetings_Ok in Hp as (Hcols & Hlen & _ & Hpatch).
  unfold combine_records in Hc. apply bind_Ok in Hc as (dfc & _ & Hc).
  apply bind_Ok in Hc as (d & Hd & Hc). apply bind_Ok in Hc as (y & Hy & Hset).
  apply get_Ok in Hd as (new & jd & Hnew & Hjd & ->).
  apply set_Ok in Hset as (ns & hdr & jy & Hns & Hhdr & Hjy & Hcase & Hrows).
  assert (ns = new) as -> by congruence.
  assert (Hjd' : index_of "Date" hdr = Some jd).
  { destruct Hcase as [->|(_ & -> & _)]; [done|]. by apply index_of_app_l. }
  exists hdr, jd, jy. split; [congruence|]. split; [done|]. split; [done|].
  intros i r Hr Hnp.
  destruct (lookup_lt_is_Some_2 (rows df0) i) as [r0 Hr0].
  { rewrite <- Hlen. by eapply lookup_lt_Some. }
  destruct (Hpatch i r0 Hr0) as (r' & Hr' & _ & Hcells).
  assert (r' = r) as -> by congruence.
  assert (Hn : forall j, j = jd \/ j = jy -> ~ patched i j).
  { intros j Hj [-> Hin]. destruct (Hnp Hin) as [? ?]. by destruct Hj. }
  rewrite !Hcells, !decide_False by (apply Hn; auto).
  rewrite Hrows, put_col_lookup in Hr0.
  destruct (rows (reset_index dfc) !! i) as [rc|] eqn:Hrc; [|done].
  inversion Hr0; subst r0; clear Hr0.
  assert (Hdi : map (cell_at jd) (rows (reset_index dfc)) !! i = Some (cell_at jd rc))
    by (by rewrite list_lookup_fmap, Hrc).
  destruct (mapR_lookup _ _ _ _ _ Hy Hdi) as (yi & Hyi & Hdt).
  rewrite Hyi. simpl. rewrite cell_at_put_eq.
  rewrite cell_at_put_ne by (by eapply (index_of_ne "year" "Date" hdr)).
  done.
Qed.

End WorldRecordsEdges.

Lemma too_few_tables_witness :
  (length (take 4 sample_df_list) < 5)%nat
  /\ create_world_records_df iso_to_datetime (take 4 sample_df_list)
     = Raise IndexError.
Proof.
  split; [simpl; lia|].
  apply (too_few_tables iso_to_datetime (take 4 sample_df_list)). simpl; lia.
Defined.

Lemma flat_men_header_witness :
  (5 <= length (<[0%nat:=sample_table (Index sample_header) "men" 43]> sample_df_list))%nat
  /\ create_world_records_df iso_to_datetime
       (<[0%nat:=sample_table (Index sample_header) "men" 43]> sample_df_list)
     = Raise ValueError.
Proof.
  split; [simpl; lia|].
  apply (flat_men_header iso_to_datetime _ (sample_table (Index sample_header) "men" 43)
           sample_header); [simpl; lia|reflexivity|reflexivity].
Defined.

Lemma unselected_table_ignored_witness :
  exists df st,
    create_world_records_df iso_to_datetime sample_df_list = Ok (df, st)
    /\ (2%nat ∉ [0; 1; 3; 4]%nat)
    /\ create_world_records_df iso_to_datetime (<[2%nat:=hassan]> sample_df_list)
       = Ok (df, <[2%nat:=hassan]> st).
Proof.
  destruct (create_world_records_df iso_to_datetime sample_df_list)
    as [[df st]|e] eqn:E; [|vm_compute in E; discriminate E].
  assert (Hi : 2%nat ∉ [0; 1; 3; 4]%nat) by compute_done.
  exists df, st. split; [reflexivity|]. split; [exact Hi|].
  exact (unselected_table_ignored iso_to_datetime sample_df_list df st 2 hassan Hi E).
Defined.

Lemma world_records_requirements_witness :
  exists df st,
    create_world_records_df iso_to_datetime sample_df_list = Ok (df, st)
    /\ (35 <= length (rows df))%nat /\ (10 <= width df)%nat.
Proof.
  destruct (create_world_records_df iso_to_datetime sample_df_list)
    as [[df st]|e] eqn:E; [|vm_compute in E; discriminate E].
  exists df, st. split; [reflexivity|].
  exact (proj2 (proj2 (proj2
           (world_records_requirements iso_to_datetime sample_df_list df st E)))).
Defined.

Lemma year_of_date_witness :
  exists df st,
    create_world_records_df iso_to_datetime sample_df_list = Ok (df, st)
    /\ exists hdr jd jy,
        columns df = Index hdr
        /\ index_of "Date" hdr = Some jd /\ index_of "year" hdr = Some jy
        /\ forall i r, rows df !! i = Some r ->
             (i ∈ [9; 11; 34]%nat -> jd <> 9%nat /\ jy <> 9%nat) ->
             dt_year (cell_at jd r) = Ok (cell_at jy r).
Proof.
  destruct (create_world_records_df iso_to_datetime sample_df_list)
    as [[df st]|e] eqn:E; [|vm_compute in E; discriminate E].
  exists df, st. split; [reflexivity|].
  exact (year_of_date iso_to_datetime sample_df_list df st E).
Defined.

(** ** [create_world_records_df]: the gender of every row *)

Section Gender.
Import PdFacts.

Variable to_datetime : list cell -> result (list cell).

(** Under the header of a concatenation a row reads, under every label,
    what it read in its own frame, and a missing value under a label
    its frame does not have. *)
Lemma align_reads new h rs rs' :
  align new (h, rs) = Ok rs' ->
  Forall2 (fun r o => label o = label r
                      /\ forall n, n ∈ new ->
                           read_row new o n = Some (default NA (read_row h r n)))
          rs rs'.
Proof.
  unfold align; simpl. case_decide as E.
  - intros [= <-]. subst. apply Forall_Forall2_diag, Forall_forall.
    intros r _. split; [done|]. intros n Hn.
    destruct (index_of_is_Some _ _ Hn) as [j Hj]. unfold read_row. by rewrite Hj.
  - case_decide; [|done]. intros [= <-].
    apply Forall2_fmap_r, Forall_Forall2_diag, Forall_forall.
    intros r _. split; [done|]. intros n Hn.
    destruct (index_of_is_Some _ _ Hn) as [j Hj]. unfold read_row. rewrite Hj.
    simpl. unfold cell_at at 1, reindex; simpl. rewrite list_lookup_fmap.
    rewrite (index_of_Some _ _ _ Hj). simpl. by destruct (index_of n h).
Qed.

Lemma concat_reads dfs df :
  concat dfs = Ok df ->
  exists headers new,
    mapR (flat TypeError) dfs = Ok headers
    /\ columns df = Index new
    /\ (forall h n, h ∈ headers -> n ∈ h -> n ∈ new)
    /\ Forall2 (fun '(h, r) o =>
                  label o = label r
                  /\ forall n, n ∈ new ->
                       read_row new o n = Some (default NA (read_row h r n)))
               (List.concat (zip_with (fun h d => map (pair h) (rows d)) headers dfs))
               (rows df).
Proof.
  unfold concat. intros H. apply bind_Ok in H as (headers & Hh & H).
  case_decide as Hne; [done|].
  apply bind_Ok in H as (rss & Hrss & H). inversion H; subst; clear H.
  exists headers, (union_headers headers). split; [done|]. split; [done|].
  split; [intros h n Hin Hn; by eapply union_headers_elem|].
  simpl. apply mapR_Forall2 in Hrss. apply mapR_length in Hh. clear Hne.
  revert Hrss. generalize (union_headers headers) as new.
  revert dfs rss Hh.
  induction headers as [|h headers IH]; intros [|d dfs] rss Hlen new Hrss;
    simpl in *; try done.
  - inversion Hrss. constructor.
  - inversion Hrss as [|? rs' ? rss' Ha Hrest]; subst. simpl.
    apply Forall2_app.
    + apply Forall2_fmap_l. eapply Forall2_impl; [by eapply align_reads|]. done.
    + apply IH; [lia|done].
Qed.

(** The column a scalar is assigned to reads that scalar in every row. *)
Lemma set_scalar_reads e name v df df' :
  set_scalar e name v df = Ok df' ->
  exists hdr, columns df' = Index hdr /\ name ∈ hdr
              /\ Forall (fun r => read_row hdr r name = Some v) (rows df').
Proof.
  unfold set_scalar. intros H.
  apply set_Ok in H as (ns & hdr & j & _ & Hhdr & Hj & _ & Hrows).
  exists hdr. split; [done|].
  split; [apply index_of_Some in Hj; by eapply list_elem_of_lookup_2|].
  apply Forall_forall. intros r Hr.
  apply list_elem_of_lookup in Hr as [i Hi].
  rewrite Hrows, put_col_lookup in Hi.
  destruct (rows df !! i) as [r0|] eqn:Hr0; [|done]. inversion Hi; subst r.
  unfold read_row. rewrite Hj. simpl. rewrite cell_at_put_eq.
  by rewrite lookup_replicate_2 by (by eapply lookup_lt_Some).
Qed.

Lemma format_tables_gender df_list m w mi wi :
  format_tables to_datetime df_list = Ok (m, w, mi, wi) ->
  exists hm hw,
    columns m = Index hm /\ columns w = Index hw
    /\ "gender" ∈ hm
    /\ Forall (fun r => read_row hm r "gender" = Some (Str "M")) (rows m)
    /\ Forall (fun r => read_row hw r "gender" = Some (Str "W")) (rows w).
Proof.
  unfold format_tables. intros H.
  do 9 (apply bind_Ok in H as (? & _ & H)).
  apply bind_Ok in H as (w2 & Hw2 & H). apply bind_Ok in H as (m3 & Hm3 & H).
  inversion H; subst; clear H.
  apply set_scalar_reads in Hw2 as (hw & ? & ? & ?).
  apply set_scalar_reads in Hm3 as (hm & ? & ? & ?).
  by exists hm, hw.
Qed.

(** As [combine_records_Ok], with the cells a row gets under the labels
    its own table lacks. *)
Lemma combine_records_reads m w mi wi df0 :
  combine_records m w mi wi = Ok df0 ->
  exists hm hw hmi hwi hdr,
    columns m = Index hm /\ columns w = Index hw
    /\ columns mi = Index hmi /\ columns wi = Index hwi
    /\ columns df0 = Index hdr
    /\ (forall n, n ∈ hm -> n ∈ hdr)
    /\ forall i h r,
         kept_rows hm hw hmi hwi m w mi wi !! i = Some (h, r) ->
         exists o, rows df0 !! i = Some o
                   /\ forall n, n <> "year" -> n ∈ hdr ->
                        read_row hdr o n = Some (default NA (read_row h r n)).
Proof.
  unfold combine_records. intros H. apply bind_Ok in H as (dfc & Hc & H).
  apply bind_Ok in H as (d & _ & H). apply bind_Ok in H as (y & _ & H).
  apply concat_reads in Hc as (headers & new & Hh & Hnew & Hsub & Hrows).
  apply mapR_Forall2 in Hh.
  apply Forall2_cons_inv_l in Hh as (hm & hs1 & Hhm & Hh & ->).
  apply Forall2_cons_inv_l in Hh as (hw & hs2 & Hhw & Hh & ->).
  apply Forall2_cons_inv_l in Hh as (hmi & hs3 & Hhmi & Hh & ->).
  apply Forall2_cons_inv_l in Hh as (hwi & hs4 & Hhwi & Hh & ->).
  apply Forall2_nil_inv_l in Hh as ->.
  apply flat_Ok in Hhm, Hhw, Hhmi, Hhwi. simpl in Hhm, Hhw, Hhmi, Hhwi.
  apply set_Ok in H as (ns & hdr & jy & Hns & Hhdr & Hjy & Hcase & Hr0).
  simpl in Hns. rewrite Hnew in Hns. inversion Hns; subst ns; clear Hns.
  exists hm, hw, hmi, hwi, hdr. do 5 (split; [done|]).
  assert (Hkept :
    List.concat (zip_with (fun h d => map (pair h) (rows d)) [hm; hw; hmi; hwi]
      [drop_range 20 42 m; drop_range 27 50 w; keep_range 0 12 mi; keep_range 0 10 wi])
    = kept_rows hm hw hmi hwi m w mi wi).
  { unfold kept_rows, drop_range, keep_range, iloc_mask. simpl.
    rewrite app_nil_r.
    rewrite (filter_drop 20 42 41), (filter_drop 27 50 49) by done.
    by rewrite (filter_keep 0 12 11), (filter_keep 0 10 9) by done. }
  rewrite Hkept in Hrows. clear Hkept.
  assert (Hnewhdr : forall n, n ∈ new -> n ∈ hdr).
  { intros n Hn. destruct Hcase as [->|(_ & -> & _)]; [done|].
    apply elem_of_app. by left. }
  assert (Hhdrnew : forall n, n <> "year" -> n ∈ hdr -> n ∈ new).
  { intros n Hne Hn. destruct Hcase as [->|(_ & -> & _)]; [done|].
    apply elem_of_app in Hn as [Hn|Hn]; [done|].
    by apply list_elem_of_singleton in Hn. }
  split.
  { intros n Hn. apply Hnewhdr, (Hsub hm); [by left|done]. }
  intros i h r Hi.
  destruct (Forall2_lookup_l _ _ _ _ _ Hrows Hi) as (o1 & Ho1 & _ & Hread).
  exists (put jy (default NA (y !! i)) (mkRow (0 + Z.of_nat i) (cells o1))).
  split.
  - rewrite Hr0, put_col_lookup. simpl. by rewrite renumber_lookup, Ho1.
  - intros n Hne Hn. rewrite (read_row_set_ne _ new) by done.
    rewrite (read_row_cells _ _ o1) by done. by apply Hread, Hhdrnew.
Qed.

(** X6: the gender of every row of the result.  The men's and women's
    outdoor tables are tagged [M] and [W] in place; the result gives
    each row the gender its own table has for it, and a missing gender
    when its table has no such column -- which is the case of the two
    indoor tables, never tagged.  (The three positional patches apart,
    should [gender] sit at column 9.) *)
Theorem gender_of_rows df_list df st :
  create_world_records_df to_datetime df_list = Ok (df, st) ->
  gender_by_table st df.
Proof.
  intros H. apply create_world_records_df_Ok in H
    as (m & w & mi & wi & df0 & Hf & Hc & Hp & ->).
  pose proof (format_tables_gender _ _ _ _ _ Hf)
    as (hm0 & hw0 & Hm0 & Hw0 & Hgm & GM & GW).
  apply format_tables_Ok in Hf as (m0 & w0 & mi0 & wi0 & H0 & H1 & H3 & H4 & _).
  apply combine_records_reads in Hc
    as (hm & hw & hmi & hwi & hdr & Hhm & Hhw & Hhmi & Hhwi & Hhdr & Hsub & Hrows).
  assert (hm0 = hm) as -> by congruence.
  assert (hw0 = hw) as -> by congruence.
  apply correct_meetings_Ok in Hp as (Hcols & _ & _ & Hpatch).
  assert (4 < length df_list)%nat as Hl by (by eapply lookup_lt_Some).
  destruct (updated_list_lookup df_list m w mi wi Hl) as (_ & S0 & S1 & S3 & S4 & _).
  exists m, w, mi, wi, hm, hw, hmi, hwi, hdr.
  split; [done|]. split; [by rewrite Hcols|]. split; [done|]. split; [done|].
  intros i h r Hi Hnp.
  destruct (Hrows i h r Hi) as (o0 & Ho0 & Hread).
  destruct (Hpatch i o0 Ho0) as (o & Ho & _ & Hcells).
  exists o. split; [done|].
  assert (Hg : "gender" ∈ hdr) by (by apply Hsub).
  specialize (Hread "gender" ltac:(done) Hg).
  unfold read_row in *. destruct (index_of "gender" hdr) as [j|] eqn:Hj; [|done].
  simpl in *. rewrite Hcells, decide_False; [done|].
  intros [-> Hin]. by apply Hnp.
Qed.

End Gender.

Lemma gender_of_rows_witness :
  exists df st,
    create_world_records_df iso_to_datetime sample_df_list = Ok (df, st)
    /\ gender_by_table st df.
Proof.
  destruct (create_world_records_df iso_to_datetime sample_df_list)
    as [[df st]|e] eqn:E; [|vm_compute in E; discriminate E].
  exists df, st. split; [reflexivity|].
  exact (gender_of_rows iso_to_datetime sample_df_list df st E).
Defined.

(** ** [create_wavelight_records_df] *)

Section Wavelight.
Import PdFacts PyStr PyStrFacts.

Lemma set_lookup e name vs df df' :
  set e name vs df = Ok df' ->
  exists ns ns' j,
    columns df = Index ns /\ columns df' = Index ns'
    /\ index_of name ns' = Some j
    /\ (forall n k, index_of n ns = Some k -> index_of n ns' = Some k)
    /\ (forall n k, index_of n ns' = Some k -> n <> name -> index_of n ns = Some k)
    /\ length (rows df') = length (rows df)
    /\ forall i, rows df' !! i
                 = (fun r => put j (default NA (vs !! i)) r) <$> rows df !! i.
Proof.
  intros H. pose proof (set_changed _ _ _ _ _ H) as (ns0 & ns0' & E0 & E0' & Hback & _).
  apply set_Ok in H as (ns & ns' & j & Hns & Hns' & Hj & Hcase & Hrows).
  assert (ns0 = ns) as -> by congruence.
  assert (ns0' = ns') as -> by congruence.
  exists ns, ns', j. do 3 (split; [done|]). split; [|split; [done|split]].
  - intros n k Hk. destruct Hcase as [->|(_ & -> & _)]; [done|].
    by apply index_of_app_l.
  - by rewrite Hrows, length_put_col.
  - intros i. by rewrite Hrows, put_col_lookup.
Qed.

(** What a successful call has done to every row. *)
Lemma create_wavelight_records_df_Ok raw out :
  create_wavelight_records_df raw = Ok out ->
  exists ns hdr jm jy jw,
    columns raw = Index ns /\ columns out = Index hdr
    /\ index_of "Meeting" ns = Some jm
    /\ index_of "Meeting" hdr = Some jm
    /\ index_of "year" hdr = Some jy
    /\ index_of "wavelight" hdr = Some jw
    /\ (forall n k, index_of n ns = Some k -> index_of n hdr = Some k)
    /\ (forall n k, index_of n hdr = Some k -> n ∉ ["year"; "wavelight"] ->
                     index_of n ns = Some k)
    /\ (1 < length (rows raw))%nat
    /\ length (rows out) = length (rows raw)
    /\ forall i r0, rows raw !! i = Some r0 ->
         exists s name yt r,
           cell_at jm r0 = Str s
           /\ meeting_name (Str s) = Ok (Str name)
           /\ year_text (Str s) = Ok (Str yt)
           /\ rows out !! i = Some r /\ label r = label r0
           /\ forall j, cell_at j r
                        = wavelight_cell jm jy jw name yt (cell_at j r0) i j.
Proof.
  unfold create_wavelight_records_df. intros H.
  apply bind_Ok in H as (m0 & Hm0 & H). apply bind_Ok in H as (ys & Hys & H).
  apply bind_Ok in H as (df1 & H1 & H). apply bind_Ok in H as (m1 & Hm1 & H).
  apply bind_Ok in H as (nms & Hnms & H). apply bind_Ok in H as (df2 & H2 & H).
  apply bind_Ok in H as (m2 & Hm2 & H). apply bind_Ok in H as (df3 & H3 & H).
  apply bind_Ok in H as (df4 & H4 & H). apply bind_Ok in H as (df5 & H5 & H).
  inversion H; subst df5; clear H.
  apply get_Ok in Hm0 as (ns & jm & Hns & Hjm & ->).
  apply set_lookup in H1 as (ns0 & h1 & jy & E0 & Eh1 & Hjy & Hf1 & Hb1 & L1 & R1).
  assert (ns0 = ns) as -> by congruence.
  apply get_Ok in Hm1 as (h1' & jm1 & Eh1' & Hjm1 & ->).
  assert (h1' = h1) as -> by congruence.
  assert (jm1 = jm) as -> by (specialize (Hf1 _ _ Hjm); congruence).
  apply set_lookup in H2 as (h1' & h2 & jm2 & E1 & Eh2 & Hjm2 & Hf2 & Hb2 & L2 & R2).
  assert (h1' = h1) as -> by congruence.
  assert (jm2 = jm) as -> by (specialize (Hf2 _ _ Hjm1); congruence).
  apply get_Ok in Hm2 as (h2' & jm3 & Eh2' & Hjm3 & ->).
  assert (h2' = h2) as -> by congruence.
  assert (jm3 = jm) as -> by congruence.
  apply set_lookup in H3 as (h2' & h3 & jm4 & E2 & Eh3 & Hjm4 & Hf3 & Hb3 & L3 & R3).
  assert (h2' = h2) as -> by congruence.
  assert (jm4 = jm) as -> by (specialize (Hf3 _ _ Hjm3); congruence).
  unfold set_scalar in H4.
  apply set_lookup in H4 as (h3' & h4 & jw & E3 & Eh4 & Hjw & Hf4 & Hb4 & L4 & R4).
  assert (h3' = h3) as -> by congruence.
  apply iloc_set_Ok in H5 as (Hlen5 & Hc5 & R5).
  exists ns, h4, jm, jy, jw.
  split; [done|]. split; [congruence|]. split; [done|].
  split; [by apply Hf4, Hf3|]. split; [by apply Hf4, Hf3, Hf2|]. split; [done|].
  split; [intros n k Hk; by apply Hf4, Hf3, Hf2, Hf1|].
  split.
  { intros n k Hk Hn. rewrite !not_elem_of_cons in Hn. destruct Hn as (Hny & Hnw & _).
    apply Hb1; [|done]. apply Hb4 in Hk; [|done].
    destruct (decide (n = "Meeting")) as [->|Hnm].
    - assert (k = jm) as -> by (specialize (Hf3 _ _ Hjm3); congruence). done.
    - apply Hb2; [|done]. by apply Hb3. }
  split; [lia|]. split; [rewrite R5, length_alter; lia|].
  intros i r0 Hr0.
  assert (Hc0 : map (cell_at jm) (rows raw) !! i = Some (cell_at jm r0))
    by (by rewrite list_lookup_fmap, Hr0).
  destruct (mapR_lookup _ _ _ _ _ Hys Hc0) as (yi & Hyi & Hyt).
  destruct (cell_at jm r0) as [|s| | |] eqn:Hcell; try discriminate Hyt.
  assert (exists yt, yi = Str yt) as [yt ->].
  { unfold year_text in Hyt. apply bind_Ok in Hyt as (? & _ & Hyt).
    inversion Hyt. eauto. }
  assert (Hr1 : rows df1 !! i = Some (put jy (Str yt) r0))
    by (by rewrite R1, Hr0, Hyi).
  assert (Hne : jy <> jm) by (by eapply (index_of_ne "year" "Meeting" h1)).
  assert (Hc1 : map (cell_at jm) (rows df1) !! i = Some (Str s)).
  { by rewrite list_lookup_fmap, Hr1; simpl; rewrite cell_at_put_ne, Hcell. }
  destruct (mapR_lookup _ _ _ _ _ Hnms Hc1) as (ni & Hni & Hnm).
  assert (exists name, ni = Str name) as [name ->].
  { unfold meeting_name in Hnm. apply bind_Ok in Hnm as (? & _ & Hnm).
    inversion Hnm. eauto. }
  assert (Hr2 : rows df2 !! i = Some (put jm (Str name) (put jy (Str yt) r0)))
    by (by rewrite R2, Hr1, Hni).
  assert (Hr3 : rows df3 !! i
                = Some (put jm (map_dict mapper (Str name))
                          (put jm (Str name) (put jy (Str yt) r0)))).
  { rewrite R3, !list_lookup_fmap, Hr2. simpl. by rewrite cell_at_put_eq. }
  assert (Hr4 : rows df4 !! i
                = Some (put jw (Str "y")
                          (put jm (map_dict mapper (Str name))
                             (put jm (Str name) (put jy (Str yt) r0))))).
  { rewrite R4, Hr3. simpl.
    by rewrite lookup_replicate_2 by (by eapply lookup_lt_Some). }
  exists s, name, yt. rewrite R5.
  destruct (decide (i = 1%nat)) as [->|Hi].
  - eexists. split; [done|]. split; [done|]. split; [done|].
    split; [by rewrite list_lookup_alter, Hr4|]. split; [done|].
    intros j. rewrite !cell_at_put. unfold wavelight_cell.
    repeat case_decide; try done; try lia; try (by subst); naive_solver.
  - eexists. split; [done|]. split; [done|]. split; [done|].
    split; [by rewrite list_lookup_alter_ne, Hr4|]. split; [done|].
    intros j. rewrite !cell_at_put. unfold wavelight_cell.
    repeat case_decide; try done; try lia; try (by subst); naive_solver.
Qed.

Lemma mapR_Raise {A B} (f : A -> result B) (e : exn) xs :
  Forall (fun x => (exists y, f x = Ok y) \/ f x = Raise e) xs ->
  Exists (fun x => f x = Raise e) xs ->
  mapR f xs = Raise e.
Proof.
  induction 1 as [|x xs Hx _ IH]; intros Hex; [by apply Exists_nil in Hex|].
  simpl. destruct Hx as [[y Hy]|Hx]; [|by rewrite Hx].
  rewrite Hy. apply Exists_cons in Hex as [Hex|Hex]; [congruence|].
  change (Ok y ≫= ?k) with (k y). cbv beta. by rewrite (IH Hex).
Qed.

Lemma remove_no_char c s : occurs (String c "") (remove c s) = false.
Proof.
  induction s as [|c' s IH]; simpl.
  - done.
  - destruct (Ascii.eqb c c') eqn:E; [done|]. cbn [occurs String.prefix].
    rewrite IH. destruct (ascii_dec c c') as [->|]; [|done].
    by rewrite Ascii.eqb_refl in E.
Qed.

Lemma occurs_sep_app (name rest : string) :
  occurs " (" (name +:+ " (" +:+ rest) = true.
Proof.
  induction name as [|c name IH].
  - change ("" +:+ " (" +:+ rest) with (String " " (String "(" rest)).
    cbn [occurs]. by rewrite prefix_sep.
  - change (String c name +:+ " (" +:+ rest)
      with (String c (name +:+ " (" +:+ rest)).
    cbn [occurs]. rewrite IH. apply orb_true_r.
Qed.

Lemma year_text_no_sep s :
  occurs " (" s = false -> year_text (Str s) = Raise IndexError.
Proof. intros H. unfold year_text. by rewrite split_second_none. Qed.

(** The first piece of a split holds no separator, and the text is this
    piece alone or this piece, the separator and the text the other
    pieces come from. *)
Lemma split_head (s : string) :
  exists p ps,
    split " (" s = p :: ps
    /\ occurs " (" p = false
    /\ ((ps = [] /\ s = p)
        \/ exists rest, s = p +:+ " (" +:+ rest /\ ps = split " (" rest).
Proof.
  unfold split. induction s as [|c s (p & ps & Hs & Hp & Hcase)].
  - exists "", []. split; [done|]. split; [done|]. by left.
  - cbn [split_go]. destruct (String.prefix " (" (String c s)) eqn:Hpre.
    + destruct s as [|c' s];
        [cbn [String.prefix] in Hpre; by destruct (ascii_dec " " c)|].
      rewrite prefix_sep in Hpre. apply andb_true_iff in Hpre as [Hc Hc'].
      apply Ascii.eqb_eq in Hc, Hc'. subst c c'.
      exists "", (split_go " (" 0 s). split; [done|]. split; [done|].
      right. by exists s.
    + rewrite Hs. exists (String c p), ps. split; [done|]. split.
      * cbn [occurs]. rewrite Hp, orb_false_r.
        destruct p as [|c' p];
          [cbn [String.prefix]; by destruct (ascii_dec " " c)|].
        assert (exists t, s = String c' t) as [t ->].
        { destruct Hcase as [[_ ->]|(rest & -> & _)]; eauto. }
        by rewrite prefix_sep in *.
      * destruct Hcase as [[-> ->]|(rest & -> & ->)]; [by left|].
        right. by exists rest.
Qed.

(** X7: the two parts of a meeting cell, for every text: the meeting name
    is the longest beginning of the cell that holds no [" ("], so the
    cell is the name alone or the name, [" ("] and more text; the year
    text exists exactly when the cell holds [" ("] (the lambda raises
    [IndexError] otherwise), and it never holds a closing
    parenthesis. *)
Theorem meeting_cell_parts (s : string) :
  (exists name,
     meeting_name (Str s) = Ok (Str name)
     /\ occurs " (" name = false
     /\ (s = name \/ exists rest, s = name +:+ " (" +:+ rest))
  /\ (year_text (Str s) = Raise IndexError <-> occurs " (" s = false)
  /\ (occurs " (" s = true -> exists yt, year_text (Str s) = Ok (Str yt))
  /\ (forall yt, year_text (Str s) = Ok (Str yt) -> occurs ")" yt = false).
Proof.
  destruct (split_head s) as (p & ps & Hs & Hp & Hcase).
  unfold meeting_name, year_text. rewrite Hs.
  destruct Hcase as [[-> ->]|(rest & -> & ->)].
  - simpl. split; [exists p; auto|]. split; [by rewrite Hp|].
    split; [by rewrite Hp|done].
  - rewrite occurs_sep_app.
    destruct (split " (" rest) as [|y l] eqn:E; [by apply split_go_nonempty in E|].
    simpl. split; [exists p; eauto|]. split; [done|]. split; [eauto|].
    intros yt [= <-]. rewrite replace_char_empty. apply remove_no_char.
Qed.

(** X8: what a successful call on a page table with the flat header [ns]
    needs: a [Meeting] column, at least two rows (for the patch of row
    1), and in every row a meeting cell that is text and holds
    [" ("]. *)
Theorem normalizer_requirements raw out ns :
  columns raw = Index ns ->
  create_wavelight_records_df raw = Ok out ->
  "Meeting" ∈ ns
  /\ (2 <= length (rows raw))%nat
  /\ Forall (fun r0 => exists s, read raw r0 "Meeting" = Some (Str s)
                                 /\ occurs " (" s = true) (rows raw).
Proof.
  intros Hflat H. apply create_wavelight_records_df_Ok in H
    as (ns' & hdr & jm & jy & jw & Hns & _ & Hjm & _ & _ & _ & _ & _ & Hlen & _ & Hrows).
  assert (ns' = ns) as -> by congruence.
  split; [apply index_of_Some in Hjm; by eapply list_elem_of_lookup_2|].
  split; [lia|]. apply Forall_forall. intros r0 Hr0.
  apply list_elem_of_lookup in Hr0 as [i Hi].
  destruct (Hrows i r0 Hi) as (s & name & yt & r & Hc & _ & Hy & _).
  exists s. split; [unfold read, read_row; by rewrite Hns, Hjm; simpl; rewrite Hc|].
  destruct (occurs " (" s) eqn:Ho; [done|].
  apply year_text_no_sep in Ho. congruence.
Qed.

(** X9: A page table without a [Meeting] column: [df_wave['Meeting']] raises
    [KeyError]. *)
Theorem missing_meeting_column raw ns :
  columns raw = Index ns -> "Meeting" ∉ ns ->
  create_wavelight_records_df raw = Raise KeyError.
Proof.
  intros Hns Hm. unfold create_wavelight_records_df, get, get_loc.
  apply (flat_Ok KeyError) in Hns. rewrite Hns.
  change (Ok ns ≫= ?k) with (k ns). cbv beta.
  apply index_of_None in Hm. by rewrite Hm.
Qed.

(** X10: when every meeting cell is text and one of them holds no [" ("],
    the first lambda raises [IndexError] and no table is returned. *)
Theorem meeting_without_year raw ns jm :
  columns raw = Index ns -> index_of "Meeting" ns = Some jm ->
  Forall (fun r0 => exists s, cell_at jm r0 = Str s) (rows raw) ->
  Exists (fun r0 => exists s, cell_at jm r0 = Str s /\ occurs " (" s = false)
         (rows raw) ->
  create_wavelight_records_df raw = Raise IndexError.
Proof.
  intros Hns Hjm Hall Hex. unfold create_wavelight_records_df.
  assert (get KeyError "Meeting" raw = Ok (map (cell_at jm) (rows raw))) as ->
    by (apply get_Ok; eauto).
  change (Ok ?a ≫= ?k) with (k a). cbv beta.
  rewrite (mapR_Raise year_text IndexError); [done| |].
  - apply Forall_fmap. eapply Forall_impl; [exact Hall|].
    intros r0 [s Hs]. simpl. rewrite Hs.
    destruct (occurs " (" s) eqn:Ho; [|right; by apply year_text_no_sep].
    left. unfold year_text.
    destruct (split_head s) as (p & ps & -> & Hp & [[-> ->]|(rest & -> & ->)]).
    + congruence.
    + destruct (split " (" rest) eqn:E; [by apply split_go_nonempty in E|].
      simpl. eauto.
  - apply Exists_fmap. eapply Exists_impl; [exact Hex|].
    intros r0 (s & Hs & Ho). simpl. rewrite Hs. by apply year_text_no_sep.
Qed.

(** X11: every row of the normalized table carries the marker [y]; the one
    cell that can differ is row 1 when [wavelight] is the first column,
    which the athlete patch then overwrites.  With [wavelight] elsewhere
    the table meets the merger's expectation [vendor_marked]. *)
Theorem normalized_rows_marked raw out :
  create_wavelight_records_df raw = Ok out ->
  exists jw,
    get_loc KeyError "wavelight" out = Ok jw
    /\ (forall i r, rows out !! i = Some r -> ~ (i = 1%nat /\ jw = 0%nat) ->
          read out r "wavelight" = Some (Str "y"))
    /\ (jw <> 0%nat -> vendor_marked out).
Proof.
  intros H. apply create_wavelight_records_df_Ok in H
    as (ns & hdr & jm & jy & jw & Hns & Hhdr & Hjm & _ & _ & Hjw & _ & _ & _
        & Hlen & Hrows).
  exists jw. split; [apply get_loc_Ok; eauto|].
  assert (Hall : forall i r, rows out !! i = Some r -> ~ (i = 1%nat /\ jw = 0%nat) ->
                             read out r "wavelight" = Some (Str "y")).
  { intros i r Hr Hn.
    destruct (lookup_lt_is_Some_2 (rows raw) i) as [r0 Hr0].
    { rewrite <- Hlen. by eapply lookup_lt_Some. }
    destruct (Hrows i r0 Hr0) as (s & name & yt & r' & _ & _ & _ & Hr' & _ & Hc).
    assert (r' = r) as -> by congruence.
    unfold read, read_row. rewrite Hhdr, Hjw. simpl. rewrite Hc.
    unfold wavelight_cell. rewrite decide_False by done. by rewrite decide_True. }
  split; [done|]. intros Hjw0. apply Forall_forall. intros r Hr.
  apply list_elem_of_lookup in Hr as [i Hi]. apply (Hall i r Hi). by intros [_ ?].
Qed.

(** C8: the Wavelight Normalizer remaps the meeting name of every row
    -- the text before the first [" ("] of the raw cell -- through a
    fixed table of nine entries.  A name that is one of the nine vendor
    names is replaced by its canonical name ([Memorial van Damme] and
    [Monaco Diamond League] by [Diamond League], [Herculis Monaco] by
    [Herculis]), never by a missing value; any other name is replaced by
    a missing value.  (Row 1 apart, should [Meeting] be the first
    column: the athlete patch then overwrites its meeting.) *)
Theorem meeting_remap raw out :
  create_wavelight_records_df raw = Ok out ->
  forall i r0, rows raw !! i = Some r0 ->
    exists r s name,
      rows out !! i = Some r
      /\ read raw r0 "Meeting" = Some (Str s)
      /\ meeting_name (Str s) = Ok (Str name)
      /\ (~ (i = 1%nat /\ get_loc KeyError "Meeting" out = Ok 0%nat) ->
          (forall k v,
             (k, v) ∈ [ ("The Track at Boston", "The Track at Boston");
                        ("International Meeting de Lievin",
                         "Meeting Hauts-de-France Pas-de-Calais");
                        ("Ethiopian Trials", "Ethiopian Olympic Trials");
                        ("FBK Games", "FBK Games");
                        ("NN World Record Day", "NN World Record Day");
                        ("Memorial van Damme", "Diamond League");
                        ("Herculis Monaco", "Herculis");
                        ("Monaco Diamond League", "Diamond League");
                        ("Impossible Games", "Impossible Games") ] ->
             name = k -> read out r "Meeting" = Some (Str v))
          /\ (name ∉ [ "The Track at Boston"; "International Meeting de Lievin";
                       "Ethiopian Trials"; "FBK Games"; "NN World Record Day";
                       "Memorial van Damme"; "Herculis Monaco";
                       "Monaco Diamond League"; "Impossible Games" ] ->
              read out r "Meeting" = Some NA)).
Proof.
  intros H i r0 Hr0. apply create_wavelight_records_df_Ok in H
    as (ns & hdr & jm & jy & jw & Hns & Hhdr & Hjm & Hjm' & _ & Hjw & _ & _ & _
        & _ & Hrows).
  destruct (Hrows i r0 Hr0) as (s & name & yt & r & Hc0 & Hname & _ & Hr & _ & Hc).
  exists r, s, name. split; [done|].
  split; [unfold read, read_row; by rewrite Hns, Hjm; simpl; rewrite Hc0|].
  split; [done|]. intros Hn.
  assert (Hm : read out r "Meeting" = Some (map_dict mapper (Str name))).
  { unfold read, read_row. rewrite Hhdr, Hjm'. simpl. rewrite Hc.
    unfold wavelight_cell. rewrite decide_False.
    2:{ intros [-> ->]. apply Hn. split; [done|]. apply get_loc_Ok. eauto. }
    rewrite decide_False by (by eapply (index_of_ne "Meeting" "wavelight" hdr)).
    by rewrite decide_True. }
  destruct mapper_remap as (_ & _ & _ & _ & _ & _ & Hin & Hout & _).
  rewrite Hm. split.
  - intros k v Hkv ->. f_equal. by apply (Hin k v).
  - intros Hk. f_equal. by apply (Hout name).
Qed.

(** X12: the meeting of every normalized row is the canonical name of the
    text before the first [" ("] of the raw cell: one of the names of
    the remap table, or missing when the vendor name is no key of it.
    (Row 1 apart, should [Meeting] be the first column.) *)
Theorem normalized_meeting raw out :
  create_wavelight_records_df raw = Ok out ->
  forall i r0, rows raw !! i = Some r0 ->
    exists r c name,
      rows out !! i = Some r
      /\ read raw r0 "Meeting" = Some c
      /\ meeting_name c = Ok (Str name)
      /\ (~ (i = 1%nat /\ get_loc KeyError "Meeting" out = Ok 0%nat) ->
          read out r "Meeting" = Some (map_dict mapper (Str name))
          /\ (read out r "Meeting" = Some NA
              \/ exists k v, (k, v) ∈ mapper_items
                              /\ read out r "Meeting" = Some (Str v))).
Proof.
  intros H i r0 Hr0. apply create_wavelight_records_df_Ok in H
    as (ns & hdr & jm & jy & jw & Hns & Hhdr & Hjm & Hjm' & _ & Hjw & _ & _ & _
        & _ & Hrows).
  destruct (Hrows i r0 Hr0) as (s & name & yt & r & Hc0 & Hname & _ & Hr & _ & Hc).
  exists r, (Str s), name. split; [done|].
  split; [unfold read, read_row; by rewrite Hns, Hjm; simpl; rewrite Hc0|].
  split; [done|]. intros Hn.
  assert (Hm : read out r "Meeting" = Some (map_dict mapper (Str name))).
  { unfold read, read_row. rewrite Hhdr, Hjm'. simpl. rewrite Hc.
    unfold wavelight_cell. rewrite decide_False.
    2:{ intros [-> ->]. apply Hn. split; [done|]. apply get_loc_Ok. eauto. }
    rewrite decide_False by (by eapply (index_of_ne "Meeting" "wavelight" hdr)).
    by rewrite decide_True. }
  split; [done|]. rewrite Hm. unfold map_dict.
  destruct (mapper !! name) as [v|] eqn:Hv; [|by left].
  right. exists name, v. split; [|done].
  unfold mapper in Hv. by apply elem_of_list_to_map_2 in Hv.
Qed.

(** X13: the normalizer keeps the rows, their order and their index labels;
    under every label of the page table other than [Meeting] (and
    [year], [wavelight], should the page have such columns) a row reads
    what it read in the page table -- except the first cell of row 1,
    which is forced to [Jakob Ingebrigtsen]. *)
Theorem normalized_other_cells raw out :
  create_wavelight_records_df raw = Ok out ->
  length (rows out) = length (rows raw)
  /\ (exists r1, rows out !! 1%nat = Some r1
                 /\ cell_at 0 r1 = Str "Jakob Ingebrigtsen")
  /\ forall i r0, rows raw !! i = Some r0 ->
       exists r, rows out !! i = Some r /\ label r = label r0
         /\ forall n c, n ∉ ["Meeting"; "year"; "wavelight"] ->
              read raw r0 n = Some c ->
              ~ (i = 1%nat /\ get_loc KeyError n out = Ok 0%nat) ->
              read out r n = Some c.
Proof.
  intros H. apply create_wavelight_records_df_Ok in H
    as (ns & hdr & jm & jy & jw & Hns & Hhdr & Hjm & Hjm' & Hjy & Hjw & Hf & _
        & Hlen1 & Hlen & Hrows).
  split; [done|]. split.
  { destruct (lookup_lt_is_Some_2 (rows raw) 1) as [r0 Hr0]; [lia|].
    destruct (Hrows 1%nat r0 Hr0) as (s & name & yt & r & _ & _ & _ & Hr & _ & Hc).
    exists r. split; [done|]. rewrite Hc. unfold wavelight_cell.
    by rewrite decide_True. }
  intros i r0 Hr0.
  destruct (Hrows i r0 Hr0) as (s & name & yt & r & _ & _ & _ & Hr & Hlab & Hc).
  exists r. split; [done|]. split; [done|].
  intros n c Hn Hread Hnp. rewrite !not_elem_of_cons in Hn.
  destruct Hn as (Hnm & Hny & Hnw & _).
  unfold read, read_row in *. rewrite Hns in Hread. rewrite Hhdr.
  destruct (index_of n ns) as [k|] eqn:Hk; [|done]. simpl in Hread.
  rewrite (Hf _ _ Hk). simpl. rewrite Hc. unfold wavelight_cell.
  rewrite decide_False.
  2:{ intros [-> ->]. apply Hnp. split; [done|]. apply get_loc_Ok.
      exists hdr. split; [done|]. by apply Hf. }
  rewrite decide_False
    by (apply not_eq_sym; by eapply (index_of_ne "wavelight" n hdr); [|apply Hf|]).
  rewrite decide_False
    by (apply not_eq_sym; by eapply (index_of_ne "Meeting" n hdr); [|apply Hf|]).
  rewrite decide_False
    by (apply not_eq_sym; by eapply (index_of_ne "year" n hdr); [|apply Hf|]).
  done.
Qed.

End Wavelight.

Lemma normalizer_requirements_witness :
  columns sample_vendor_page = Index ["Athlete"; "Event"; "Meeting"]
  /\ create_wavelight_records_df sample_vendor_page = Ok sample_wave
  /\ ("Meeting" ∈ ["Athlete"; "Event"; "Meeting"])
  /\ (2 <= length (rows sample_vendor_page))%nat
  /\ Forall (fun r0 => exists s,
               read sample_vendor_page r0 "Meeting" = Some (Str s)
               /\ PyStr.occurs " (" s = true) (rows sample_vendor_page).
Proof.
  assert (E : create_wavelight_records_df sample_vendor_page = Ok sample_wave)
    by (vm_compute; reflexivity).
  split; [reflexivity|]. split; [exact E|].
  exact (normalizer_requirements sample_vendor_page sample_wave
           ["Athlete"; "Event"; "Meeting"] eq_refl E).
Defined.

Lemma missing_meeting_column_witness :
  columns (mkDF (Index ["Area"; "Records"]) [mkRow 0 [Str "Africa"; Str "12"]])
  = Index ["Area"; "Records"]
  /\ ("Meeting" ∉ ["Area"; "Records"])
  /\ create_wavelight_records_df
       (mkDF (Index ["Area"; "Records"]) [mkRow 0 [Str "Africa"; Str "12"]])
     = Raise KeyError.
Proof.
  assert (Hn : "Meeting" ∉ ["Area"; "Records"]) by compute_done.
  split; [reflexivity|]. split; [exact Hn|].
  exact (missing_meeting_column
           (mkDF (Index ["Area"; "Records"]) [mkRow 0 [Str "Africa"; Str "12"]])
           ["Area"; "Records"] eq_refl Hn).
Defined.

Lemma meeting_without_year_witness :
  create_wavelight_records_df
    (mkDF (Index ["Athlete"; "Event"; "Meeting"])
          [ mkRow 0 [Str "Joshua Cheptegei"; Str "5000 m";
                     Str "Monaco Diamond League (2020)"];
            mkRow 1 [Str "Jakob Ingebrigsten"; Str "2000 m";
                     Str "Impossible Games"] ])
  = Raise IndexError.
Proof.
  apply (meeting_without_year _ ["Athlete"; "Event"; "Meeting"] 2);
    [reflexivity|reflexivity| |].
  - repeat constructor; eexists; reflexivity.
  - apply Exists_cons_tl, Exists_cons_hd. eexists. split; reflexivity.
Defined.

Lemma normalized_rows_marked_witness :
  create_wavelight_records_df sample_vendor_page = Ok sample_wave
  /\ exists jw,
      get_loc KeyError "wavelight" sample_wave = Ok jw
      /\ (forall i r, rows sample_wave !! i = Some r ->
            ~ (i = 1%nat /\ jw = 0%nat) ->
            read sample_wave r "wavelight" = Some (Str "y"))
      /\ (jw <> 0%nat -> vendor_marked sample_wave).
Proof.
  assert (E : create_wavelight_records_df sample_vendor_page = Ok sample_wave)
    by (vm_compute; reflexivity).
  split; [exact E|].
  exact (normalized_rows_marked sample_vendor_page sample_wave E).
Defined.

(** On the sample page the third meeting, [Memorial van Damme], becomes
    [Diamond League]. *)
Lemma meeting_remap_witness :
  create_wavelight_records_df sample_vendor_page = Ok sample_wave
  /\ exists r,
      rows sample_wave !! 2%nat = Some r
      /\ read sample_vendor_page
           (mkRow 2 [Str "Joshua Cheptegei"; Str "5000 m";
                     Str "Memorial van Damme (2020)"]) "Meeting"
         = Some (Str "Memorial van Damme (2020)")
      /\ read sample_wave r "Meeting" = Some (Str "Diamond League").
Proof.
  assert (E : create_wavelight_records_df sample_vendor_page = Ok sample_wave)
    by (vm_compute; reflexivity).
  split; [exact E|].
  destruct (meeting_remap sample_vendor_page sample_wave E 2 _ eq_refl)
    as (r & s & name & Hr & Hs & Hname & Hcase).
  exists r. split; [exact Hr|]. split; [reflexivity|].
  assert (s = "Memorial van Damme (2020)") as -> by (vm_compute in Hs; congruence).
  assert (name = "Memorial van Damme") as -> by (vm_compute in Hname; congruence).
  destruct Hcase as [Hin _]; [intros [Hi _]; discriminate Hi|].
  apply (Hin "Memorial van Damme" "Diamond League"); [|reflexivity].
  apply list_elem_of_In. simpl. do 5 right. left. reflexivity.
Defined.

Lemma normalized_meeting_witness :
  create_wavelight_records_df sample_vendor_page = Ok sample_wave
  /\ sample_vendor_page.(rows) !! 2%nat
     = Some (mkRow 2 [Str "Joshua Cheptegei"; Str "5000 m";
                      Str "Memorial van Damme (2020)"])
  /\ exists r c name,
      rows sample_wave !! 2%nat = Some r
      /\ read sample_vendor_page
           (mkRow 2 [Str "Joshua Cheptegei"; Str "5000 m";
                     Str "Memorial van Damme (2020)"]) "Meeting" = Some c
      /\ meeting_name c = Ok (Str name)
      /\ (~ (2%nat = 1%nat /\ get_loc KeyError "Meeting" sample_wave = Ok 0%nat) ->
          read sample_wave r "Meeting" = Some (map_dict mapper (Str name))
          /\ (read sample_wave r "Meeting" = Some NA
              \/ exists k v, (k, v) ∈ mapper_items
                              /\ read sample_wave r "Meeting" = Some (Str v))).
Proof.
  assert (E : create_wavelight_records_df sample_vendor_page = Ok sample_wave)
    by (vm_compute; reflexivity).
  split; [exact E|]. split; [reflexivity|].
  exact (normalized_meeting sample_vendor_page sample_wave E 2 _ eq_refl).
Defined.

Lemma normalized_other_cells_witness :
  create_wavelight_records_df sample_vendor_page = Ok sample_wave
  /\ length (rows sample_wave) = length (rows sample_vendor_page)
  /\ (exists r1, rows sample_wave !! 1%nat = Some r1
                 /\ cell_at 0 r1 = Str "Jakob Ingebrigtsen")
  /\ forall i r0, rows sample_vendor_page !! i = Some r0 ->
       exists r, rows sample_wave !! i = Some r /\ label r = label r0
         /\ forall n c, n ∉ ["Meeting"; "year"; "wavelight"] ->
              read sample_vendor_page r0 n = Some c ->
              ~ (i = 1%nat /\ get_loc KeyError n sample_wave = Ok 0%nat) ->
              read sample_wave r n = Some c.
Proof.
  assert (E : create_wavelight_records_df sample_vendor_page = Ok sample_wave)
    by (vm_compute; reflexivity).
  split; [exact E|].
  exact (normalized_other_cells sample_vendor_page sample_wave E).
Defined.

(** ** [combine_dfs]: what it needs, how it fails, and a second call *)

Section MergerEdges.
Import PdFacts.

(** The dtype check of the join. *)
Variable can_merge : list cell -> list cell -> bool.

Ltac not_in_literal H :=
  repeat (apply elem_of_cons in H as [H|H]; [discriminate H|]);
  by apply elem_of_nil in H.

(** A column of integers is no datetime64 column. *)
Lemma integers_not_datetime64 cs :
  Forall (fun c => exists z, c = Int z) cs -> is_datetime64 cs = false.
Proof.
  unfold is_datetime64. destruct 1 as [|c cs [z ->] _]; [done|]. done.
Qed.

Lemma astype_int64_again xs ys :
  astype_int64 xs = Ok ys -> astype_int64 ys = Ok ys.
Proof.
  unfold astype_int64. intros H. apply mapR_Forall2 in H.
  assert (Hall : Forall (fun c => exists z, c = Int z /\ - 2 ^ 63 <= z < 2 ^ 63) ys).
  { generalize (is_datetime64 xs) as dt, H. clear. intros dt.
    induction 1 as [|x y xs ys Hxy _ IH]; constructor; [|done].
    apply int64_of_Ok in Hxy as (z & -> & Hz & _). eauto. }
  rewrite integers_not_datetime64
    by (eapply Forall_impl; [exact Hall|]; intros c (z & -> & _); eauto).
  clear H. induction Hall as [|c cs (z & -> & Hz) _ IH]; [done|].
  simpl. unfold int64. rewrite decide_True by done. simpl. by rewrite IH.
Qed.

Lemma put_again j v r : put j v (put j v r) = put j v r.
Proof.
  unfold put. cbn [label cells]. f_equal.
  rewrite length_insert, length_resize.
  rewrite resize_all_alt by (rewrite length_insert, length_resize; lia).
  apply list_insert_insert_eq.
Qed.

Lemma put_col_again j vs rs : put_col j vs (put_col j vs rs) = put_col j vs rs.
Proof.
  revert vs; induction rs as [|r rs IH]; intros vs; simpl; [done|].
  by rewrite put_again, IH.
Qed.

Lemma get_put_col j vs rs :
  length vs = length rs -> map (cell_at j) (put_col j vs rs) = vs.
Proof.
  revert vs; induction rs as [|r rs IH]; intros [|v vs] Hl; try done.
  simpl in *. rewrite cell_at_put_eq, IH by lia. done.
Qed.

Lemma keys_present ks ns js :
  Forall2 (fun k j => index_of k ns = Some j) ks js -> Forall (fun k => k ∈ ns) ks.
Proof.
  induction 1 as [|k j ks js Hk _ IH]; constructor; [|done].
  apply index_of_Some in Hk. by eapply list_elem_of_lookup_2.
Qed.

Lemma kept_label rns n :
  n ∈ (right_kept ["Meeting"; "year"] rns).*2 <-> n ∈ rns /\ n ∉ ["Meeting"; "year"].
Proof.
  rewrite list_elem_of_fmap. split.
  - intros ([j n'] & -> & Hp). apply right_kept_elem in Hp as [Hj Hn].
    split; [by eapply list_elem_of_lookup_2|done].
  - intros [Hin Hn]. apply list_elem_of_lookup in Hin as [j Hj].
    exists (j, n). split; [done|]. by apply right_kept_elem.
Qed.

(** The joined header holds [wavelight] exactly when one of the two
    tables, and not the other, has such a column: a column of both is
    renamed [wavelight_x] and [wavelight_y]. *)
Lemma wavelight_in_merged lns rns :
  "wavelight" ∈ merged_header lns rns records_key vendor_key ->
  ("wavelight" ∈ lns <-> "wavelight" ∉ rns).
Proof.
  unfold merged_header. rewrite right_drop_keys.
  set (K := (right_kept ["Meeting"; "year"] rns).*2).
  assert (Hov : forall n, n ∈ List.filter (fun n => bool_decide (n ∈ K)) lns
                          <-> n ∈ lns /\ n ∈ K).
  { intros n. rewrite list_elem_of_In, filter_In, <- list_elem_of_In.
    by rewrite bool_decide_eq_true. }
  assert (HK : "wavelight" ∈ K <-> "wavelight" ∈ rns).
  { unfold K. rewrite kept_label. split; [by intros [? _]|].
    intros Hin. split; [done|]. intros H. not_in_literal H. }
  intros Hin. apply elem_of_app in Hin as [Hin|Hin];
    apply list_elem_of_fmap in Hin as (n & Hn & Hin); symmetry in Hn.
  - apply add_suffix_wavelight in Hn as [-> Hno]; [|by left].
    rewrite Hov in Hno. tauto.
  - apply add_suffix_wavelight in Hn as [-> Hno]; [|by right].
    rewrite Hov in Hno. tauto.
Qed.

(** The first three statements of [combine_dfs] on a table whose years
    convert. *)
Lemma coerce_years wave :
  years_convert wave ->
  exists rns jy y0 ys wave1,
    columns wave = Index rns /\ index_of "year" rns = Some jy
    /\ get AttributeError "year" wave = Ok y0
    /\ astype_int64 y0 = Ok ys
    /\ set AttributeError "year" ys wave = Ok wave1
    /\ columns wave1 = Index rns.
Proof.
  intros (ys & Hys). apply bind_Ok in Hys as (y0 & Hy0 & Hys).
  pose proof Hy0 as Hg. apply get_Ok in Hg as (rns & jy & Hr & Hjy & _).
  destruct (set_is_Ok AttributeError "year" ys wave rns Hr) as [wave1 Hset].
  exists rns, jy, y0, ys, wave1. do 5 (split; [done|]).
  apply set_Ok in Hset as (ns & ns' & j & Hns & Hns' & Hj & Hcase & _).
  assert (ns = rns) as -> by congruence.
  destruct Hcase as [->|(Hnin & _)]; [done|].
  apply index_of_None in Hnin. congruence.
Qed.

Ltac run_coercion H :=
  destruct (coerce_years _ H) as (rns0 & jy & y0 & ys & wave1 & Hr0 & Hjy & Hy0
                                  & Hys & Hset & Hr1);
  unfold combine_dfs; rewrite Hy0;
  change (Ok y0 ≫= ?k) with (k y0); cbv beta; rewrite Hys;
  change (Ok ys ≫= ?k) with (k ys); cbv beta; rewrite Hset;
  change (Ok wave1 ≫= ?k) with (k wave1); cbv beta;
  change ["Athlete(s)"; "Meeting"; "year"] with records_key;
  change ["Athlete"; "Meeting"; "year"] with vendor_key.

(** X14: what a successful call on tables with the flat headers [lns]
    (records) and [rns] (vendor) needs: vendor years that convert, the
    three key columns on each side, a [wavelight] column in exactly one
    of the two tables (a column of both is renamed [wavelight_x] and
    [wavelight_y] by the join), and a joined header without a repeated
    label. *)
Theorem combine_dfs_requirements wave rec out wave' rec' lns rns :
  columns rec = Index lns -> columns wave = Index rns ->
  combine_dfs can_merge wave rec = Ok (out, (wave', rec')) ->
  years_convert wave
  /\ Forall (fun k => k ∈ lns) records_key
  /\ Forall (fun k => k ∈ rns) vendor_key
  /\ ("wavelight" ∈ lns <-> "wavelight" ∉ rns)
  /\ NoDup (merged_header lns rns records_key vendor_key).
Proof.
  intros Hlf Hrf H. apply combine_dfs_Ok in H
    as (-> & lns' & rns' & jy & ys & lks & rks & jw & Hl & Hr & Hr' & Hjy & Hys
        & _ & Hrks & Hlks & Hnd & Hjw & _).
  assert (lns' = lns) as -> by congruence.
  assert (rns' = rns) as -> by congruence.
  split.
  { exists ys.
    assert (get AttributeError "year" wave = Ok (map (cell_at jy) (rows wave)))
      as -> by (apply get_Ok; eauto).
    exact Hys. }
  split; [by eapply keys_present|]. split; [by eapply keys_present|].
  split; [|done]. apply wavelight_in_merged.
  apply index_of_Some in Hjw. by eapply list_elem_of_lookup_2.
Qed.

(** X15: after a successful call every vendor row holds an integer
    year of the 64-bit range: the integer it held, the value of its
    year text, or -- in a column of time stamps, which is cast as a
    datetime64 column -- the nanoseconds since the epoch of its time
    stamp, and the smallest integer for a missing one. *)
Theorem vendor_years_integers wave rec out wave' rec' :
  combine_dfs can_merge wave rec = Ok (out, (wave', rec')) ->
  length (rows wave') = length (rows wave)
  /\ forall i w, rows wave !! i = Some w ->
      exists w' z,
        rows wave' !! i = Some w'
        /\ read wave' w' "year" = Some (Int z)
        /\ - 2 ^ 63 <= z < 2 ^ 63
        /\ (read wave w "year" = Some (Int z)
            \/ (exists s, read wave w "year" = Some (Str s)
                          /\ PyStr.int s = Some z)
            \/ (exists d, read wave w "year" = Some (Timestamp d)
                          /\ z = epoch_ns d)
            \/ (read wave w "year" = Some NA /\ z = - 2 ^ 63)).
Proof.
  intros H. apply combine_dfs_Ok in H
    as (-> & lns & rns & jy & ys & lks & rks & jw & Hl & Hr & Hr' & Hjy & Hys
        & Hrows & _).
  split; [by rewrite Hrows, length_put_col|].
  intros i w Hw. unfold astype_int64 in Hys.
  set (col := map (cell_at jy) (rows wave)) in *.
  assert (Hcol : col !! i = Some (cell_at jy w))
    by (unfold col; by rewrite list_lookup_fmap, Hw).
  destruct (mapR_lookup _ _ _ i (cell_at jy w) Hys Hcol) as (y & Hy & Hconv).
  pose proof Hconv as Hcase.
  apply int64_of_Ok in Hcase as (z & -> & Hz & Hcase).
  exists (put jy (Int z) w), z.
  split; [by rewrite Hrows, put_col_lookup, Hw, Hy|].
  unfold read, read_row. rewrite Hr, Hr', Hjy. simpl.
  split; [by rewrite cell_at_put_eq|]. split; [done|].
  destruct Hcase as [->|[(s & -> & ?)|[(d & _ & -> & ->)|[Hdt ->]]]];
    [by left|right; left; eauto|right; right; left; eauto|].
  rewrite Hdt in Hconv. simpl in Hconv.
  assert (Hin : cell_at jy w ∈ col) by (by eapply list_elem_of_lookup_2).
  unfold is_datetime64 in Hdt. apply andb_true_iff in Hdt as [Hdt _].
  rewrite forallb_forall in Hdt. apply list_elem_of_In, Hdt in Hin.
  destruct (cell_at jy w) as [|s|z|d|d]; try done; [by do 3 right|].
  apply int64_Ok in Hconv as [Hz' _]. right; right; left. exists d.
  split; [done|]. congruence.
Qed.

(** X16: A second call on the arguments as the first call left them returns
    the same table and leaves them as they are. *)
Theorem combine_dfs_again wave rec out wave' rec' :
  combine_dfs can_merge wave rec = Ok (out, (wave', rec')) ->
  combine_dfs can_merge wave' rec' = Ok (out, (wave', rec')).
Proof.
  intros H. pose proof H as H0. apply combine_dfs_Ok in H0
    as (-> & lns & rns & jy & ys & lks & rks & jw & Hl & Hr & Hr' & Hjy & Hys
        & Hrows & _).
  unfold combine_dfs in H |- *.
  apply bind_Ok in H as (y0 & Hy0 & H). apply bind_Ok in H as (ys0 & Hys0 & H).
  apply bind_Ok in H as (wave1 & Hset & H).
  assert (wave1 = wave') as ->.
  { pose proof H as H1.
    apply bind_Ok in H1 as (? & _ & H1). apply bind_Ok in H1 as (? & _ & H1).
    apply bind_Ok in H1 as (? & _ & H1). apply bind_Ok in H1 as (? & _ & H1).
    congruence. }
  assert (Hlen : length ys = length (rows wave))
    by (apply astype_int64_length in Hys; by rewrite Hys, length_map).
  assert (get AttributeError "year" wave' = Ok ys) as ->.
  { apply get_Ok. exists rns, jy. do 2 (split; [done|]).
    by rewrite Hrows, get_put_col. }
  change (Ok ys ≫= ?k) with (k ys). cbv beta.
  rewrite (astype_int64_again _ _ Hys).
  change (Ok ys ≫= ?k) with (k ys). cbv beta.
  assert (set AttributeError "year" ys wave' = Ok wave') as ->.
  { unfold set. apply (flat_Ok AttributeError) in Hr' as Hf. rewrite Hf.
    change (Ok rns ≫= ?k) with (k rns). cbv beta. rewrite Hjy.
    rewrite Hrows, put_col_again, <- Hrows, <- Hr'. by destruct wave'. }
  exact H.
Qed.

(** X17: A vendor table without a [year] column: [df_wave.year] raises
    [AttributeError]. *)
Theorem missing_year_column wave rec rns :
  columns wave = Index rns -> "year" ∉ rns ->
  combine_dfs can_merge wave rec = Raise AttributeError.
Proof.
  intros Hr Hn. unfold combine_dfs, get, get_loc.
  apply (flat_Ok AttributeError) in Hr. rewrite Hr.
  change (Ok rns ≫= ?k) with (k rns). cbv beta.
  apply index_of_None in Hn. by rewrite Hn.
Qed.


(** X19: A key column missing on either side: the join raises [KeyError]. *)
Theorem missing_key_column wave rec lns rns :
  columns rec = Index lns -> columns wave = Index rns ->
  years_convert wave ->
  ~ (Forall (fun k => k ∈ lns) records_key /\ Forall (fun k => k ∈ rns) vendor_key) ->
  combine_dfs can_merge wave rec = Raise KeyError.
Proof.
  intros Hl Hr Hy Hn. run_coercion Hy.
  assert (rns0 = rns) as -> by congruence.
  unfold merge_left. apply (flat_Ok KeyError) in Hl, Hr1. rewrite Hl, Hr1.
  change (Ok lns ≫= ?k) with (k lns). cbv beta.
  change (Ok rns ≫= ?k) with (k rns). cbv beta.
  assert (Hstep : forall ns ks,
             Forall (fun k => (exists j, or_raise (index_of k ns) KeyError = Ok j)
                              \/ or_raise (index_of k ns) KeyError = Raise KeyError) ks).
  { intros ns ks. apply Forall_forall. intros k _.
    destruct (index_of k ns); simpl; eauto. }
  assert (Hmiss : forall ns ks,
             ~ Forall (fun k => k ∈ ns) ks ->
             mapR (fun k => or_raise (index_of k ns) KeyError) ks = Raise KeyError).
  { intros ns ks Hnf. apply mapR_Raise; [apply Hstep|].
    apply not_Forall_Exists in Hnf; [|apply _].
    eapply Exists_impl; [exact Hnf|]. intros k Hk. simpl in Hk.
    apply index_of_None in Hk. by rewrite Hk. }
  destruct (decide (Forall (fun k => k ∈ rns) vendor_key)) as [Hrk|Hrk].
  - destruct (mapR_Ok_intro (fun k => or_raise (index_of k rns) KeyError) vendor_key)
      as [rks ->].
    { eapply Forall_impl; [exact Hrk|]. intros k Hk.
      destruct (index_of_is_Some _ _ Hk) as [j ->]. by exists j. }
    change (Ok rks ≫= ?k) with (k rks). cbv beta.
    rewrite (Hmiss lns records_key); [done|]. tauto.
  - by rewrite (Hmiss rns vendor_key Hrk).
Qed.

End MergerEdges.

Lemma combine_dfs_requirements_witness :
  exists out wave' lns rns,
    columns sample_records = Index lns /\ columns sample_wave = Index rns
    /\ combine_dfs text_or_numbers sample_wave sample_records = Ok (out, (wave', sample_records))
    /\ years_convert sample_wave
    /\ Forall (fun k => k ∈ lns) records_key
    /\ Forall (fun k => k ∈ rns) vendor_key
    /\ ("wavelight" ∈ lns <-> "wavelight" ∉ rns)
    /\ NoDup (merged_header lns rns records_key vendor_key).
Proof.
  destruct (combine_dfs text_or_numbers sample_wave sample_records) as [[out [wave' rec']]|e] eqn:E.
  - assert (rec' = sample_records) as ->.
    { vm_compute in E. by injection E as _ _ <-. }
    exists out, wave',
      ["Event"; "Perf."; "Athlete(s)"; "Date"; "Meeting"; "gender"; "year"],
      ["Athlete"; "Event"; "Meeting"; "year"; "wavelight"].
    split; [reflexivity|]. split; [reflexivity|]. split; [reflexivity|].
    exact (combine_dfs_requirements text_or_numbers sample_wave sample_records
             out wave' sample_records _ _ eq_refl eq_refl E).
  - vm_compute in E. discriminate E.
Defined.

Lemma vendor_years_integers_witness :
  exists out wave',
    combine_dfs text_or_numbers sample_wave sample_records = Ok (out, (wave', sample_records))
    /\ length (rows wave') = length (rows sample_wave)
    /\ forall i w, rows sample_wave !! i = Some w ->
        exists w' z,
          rows wave' !! i = Some w'
          /\ read wave' w' "year" = Some (Int z)
          /\ - 2 ^ 63 <= z < 2 ^ 63
          /\ (read sample_wave w "year" = Some (Int z)
              \/ (exists s, read sample_wave w "year" = Some (Str s)
                            /\ PyStr.int s = Some z)
              \/ (exists d, read sample_wave w "year" = Some (Timestamp d)
                            /\ z = epoch_ns d)
              \/ (read sample_wave w "year" = Some NA /\ z = - 2 ^ 63)).
Proof.
  destruct (combine_dfs text_or_numbers sample_wave sample_records) as [[out [wave' rec']]|e] eqn:E.
  - assert (rec' = sample_records) as ->.
    { vm_compute in E. by injection E as _ _ <-. }
    exists out, wave'. split; [reflexivity|].
    exact (vendor_years_integers text_or_numbers sample_wave sample_records
             out wave' sample_records E).
  - vm_compute in E. discriminate E.
Defined.

Lemma combine_dfs_again_witness :
  exists out wave',
    combine_dfs text_or_numbers sample_wave sample_records = Ok (out, (wave', sample_records))
    /\ wave' <> sample_wave
    /\ combine_dfs text_or_numbers wave' sample_records = Ok (out, (wave', sample_records)).
Proof.
  destruct (combine_dfs text_or_numbers sample_wave sample_records) as [[out [wave' rec']]|e] eqn:E.
  - assert (rec' = sample_records) as ->.
    { vm_compute in E. by injection E as _ _ <-. }
    exists out, wave'. split; [reflexivity|].
    split; [vm_compute in E; injection E as _ <-; discriminate|].
    exact (combine_dfs_again text_or_numbers sample_wave sample_records out wave'
             sample_records E).
  - vm_compute in E. discriminate E.
Defined.

(** The page table itself, passed to the merger before it is
    normalized, has no [year] column. *)
Lemma missing_year_column_witness :
  columns sample_vendor_page = Index ["Athlete"; "Event"; "Meeting"]
  /\ ("year" ∉ ["Athlete"; "Event"; "Meeting"])
  /\ combine_dfs text_or_numbers sample_vendor_page sample_records = Raise AttributeError.
Proof.
  assert (Hn : "year" ∉ ["Athlete"; "Event"; "Meeting"]) by compute_done.
  split; [reflexivity|]. split; [exact Hn|].
  exact (missing_year_column text_or_numbers sample_vendor_page sample_records
           ["Athlete"; "Event"; "Meeting"] eq_refl Hn).
Defined.


Lemma missing_key_column_witness :
  years_convert sample_wave
  /\ combine_dfs text_or_numbers sample_wave
       (mkDF (Index ["Area"; "Records"]) [mkRow 0 [Str "Africa"; Str "12"]])
     = Raise KeyError.
Proof.
  split; [exact sample_years_convert|].
  apply (missing_key_column text_or_numbers sample_wave _ ["Area"; "Records"]
           ["Athlete"; "Event"; "Meeting"; "year"; "wavelight"]);
    [reflexivity|reflexivity|exact sample_years_convert|].
  intros [H _]. apply Forall_cons in H as [H _].
  apply elem_of_cons in H as [H|H]; [discriminate H|].
  apply elem_of_cons in H as [H|H]; [discriminate H|].
  by apply elem_of_nil in H.
Defined.
